(** * class_schedule_creator: the demand calculator and the greedy scheduler

    A shallow embedding of [models.py], [graduation_paths.py],
    [course_catalog.py], [resource_calculator.py] and [scheduler.py].

    Conventions of the embedding.
    - Python [int] is [Z].
    - A Python [dict] whose iteration order the code relies on
      ([students_per_path], [course_demand], [sections_needed],
      [room_type_sections], [min_rooms], [subject_sections], [min_teachers],
      the [defaultdict(list)] of [validate]) is an insertion-ordered
      association list, see [dict_get] and [dict_set].
    - The availability tables [classroom_available[semester][period][id]] and
      [teacher_available[semester][period][id]] are only read and written by
      key: they are finite maps keyed by the triple (semester, period, id).
      Reading a key that was never created raises [KeyError], as in Python.
    - A raised exception is the [Raise] branch of [result].
    - [math.ceil(a / b)] on two ints is modelled by the exact ceiling of the
      quotient.  Python rounds the quotient to a double first: the two agree
      whenever |a| and |b| are below 2^53, the range of enrolments and sizes
      the program is meant for.  Beyond it the double can have another
      ceiling and a quotient that fits no double raises OverflowError, which
      the model does not show; so every statement about the numbers the
      calculator returns has the hypothesis that its divisions are in that
      range ([double_exact], [sections_in_range], [rooms_in_range],
      [teachers_in_range]).
    - [list(set(xs))] enumerates the distinct elements of [xs] in an order
      CPython fixes per process (string hashing is seeded); that order is the
      parameter [set_order] of the development.
    - [print] appends a line to the output log carried by the scheduler
      state. *)

From stdpp Require Import base tactics option list list_numbers sorting strings pretty gmap.
From Stdlib Require Import ZArith Lia.

Open Scope string_scope.
Open Scope list_scope.
Open Scope Z_scope.

Set Warnings "-clear-no-such-hyp".

(** ** Exceptions *)

Inductive exn : Set := ZeroDivisionError | KeyError.

Inductive result (A : Type) : Type :=
| Ok (a : A)
| Raise (e : exn).
Arguments Ok {A} a.
Arguments Raise {A} e.

Definition rbind {A B} (m : result A) (f : A -> result B) : result B :=
  match m with
  | Ok a => f a
  | Raise e => Raise e
  end.

Notation "'do' x <- m ; k" := (rbind m (fun x => k))
  (at level 10, x name, m at level 100, k at level 200).

(** Monadic loop over a list: [for x in xs: acc = f(acc, x)]. *)
Fixpoint for_each {A S} (f : S -> A -> result S) (xs : list A) (s : S) : result S :=
  match xs with
  | [] => Ok s
  | x :: r => do s' <- f s x; for_each f r s'
  end.

(** ** models.py *)

Inductive SubjectArea : Set :=
| HISTORY_SOCIAL_SCIENCE | ENGLISH | MATHEMATICS | LABORATORY_SCIENCE
| LANGUAGE_OTHER | VISUAL_PERFORMING_ARTS | COLLEGE_PREP_ELECTIVE
| PHYSICAL_EDUCATION | RELIGIOUS_STUDIES | ELECTIVE.

Inductive RoomType : Set :=
| GENERAL | CHEMISTRY_LAB | BIOLOGY_LAB | COMPUTER_LAB | ROBOTICS_LAB
| ART_ROOM | GYM | MUSIC_ROOM.

Inductive GraduationPath : Set := MINIMUM | PRE_MED | ENGINEERING.

Inductive CourseLevel : Set := REGULAR | HONORS | AP.

#[global] Instance SubjectArea_eq_dec : EqDecision SubjectArea.
Proof. solve_decision. Defined.
#[global] Instance RoomType_eq_dec : EqDecision RoomType.
Proof. solve_decision. Defined.
#[global] Instance GraduationPath_eq_dec : EqDecision GraduationPath.
Proof. solve_decision. Defined.
#[global] Instance CourseLevel_eq_dec : EqDecision CourseLevel.
Proof. solve_decision. Defined.

(** [Course]: the fields the calculator and the scheduler read.
    ([prerequisites], [grade_levels], [is_required_for_paths] and
    [description] are never read by them.) *)
Record Course : Set := mkCourse {
  code : string;
  name : string;
  subject_area : SubjectArea;
  level : CourseLevel;
  credits : Z;
  semesters : Z;
  room_type_required : RoomType
}.

Record Classroom : Set := mkClassroom {
  cls_id : string;
  cls_name : string;
  room_type : RoomType;
  capacity : Z
}.

Record Teacher : Set := mkTeacher {
  tch_id : string;
  tch_name : string;
  subject_areas : list SubjectArea;
  can_teach_ap : bool;
  max_periods_per_day : Z
}.

(** [Classroom.can_host] *)
Definition can_host (c : Classroom) (course : Course) : bool :=
  if decide (room_type_required course = GENERAL) then true
  else bool_decide (room_type c = room_type_required course).

(** [Teacher.can_teach] *)
Definition can_teach (t : Teacher) (course : Course) : bool :=
  if negb (bool_decide (subject_area course ∈ subject_areas t)) then false
  else if bool_decide (level course = AP) && negb (can_teach_ap t) then false
  else true.

(** ** graduation_paths.py *)

Record YearPlan : Set := mkYearPlan {
  year : Z;
  semester1_courses : list string;
  semester2_courses : list string
}.

Record GraduationPathPlan : Set := mkPlan {
  plan_path : GraduationPath;
  year_plans : list YearPlan
}.

(** ** Insertion-ordered dictionaries *)

Section Dict.
Context {K V : Type} `{EqDecision K}.

Fixpoint dict_get (d : list (K * V)) (k : K) : option V :=
  match d with
  | [] => None
  | (k', v) :: r => if decide (k = k') then Some v else dict_get r k
  end.

(** [d[k] = v]: an existing key keeps its position, a new key goes last. *)
Fixpoint dict_set (d : list (K * V)) (k : K) (v : V) : list (K * V) :=
  match d with
  | [] => [(k, v)]
  | (k', v') :: r =>
      if decide (k = k') then (k', v) :: r else (k', v') :: dict_set r k v
  end.

Definition dict_keys (d : list (K * V)) : list K := d.*1.
Definition dict_values (d : list (K * V)) : list V := d.*2.
End Dict.

(** [sum(xs)] *)
Definition sum (xs : list Z) : Z := foldr Z.add 0 xs.

(** [math.ceil(a / b)] on two ints of magnitude below 2^53: the exact
    ceiling of the quotient, and ZeroDivisionError for a zero divisor (which
    Python raises whatever the dividend). *)
Definition ceil_div (a b : Z) : result Z :=
  if decide (b = 0) then Raise ZeroDivisionError else Ok (- ((- a) / b)).

(** [sorted(xs, key=key)]: Python's sort is stable, so its result is the one
    of any stable sort; here insertion from the right, each element put in
    front of the first element whose key is not smaller. *)
Fixpoint insert_by {A} (key : A -> Z) (x : A) (l : list A) : list A :=
  match l with
  | [] => [x]
  | y :: r => if decide (key x <= key y) then x :: y :: r else y :: insert_by key x r
  end.

Definition sorted {A} (key : A -> Z) (l : list A) : list A :=
  foldr (insert_by key) [] l.

(** ** resource_calculator.py *)

(** The constructor arguments shared by [ResourceCalculator] and [Scheduler];
    both constructors only store them. *)
Record Config : Set := mkConfig {
  students_per_path : list (GraduationPath * Z);
  max_class_size : Z;
  periods_per_day : Z
}.

(** The [{"regular": _, "ap": _}] buckets of [calculate_min_teachers]. *)
Record Levels : Set := mkLevels { regular : Z; ap : Z }.

(** The [{"ap_qualified": _, "regular_only": _, "total": _}] entries of its
    result. *)
Record TeacherNeed : Set := mkNeed {
  ap_qualified : Z;
  regular_only : Z;
  total : Z
}.

(** [ResourceCalculator.__init__]: stores its three arguments (and the
    plans); nothing is checked and nothing is computed. *)
Definition ResourceCalculator_init (students : list (GraduationPath * Z))
    (mcs ppd : Z) : result Config :=
  Ok (mkConfig students mcs ppd).

(** [Scheduler.__init__]: stores the same three arguments and builds its
    [ResourceCalculator] from them. *)
Definition Scheduler_init (students : list (GraduationPath * Z))
    (mcs ppd : Z) : result Config :=
  do calculator <- ResourceCalculator_init students mcs ppd;
  Ok calculator.

Section Calculator.
Variable COURSE_CATALOG : list (string * Course).
Variable paths : GraduationPath -> GraduationPathPlan.
Variable set_order : list string -> list string.

(** [YearPlan.get_all_courses] *)
Definition get_all_courses (yp : YearPlan) : list string :=
  set_order (semester1_courses yp ++ semester2_courses yp).

(** [course_demand[code][year] += num_students] on the nested defaultdict *)
Definition add_demand (course_demand : list (string * list (Z * Z)))
    (c : string) (y num_students : Z) : list (string * list (Z * Z)) :=
  let inner := default [] (dict_get course_demand c) in
  dict_set course_demand c
    (dict_set inner y (default 0 (dict_get inner y) + num_students)).

(** The first loop nest of [calculate_sections_needed]. *)
Definition course_demand (cfg : Config) : list (string * list (Z * Z)) :=
  foldl (fun cd '(path, num_students) =>
    foldl (fun cd year_plan =>
      foldl (fun cd c => add_demand cd c (year year_plan) num_students)
            cd (get_all_courses year_plan))
      cd (year_plans (paths path)))
    [] (students_per_path cfg).

(** [sections_needed[code][year] = math.ceil(num_students / max_class_size)] *)
Definition set_sections (mcs : Z) (c : string)
    (sections_needed : list (string * list (Z * Z))) (yn : Z * Z)
    : result (list (string * list (Z * Z))) :=
  do n <- ceil_div yn.2 mcs;
  Ok (dict_set sections_needed c
        (dict_set (default [] (dict_get sections_needed c)) yn.1 n)).

Definition calculate_sections_needed (cfg : Config)
    : result (list (string * list (Z * Z))) :=
  for_each (fun sections_needed '(c, year_demands) =>
              for_each (set_sections (max_class_size cfg) c)
                       year_demands sections_needed)
           (course_demand cfg) [].

(** The grouping loop of [calculate_min_classrooms]. *)
Definition room_type_sections (sections_needed : list (string * list (Z * Z)))
    : list (RoomType * Z) :=
  foldl (fun rts '(c, year_sections) =>
    match dict_get COURSE_CATALOG c with
    | None => rts
    | Some course =>
        let rt := room_type_required course in
        let total_sections := sum (dict_values year_sections) in
        dict_set rts rt (default 0 (dict_get rts rt) + total_sections)
    end) [] sections_needed.

Definition min_rooms_of (ppd : Z) (rts : list (RoomType * Z))
    : result (list (RoomType * Z)) :=
  for_each (fun min_rooms '(rt, total_sections) =>
              do n <- ceil_div total_sections ppd;
              Ok (dict_set min_rooms rt n))
           rts [].

Definition calculate_min_classrooms (cfg : Config)
    : result (list (RoomType * Z)) :=
  do sections_needed <- calculate_sections_needed cfg;
  min_rooms_of (periods_per_day cfg) (room_type_sections sections_needed).

(** The grouping loop of [calculate_min_teachers]. *)
Definition subject_sections (sections_needed : list (string * list (Z * Z)))
    : list (SubjectArea * Levels) :=
  foldl (fun ss '(c, year_sections) =>
    match dict_get COURSE_CATALOG c with
    | None => ss
    | Some course =>
        let total_sections := sum (dict_values year_sections) in
        let sa := subject_area course in
        let levels := default (mkLevels 0 0) (dict_get ss sa) in
        dict_set ss sa
          (if decide (level course = AP)
           then mkLevels (regular levels) (ap levels + total_sections)
           else mkLevels (regular levels + total_sections) (ap levels))
    end) [] sections_needed.

(** The body of the second loop of [calculate_min_teachers]. *)
Definition teachers_for (max_teaching_periods : Z) (levels : Levels)
    : result TeacherNeed :=
  let ap_sections := ap levels in
  let regular_sections := regular levels in
  do ap_teachers <- ceil_div ap_sections max_teaching_periods;
  let ap_teacher_capacity := ap_teachers * max_teaching_periods - ap_sections in
  let remaining_regular := Z.max 0 (regular_sections - ap_teacher_capacity) in
  do regular_teachers <- ceil_div remaining_regular max_teaching_periods;
  Ok (mkNeed ap_teachers regular_teachers (ap_teachers + regular_teachers)).

Definition min_teachers_of (max_teaching_periods : Z)
    (ss : list (SubjectArea * Levels)) : result (list (SubjectArea * TeacherNeed)) :=
  for_each (fun min_teachers '(subject, levels) =>
              do need <- teachers_for max_teaching_periods levels;
              Ok (dict_set min_teachers subject need))
           ss [].

Definition calculate_min_teachers (cfg : Config)
    : result (list (SubjectArea * TeacherNeed)) :=
  do sections_needed <- calculate_sections_needed cfg;
  let max_teaching_periods := periods_per_day cfg - 1 in
  min_teachers_of max_teaching_periods (subject_sections sections_needed).
End Calculator.

(** ** scheduler.py *)

(** [ScheduledSection]; [student_ids] is left at its empty default by every
    constructor call of the program and is omitted. *)
Record ScheduledSection : Set := mkSection {
  course_code : string;
  section_id : Z;
  period : Z;
  semester : Z;
  classroom_id : string;
  teacher_id : string
}.

Record MasterSchedule : Set := mkMasterSchedule {
  sections : list ScheduledSection;
  classrooms : list Classroom;
  teachers : list Teacher
}.

(** One entry of the list [validate] returns.  The entry of the program is
    an f-string; the record keeps the values it interpolates and which of the
    two fixed texts it is. *)
Inductive ConflictKind : Set := ClassroomConflict | TeacherConflict.

Record Conflict : Set := mkConflict {
  kind : ConflictKind;
  resource : string;
  at_period : Z;
  at_semester : Z;
  courses : list string
}.

(** The transient bookkeeping of [create_schedule]. *)
Record SchedState : Type := mkState {
  classroom_available : gmap (Z * Z * string) bool;
  teacher_available : gmap (Z * Z * string) bool;
  teacher_sections : gmap string Z;
  scheduled_sections : list ScheduledSection;
  section_counter : Z;
  stdout : list string
}.

Definition RoomType_name (rt : RoomType) : string :=
  match rt with
  | GENERAL => "GENERAL" | CHEMISTRY_LAB => "CHEMISTRY_LAB"
  | BIOLOGY_LAB => "BIOLOGY_LAB" | COMPUTER_LAB => "COMPUTER_LAB"
  | ROBOTICS_LAB => "ROBOTICS_LAB" | ART_ROOM => "ART_ROOM"
  | GYM => "GYM" | MUSIC_ROOM => "MUSIC_ROOM"
  end.

(** [room_names.get(room_type, room_type.name)]: every member has an entry. *)
Definition room_names (rt : RoomType) : string :=
  match rt with
  | GENERAL => "Room" | CHEMISTRY_LAB => "Chem Lab"
  | BIOLOGY_LAB => "Bio Lab" | COMPUTER_LAB => "Computer Lab"
  | ROBOTICS_LAB => "Robotics Lab" | ART_ROOM => "Art Room"
  | GYM => "Gymnasium" | MUSIC_ROOM => "Music Room"
  end.

(** [subject_abbrev.get(subject, subject.name[:4])]: [ELECTIVE] has no entry
    and falls back to the first four letters of its name. *)
Definition subject_abbrev (s : SubjectArea) : string :=
  match s with
  | HISTORY_SOCIAL_SCIENCE => "HIST" | ENGLISH => "ENG" | MATHEMATICS => "MATH"
  | LABORATORY_SCIENCE => "SCI" | LANGUAGE_OTHER => "ARAB"
  | VISUAL_PERFORMING_ARTS => "ART" | COLLEGE_PREP_ELECTIVE => "TECH"
  | PHYSICAL_EDUCATION => "PE" | RELIGIOUS_STUDIES => "REL" | ELECTIVE => "ELEC"
  end.

(** The keys of one availability table:
    [{1: {p: {x.id: True ...} for p in range(1, ppd + 1)}, 2: ...}]. *)
Definition table_keys (ids : list string) (ppd : Z) : list (Z * Z * string) :=
  sem ← [1; 2]; p ← seqZ 1 ppd; i ← ids; [(sem, p, i)].

Definition init_available (ids : list string) (ppd : Z) : gmap (Z * Z * string) bool :=
  list_to_map ((fun k => (k, true)) <$> table_keys ids ppd).

(** The scan [for room in compatible_rooms: if classroom_available[...]]. *)
Fixpoint find_room (avail : gmap (Z * Z * string) bool) (sem p : Z)
    (rooms : list Classroom) : result (option Classroom) :=
  match rooms with
  | [] => Ok None
  | room :: r =>
      match avail !! (sem, p, cls_id room) with
      | None => Raise KeyError
      | Some true => Ok (Some room)
      | Some false => find_room avail sem p r
      end
  end.

(** The scan [for teacher in compatible_teachers: if (teacher_available[...]
    and teacher_sections[teacher.id] < teacher.max_periods_per_day * 2)]. *)
Fixpoint find_teacher (avail : gmap (Z * Z * string) bool) (loads : gmap string Z)
    (sem p : Z) (ts : list Teacher) : result (option Teacher) :=
  match ts with
  | [] => Ok None
  | teacher :: r =>
      match avail !! (sem, p, tch_id teacher) with
      | None => Raise KeyError
      | Some free =>
          if free && bool_decide (default 0 (loads !! tch_id teacher)
                                  < max_periods_per_day teacher * 2)
          then Ok (Some teacher)
          else find_teacher avail loads sem p r
      end
  end.

(** The placement at lines 286-303: a new section id, the section appended,
    both resources marked used, the teacher's load incremented. *)
Definition place (c : string) (sem p : Z) (room : Classroom) (teacher : Teacher)
    (st : SchedState) : SchedState :=
  let counter := section_counter st + 1 in
  mkState (<[(sem, p, cls_id room) := false]> (classroom_available st))
          (<[(sem, p, tch_id teacher) := false]> (teacher_available st))
          (<[tch_id teacher := default 0 (teacher_sections st !! tch_id teacher) + 1]>
             (teacher_sections st))
          (scheduled_sections st ++
             [mkSection c counter p sem (cls_id room) (tch_id teacher)])
          counter
          (stdout st).

(** The semester-2 twin at lines 310-320: same id, period, room and teacher;
    the load counter is not touched. *)
Definition place_mirror (c : string) (p : Z) (room : Classroom) (teacher : Teacher)
    (st : SchedState) : SchedState :=
  mkState (<[(2, p, cls_id room) := false]> (classroom_available st))
          (<[(2, p, tch_id teacher) := false]> (teacher_available st))
          (teacher_sections st)
          (scheduled_sections st ++
             [mkSection c (section_counter st) p 2 (cls_id room) (tch_id teacher)])
          (section_counter st)
          (stdout st).

(** [if course.semesters == 2 and semester == 1: if (classroom_available[2]...
    and teacher_available[2]...): ...] *)
Definition mirror (course : Course) (c : string) (sem p : Z) (room : Classroom)
    (teacher : Teacher) (st : SchedState) : result SchedState :=
  if decide (semesters course = 2 ∧ sem = 1) then
    match classroom_available st !! (2, p, cls_id room) with
    | None => Raise KeyError
    | Some false => Ok st
    | Some true =>
        match teacher_available st !! (2, p, tch_id teacher) with
        | None => Raise KeyError
        | Some false => Ok st
        | Some true => Ok (place_mirror c p room teacher st)
        end
    end
  else Ok st.

(** The body of [for period in range(1, periods_per_day + 1)], on the pair of
    the flag [scheduled] and the bookkeeping.  [break] leaves the remaining
    periods untouched, as does every later iteration once the flag is set. *)
Definition try_period (course : Course) (c : string)
    (compatible_rooms : list Classroom) (compatible_teachers : list Teacher)
    (sem : Z) (acc : bool * SchedState) (p : Z) : result (bool * SchedState) :=
  if acc.1 then Ok acc
  else
    do available_room <- find_room (classroom_available acc.2) sem p compatible_rooms;
    match available_room with
    | None => Ok acc
    | Some room =>
        do available_teacher <-
          find_teacher (teacher_available acc.2) (teacher_sections acc.2)
                       sem p compatible_teachers;
        match available_teacher with
        | None => Ok acc
        | Some teacher =>
            do st <- mirror course c sem p room teacher
                       (place c sem p room teacher acc.2);
            Ok (true, st)
        end
    end.

Definition semesters_to_schedule (course : Course) : list Z :=
  if decide (semesters course = 2) then [1; 2] else [1].

(** The body of [for section_num in range(total_sections)]. *)
Definition schedule_unit (ppd : Z) (course : Course) (c : string)
    (compatible_rooms : list Classroom) (compatible_teachers : list Teacher)
    (st : SchedState) : result SchedState :=
  do r <- for_each (fun acc sem =>
             for_each (try_period course c compatible_rooms compatible_teachers sem)
                      (seqZ 1 ppd) acc)
           (semesters_to_schedule course) (false, st);
  if r.1 then Ok r.2
  else Ok (mkState (classroom_available r.2) (teacher_available r.2)
                   (teacher_sections r.2) (scheduled_sections r.2)
                   (section_counter r.2)
                   (stdout r.2 ++
                      ["WARNING: Could not schedule section of " +:+ name course])).

Section Scheduler.
Variable COURSE_CATALOG : list (string * Course).
Variable paths : GraduationPath -> GraduationPathPlan.
Variable set_order : list string -> list string.

(** [MasterSchedule.get_sections_by_period] *)
Definition get_sections_by_period (ms : MasterSchedule) (p sem : Z)
    : list ScheduledSection :=
  filter (fun s => period s = p ∧ semester s = sem) (sections ms).

(** [used = defaultdict(list); for section in sections:
    used[key(section)].append(section)] *)
Definition group_by (key : ScheduledSection -> string)
    (l : list ScheduledSection) : list (string * list ScheduledSection) :=
  foldl (fun used s => dict_set used (key s) (default [] (dict_get used (key s)) ++ [s]))
        [] l.

(** [[s.course.name for s in group]]; [s.course] is
    [COURSE_CATALOG[s.course_code]]. *)
Definition course_names (group : list ScheduledSection) : result (list string) :=
  for_each (fun names s =>
              match dict_get COURSE_CATALOG (course_code s) with
              | None => Raise KeyError
              | Some course => Ok (names ++ [name course])
              end) group [].

Definition check_groups (k : ConflictKind) (p sem : Z)
    (used : list (string * list ScheduledSection)) (errors : list Conflict)
    : result (list Conflict) :=
  for_each (fun errors '(i, group) =>
              if decide (1 < length group)%nat then
                do names <- course_names group;
                Ok (errors ++ [mkConflict k i p sem names])
              else Ok errors)
           used errors.

(** [MasterSchedule.validate] *)
Definition validate (ms : MasterSchedule) : result (list Conflict) :=
  for_each (fun errors sem =>
    for_each (fun errors p =>
      let secs := get_sections_by_period ms p sem in
      do errors <- check_groups ClassroomConflict p sem
                     (group_by classroom_id secs) errors;
      check_groups TeacherConflict p sem (group_by teacher_id secs) errors)
      (seqZ 1 6) errors)
    [1; 2] [].

(** [Scheduler.create_classrooms] *)
Definition create_classrooms (cfg : Config) : result (list Classroom) :=
  do min_rooms <- calculate_min_classrooms COURSE_CATALOG paths set_order cfg;
  Ok (foldl (fun classrooms '(rt, count) =>
               foldl (fun classrooms i =>
                        classrooms ++
                          [mkClassroom (RoomType_name rt +:+ "_" +:+ pretty i)
                                       (room_names rt +:+ " " +:+ pretty i)
                                       rt (max_class_size cfg)])
                     classrooms (seqZ 1 count))
            [] min_rooms).

(** The body of [for subject, info in min_teachers.items()]. *)
Definition teachers_of_subject (cfg : Config) (teachers : list Teacher)
    (entry : SubjectArea * TeacherNeed) : list Teacher :=
  let abbrev := subject_abbrev entry.1 in
  let info := entry.2 in
  let teachers :=
    foldl (fun teachers i =>
             teachers ++
               [mkTeacher (abbrev +:+ "_AP_" +:+ pretty i)
                          (abbrev +:+ " Teacher " +:+ pretty i +:+ " (AP)")
                          [entry.1] true (periods_per_day cfg - 1)])
          teachers (seqZ 1 (ap_qualified info)) in
  foldl (fun teachers i =>
           teachers ++
             [mkTeacher (abbrev +:+ "_REG_" +:+ pretty i)
                        (abbrev +:+ " Teacher " +:+ pretty (i + ap_qualified info))
                        [entry.1] false (periods_per_day cfg - 1)])
        teachers (seqZ 1 (regular_only info)).

(** [Scheduler.create_teachers] *)
Definition create_teachers (cfg : Config) : result (list Teacher) :=
  do min_teachers <- calculate_min_teachers COURSE_CATALOG paths set_order cfg;
  Ok (foldl (teachers_of_subject cfg) [] min_teachers).

(** The local function [course_priority] of [create_schedule]. *)
Definition course_priority (c : string) : Z :=
  match dict_get COURSE_CATALOG c with
  | None => 0
  | Some course =>
      let priority := 0 in
      let priority := if decide (level course = AP) then priority + 100 else priority in
      let priority := if decide (room_type_required course ≠ GENERAL)
                      then priority + 50 else priority in
      - priority
  end.

(** The body of [for course_code in sorted_courses]. *)
Definition schedule_course (ppd : Z) (all_classrooms : list Classroom)
    (all_teachers : list Teacher) (sections_needed : list (string * list (Z * Z)))
    (st : SchedState) (c : string) : result SchedState :=
  match dict_get COURSE_CATALOG c with
  | None => Ok st
  | Some course =>
      match dict_get sections_needed c with
      | None => Raise KeyError
      | Some year_sections =>
          let total_sections := sum (dict_values year_sections) in
          let compatible_rooms := filter (fun r => can_host r course) all_classrooms in
          let compatible_teachers := filter (fun t => can_teach t course) all_teachers in
          for_each (fun st _ =>
                      schedule_unit ppd course c compatible_rooms compatible_teachers st)
                   (seqZ 0 total_sections) st
      end
  end.

Definition initial_state (ppd : Z) (all_classrooms : list Classroom)
    (all_teachers : list Teacher) : SchedState :=
  mkState (init_available (cls_id <$> all_classrooms) ppd)
          (init_available (tch_id <$> all_teachers) ppd)
          ∅ [] 0 [].

(** The loop of [create_schedule] over an arbitrary pool. *)
Definition place_sections (ppd : Z) (all_classrooms : list Classroom)
    (all_teachers : list Teacher) (sections_needed : list (string * list (Z * Z)))
    : result SchedState :=
  let sorted_courses := sorted course_priority (dict_keys sections_needed) in
  for_each (schedule_course ppd all_classrooms all_teachers sections_needed)
           sorted_courses (initial_state ppd all_classrooms all_teachers).

(** [Scheduler.create_schedule]: the returned [MasterSchedule], and what
    was printed on the way. *)
Definition create_schedule (cfg : Config) : result (MasterSchedule * list string) :=
  do all_classrooms <- create_classrooms cfg;
  do all_teachers <- create_teachers cfg;
  do sections_needed <- calculate_sections_needed paths set_order cfg;
  do st <- place_sections (periods_per_day cfg) all_classrooms all_teachers
             sections_needed;
  Ok (mkMasterSchedule (scheduled_sections st) all_classrooms all_teachers,
      stdout st).
End Scheduler.

(** ** course_catalog.py and graduation_paths.py: the data *)

Definition entry (c n : string) (sa : SubjectArea) (lv : CourseLevel)
    (cr sem : Z) (rt : RoomType) : string * Course :=
  (c, mkCourse c n sa lv cr sem rt).

(** [COURSE_CATALOG], in the order [create_course_catalog] fills it. *)
Definition COURSE_CATALOG : list (string * Course) := [
    entry "WHIST" "World History" HISTORY_SOCIAL_SCIENCE REGULAR 10 2 GENERAL;
    entry "WHIST-AP" "AP World History" HISTORY_SOCIAL_SCIENCE AP 10 2 GENERAL;
    entry "USHIST" "US History" HISTORY_SOCIAL_SCIENCE REGULAR 10 2 GENERAL;
    entry "USHIST-AP" "AP US History" HISTORY_SOCIAL_SCIENCE AP 10 2 GENERAL;
    entry "GOVT" "US Government" HISTORY_SOCIAL_SCIENCE REGULAR 5 1 GENERAL;
    entry "GOVT-AP" "AP US Government" HISTORY_SOCIAL_SCIENCE AP 5 1 GENERAL;
    entry "ECON" "Economics" HISTORY_SOCIAL_SCIENCE REGULAR 5 1 GENERAL;
    entry "ENG9" "English 9" ENGLISH REGULAR 10 2 GENERAL;
    entry "ENG10" "English 10" ENGLISH REGULAR 10 2 GENERAL;
    entry "ENG11" "English 11" ENGLISH REGULAR 10 2 GENERAL;
    entry "ENG11-AP" "AP English Language" ENGLISH AP 10 2 GENERAL;
    entry "ENG12" "English 12" ENGLISH REGULAR 10 2 GENERAL;
    entry "ENG12-AP" "AP English Literature" ENGLISH AP 10 2 GENERAL;
    entry "ALG1" "Algebra 1" MATHEMATICS REGULAR 10 2 GENERAL;
    entry "GEOM" "Geometry" MATHEMATICS REGULAR 10 2 GENERAL;
    entry "ALG2" "Algebra 2" MATHEMATICS REGULAR 10 2 GENERAL;
    entry "PRECALC" "Pre-Calculus" MATHEMATICS REGULAR 10 2 GENERAL;
    entry "CALC-AP-AB" "AP Calculus AB" MATHEMATICS AP 10 2 GENERAL;
    entry "CALC-AP-BC" "AP Calculus BC" MATHEMATICS AP 10 2 GENERAL;
    entry "STATS-AP" "AP Statistics" MATHEMATICS AP 10 2 GENERAL;
    entry "BIO" "Biology" LABORATORY_SCIENCE REGULAR 10 2 BIOLOGY_LAB;
    entry "BIO-AP" "AP Biology" LABORATORY_SCIENCE AP 10 2 BIOLOGY_LAB;
    entry "CHEM" "Chemistry" LABORATORY_SCIENCE REGULAR 10 2 CHEMISTRY_LAB;
    entry "CHEM-AP" "AP Chemistry" LABORATORY_SCIENCE AP 10 2 CHEMISTRY_LAB;
    entry "PHYS" "Physics" LABORATORY_SCIENCE REGULAR 10 2 BIOLOGY_LAB;
    entry "PHYS-AP-1" "AP Physics 1" LABORATORY_SCIENCE AP 10 2 BIOLOGY_LAB;
    entry "PHYS-AP-C" "AP Physics C" LABORATORY_SCIENCE AP 10 2 BIOLOGY_LAB;
    entry "ENVSCI-AP" "AP Environmental Science" LABORATORY_SCIENCE AP 10 2 BIOLOGY_LAB;
    entry "ARAB1" "Arabic 1" LANGUAGE_OTHER REGULAR 10 2 GENERAL;
    entry "ARAB2" "Arabic 2" LANGUAGE_OTHER REGULAR 10 2 GENERAL;
    entry "ARAB3" "Arabic 3" LANGUAGE_OTHER REGULAR 10 2 GENERAL;
    entry "ARAB4" "Arabic 4" LANGUAGE_OTHER REGULAR 10 2 GENERAL;
    entry "ART1" "Art 1" VISUAL_PERFORMING_ARTS REGULAR 10 2 GENERAL;
    entry "ART2" "Art 2" VISUAL_PERFORMING_ARTS REGULAR 10 2 GENERAL;
    entry "MUSIC1" "Music" VISUAL_PERFORMING_ARTS REGULAR 10 2 GENERAL;
    entry "CSP-AP" "AP Computer Science Principles" COLLEGE_PREP_ELECTIVE AP 10 2 COMPUTER_LAB;
    entry "CSA-AP" "AP Computer Science A" COLLEGE_PREP_ELECTIVE AP 10 2 COMPUTER_LAB;
    entry "ROBOTICS" "Robotics" COLLEGE_PREP_ELECTIVE REGULAR 10 2 ROBOTICS_LAB;
    entry "ROBOTICS-ADV" "Advanced Robotics" COLLEGE_PREP_ELECTIVE REGULAR 10 2 ROBOTICS_LAB;
    entry "PSYCH-AP" "AP Psychology" COLLEGE_PREP_ELECTIVE AP 10 2 GENERAL;
    entry "PE9" "Physical Education 9" PHYSICAL_EDUCATION REGULAR 10 2 GYM;
    entry "PE10" "Physical Education 10" PHYSICAL_EDUCATION REGULAR 10 2 GYM;
    entry "ISLAM1" "Islamic Studies 1" RELIGIOUS_STUDIES REGULAR 10 2 GENERAL;
    entry "ISLAM2" "Islamic Studies 2" RELIGIOUS_STUDIES REGULAR 10 2 GENERAL;
    entry "ISLAM3" "Islamic Studies 3" RELIGIOUS_STUDIES REGULAR 10 2 GENERAL;
    entry "ISLAM4" "Islamic Studies 4" RELIGIOUS_STUDIES REGULAR 10 2 GENERAL;
    entry "QURAN1" "Quran Studies 1" RELIGIOUS_STUDIES REGULAR 10 2 GENERAL;
    entry "QURAN2" "Quran Studies 2" RELIGIOUS_STUDIES REGULAR 10 2 GENERAL;
    entry "QURAN3" "Quran Studies 3" RELIGIOUS_STUDIES REGULAR 10 2 GENERAL;
    entry "QURAN4" "Quran Studies 4" RELIGIOUS_STUDIES REGULAR 10 2 GENERAL
  ].

Definition create_minimum_path : GraduationPathPlan :=
  mkPlan MINIMUM [
    mkYearPlan 1
      ["ENG9"; "ALG1"; "BIO"; "ARAB1"; "PE9"; "REL1"]
      ["ENG9"; "ALG1"; "BIO"; "ARAB1"; "PE9"; "REL1"];
    mkYearPlan 2
      ["ENG10"; "GEOM"; "CHEM"; "ARAB2"; "PE10"; "REL2"]
      ["ENG10"; "GEOM"; "CHEM"; "ARAB2"; "PE10"; "REL2"];
    mkYearPlan 3
      ["ENG11"; "ALG2"; "WHIST"; "ART1"; "ARAB3"; "REL3"]
      ["ENG11"; "ALG2"; "WHIST"; "ART1"; "ARAB3"; "REL3"];
    mkYearPlan 4
      ["ENG12"; "PRECALC"; "USHIST"; "GOVT"; "ARAB4"; "REL4"]
      ["ENG12"; "PRECALC"; "USHIST"; "ECON"; "ARAB4"; "REL4"]
  ].

Definition create_premed_path : GraduationPathPlan :=
  mkPlan PRE_MED [
    mkYearPlan 1
      ["ENG9"; "ALG1"; "BIO"; "ARAB1"; "PE9"; "REL1"]
      ["ENG9"; "ALG1"; "BIO"; "ARAB1"; "PE9"; "REL1"];
    mkYearPlan 2
      ["ENG10"; "GEOM"; "CHEM"; "WHIST"; "ARAB2"; "REL2"]
      ["ENG10"; "GEOM"; "CHEM"; "WHIST"; "PE10"; "REL2"];
    mkYearPlan 3
      ["ENG11-AP"; "ALG2"; "BIO-AP"; "USHIST"; "ART1"; "REL3"]
      ["ENG11-AP"; "ALG2"; "BIO-AP"; "USHIST"; "ART1"; "REL3"];
    mkYearPlan 4
      ["ENG12-AP"; "CALC-AP-AB"; "CHEM-AP"; "PSYCH-AP"; "GOVT"; "REL4"]
      ["ENG12-AP"; "CALC-AP-AB"; "CHEM-AP"; "PSYCH-AP"; "ECON"; "REL4"]
  ].

Definition create_engineering_path : GraduationPathPlan :=
  mkPlan ENGINEERING [
    mkYearPlan 1
      ["ENG9"; "ALG1"; "BIO"; "CSP-AP"; "PE9"; "REL1"]
      ["ENG9"; "ALG1"; "BIO"; "CSP-AP"; "PE9"; "REL1"];
    mkYearPlan 2
      ["ENG10"; "GEOM"; "CHEM"; "CSA-AP"; "ARAB1"; "REL2"]
      ["ENG10"; "GEOM"; "CHEM"; "CSA-AP"; "PE10"; "REL2"];
    mkYearPlan 3
      ["ENG11"; "ALG2"; "PHYS-AP-1"; "ROBOTICS"; "ARAB2"; "REL3"]
      ["ENG11"; "ALG2"; "PHYS-AP-1"; "ROBOTICS"; "WHIST"; "REL3"];
    mkYearPlan 4
      ["ENG12"; "CALC-AP-AB"; "CHEM-AP"; "ROBOTICS-ADV"; "GOVT"; "REL4"]
      ["ENG12"; "CALC-AP-AB"; "CHEM-AP"; "USHIST"; "ECON"; "REL4"]
  ].

(** [get_all_paths()], read as [self.paths[path]]. *)
Definition get_all_paths (p : GraduationPath) : GraduationPathPlan :=
  match p with
  | MINIMUM => create_minimum_path
  | PRE_MED => create_premed_path
  | ENGINEERING => create_engineering_path
  end.

(** One admissible enumeration order for [list(set(xs))]: each element at its
    first occurrence. *)
Fixpoint first_seen (xs : list string) : list string :=
  match xs with
  | [] => []
  | x :: r => x :: filter (fun y => y ≠ x) (first_seen r)
  end.

(** ** scheduler.py: the two timetables *)

(** [MasterSchedule.get_teacher_schedule] *)
Definition get_teacher_schedule (ms : MasterSchedule) (t : string) (sem : Z)
    : list (Z * ScheduledSection) :=
  foldl (fun schedule s =>
           if decide (teacher_id s = t ∧ semester s = sem)
           then dict_set schedule (period s) s else schedule)
        [] (sections ms).

(** [MasterSchedule.get_classroom_schedule] *)
Definition get_classroom_schedule (ms : MasterSchedule) (r : string) (sem : Z)
    : list (Z * ScheduledSection) :=
  foldl (fun schedule s =>
           if decide (classroom_id s = r ∧ semester s = sem)
           then dict_set schedule (period s) s else schedule)
        [] (sections ms).

(** ** resource_calculator.py: the remaining calculations *)

Record ResourceRequirements : Set := mkRequirements {
  min_classrooms : list (RoomType * Z);
  min_teachers : list (SubjectArea * TeacherNeed);
  total_sections_per_period : list (Z * Z);
  course_sections : list (string * Z)
}.

(** [year_room_sections[year][room_type] += num_sections] on the nested
    defaultdict *)
Definition add_room_sections (year_room_sections : list (Z * list (RoomType * Z)))
    (y : Z) (rt : RoomType) (num_sections : Z) : list (Z * list (RoomType * Z)) :=
  let inner := default [] (dict_get year_room_sections y) in
  dict_set year_room_sections y
    (dict_set inner rt (default 0 (dict_get inner rt) + num_sections)).

Section Requirements.
Variable COURSE_CATALOG : list (string * Course).
Variable paths : GraduationPath -> GraduationPathPlan.
Variable set_order : list string -> list string.

(** The loop nest of [calculate_concurrent_sections]. *)
Definition year_room_sections (sections_needed : list (string * list (Z * Z)))
    : list (Z * list (RoomType * Z)) :=
  foldl (fun yrs '(c, year_sections) =>
    match dict_get COURSE_CATALOG c with
    | None => yrs
    | Some course =>
        foldl (fun yrs '(y, num_sections) =>
                 let rt := room_type_required course in
                 add_room_sections yrs y rt num_sections)
              yrs year_sections
    end) [] sections_needed.

Definition calculate_concurrent_sections (cfg : Config)
    : result (list (Z * list (RoomType * Z))) :=
  do sections_needed <- calculate_sections_needed paths set_order cfg;
  Ok (year_room_sections sections_needed).

(** [ResourceCalculator.calculate_requirements] *)
Definition calculate_requirements (cfg : Config) : result ResourceRequirements :=
  do sections_needed <- calculate_sections_needed paths set_order cfg;
  let course_sections :=
    foldl (fun cs '(c, year_sections) => dict_set cs c (sum (dict_values year_sections)))
          [] sections_needed in
  do year_room_sections <- calculate_concurrent_sections cfg;
  let total_sections_per_year :=
    foldl (fun t '(y, room_sections) => dict_set t y (sum (dict_values room_sections)))
          [] year_room_sections in
  do min_classrooms <- calculate_min_classrooms COURSE_CATALOG paths set_order cfg;
  do min_teachers <- calculate_min_teachers COURSE_CATALOG paths set_order cfg;
  Ok (mkRequirements min_classrooms min_teachers total_sections_per_year course_sections).

(** ** graduation_paths.py: credits and the required courses *)

(** [GraduationPathPlan._calculate_credits] *)
Definition _calculate_credits (plan : GraduationPathPlan) : Z :=
  foldl (fun total year_plan =>
           foldl (fun total c =>
                    match dict_get COURSE_CATALOG c with
                    | Some course => total + credits course
                    | None => total
                    end)
                 total (get_all_courses set_order year_plan))
        0 (year_plans plan).

(** [get_all_required_courses]; the values of [get_all_paths()] are the plans
    of the three paths, in the order in which the dictionary lists them. *)
Definition get_all_required_courses : gset string :=
  foldl (fun all_courses path_plan =>
           foldl (fun all_courses year_plan =>
                    all_courses ∪ list_to_set (get_all_courses set_order year_plan))
                 all_courses (year_plans path_plan))
        ∅ (paths <$> [MINIMUM; PRE_MED; ENGINEERING]).
End Requirements.

(** ** capacity_analysis.py *)

Definition ACTUAL_ROOMS : list (RoomType * Z) :=
  [(GENERAL, 10); (CHEMISTRY_LAB, 1); (BIOLOGY_LAB, 1); (COMPUTER_LAB, 1);
   (ROBOTICS_LAB, 1); (GYM, 1)].

Definition PERIODS_PER_DAY : Z := 6.
Definition MAX_CLASS_SIZE : Z := 25.

(** [total_capacity] of [calculate_max_enrollment]. *)
Definition total_capacity : list (RoomType * Z) :=
  foldl (fun tc '(rt, count) => dict_set tc rt (count * PERIODS_PER_DAY)) [] ACTUAL_ROOMS.

Section Capacity.
Variable COURSE_CATALOG : list (string * Course).
Variable paths : GraduationPath -> GraduationPathPlan.

(** The body of the innermost loop of [sections_needed_for_enrollment]. *)
Definition count_code (students_per_path : Z) (room_sections : list (RoomType * Z))
    (c : string) : result (list (RoomType * Z)) :=
  match dict_get COURSE_CATALOG c with
  | None => Ok room_sections
  | Some course =>
      do sections <- ceil_div students_per_path MAX_CLASS_SIZE;
      let rt := room_type_required course in
      Ok (dict_set room_sections rt (default 0 (dict_get room_sections rt) + sections))
  end.

(** The local function [sections_needed_for_enrollment] of
    [calculate_max_enrollment]; [paths.items()] are the three plans. *)
Definition sections_needed_for_enrollment (students_per_path : Z)
    : result (list (RoomType * Z)) :=
  for_each (fun room_sections path_plan =>
    for_each (fun room_sections year_plan =>
      for_each (count_code students_per_path)
               (semester1_courses year_plan) room_sections)
      (year_plans path_plan) room_sections)
    (paths <$> [MINIMUM; PRE_MED; ENGINEERING]) [].

(** The flag [feasible] that [calculate_max_enrollment] computes for one
    enrolment level (the ratio it also computes only picks the name that is
    printed). *)
Definition feasible (students_per_path : Z) : result bool :=
  do sections_by_room <- sections_needed_for_enrollment students_per_path;
  Ok (foldl (fun feasible '(rt, sections_needed) =>
               let capacity := default 0 (dict_get total_capacity rt) in
               if decide (sections_needed > capacity) then false else feasible)
            true sections_by_room).
End Capacity.
(** ** What the statements below talk about *)

(** [d[k1][k2]] on a dictionary of dictionaries, [None] when either key is
    missing. *)
Definition lookup2 {K1 K2 V} `{EqDecision K1, EqDecision K2}
    (d : list (K1 * list (K2 * V))) (k1 : K1) (k2 : K2) : option V :=
  match dict_get d k1 with
  | Some inner => dict_get inner k2
  | None => None
  end.

(** The exact ceiling of [a / b] for [b <> 0]. *)
Definition ceiling (a b : Z) : Z := - ((- a) / b).

(** An integer of magnitude below 2^53.  Python computes [a / b] on two ints
    as the double nearest to the quotient, and [math.ceil] takes the ceiling
    of that double.  For [a] and [b <> 0] of magnitude below 2^53 this is the
    exact ceiling of the quotient, the value of [ceil_div]; beyond, the
    double can have another ceiling, and a quotient that fits no double
    raises OverflowError.  The statements about calculated numbers are made
    for divisions in this range. *)
Definition double_exact (a : Z) : Prop := - 2 ^ 53 < a < 2 ^ 53.

#[global] Instance double_exact_dec a : Decision (double_exact a).
Proof. unfold double_exact. apply _. Defined.

(** Every division of [calculate_sections_needed] is in the range: the class
    size, and every demand the first loop nest has accumulated. *)
Definition sections_in_range (paths : GraduationPath -> GraduationPathPlan)
    (set_order : list string -> list string) (cfg : Config) : Prop :=
  double_exact (max_class_size cfg) /\
  Forall (fun e : string * list (Z * Z) =>
            Forall (fun yn : Z * Z => double_exact yn.2) e.2)
         (course_demand paths set_order cfg).

(** Every division of the second loop of [calculate_min_classrooms] is in
    the range: [periods_per_day], and the section total of every room type. *)
Definition rooms_in_range (catalog : list (string * Course))
    (paths : GraduationPath -> GraduationPathPlan)
    (set_order : list string -> list string) (cfg : Config) : Prop :=
  double_exact (periods_per_day cfg) /\
  forall sn, calculate_sections_needed paths set_order cfg = Ok sn ->
    Forall (fun e : RoomType * Z => double_exact e.2) (room_type_sections catalog sn).

(** The two dividends of [calculate_min_teachers] for one subject: its AP
    sections, and the regular sections that the AP-qualified teachers leave. *)
Definition levels_in_range (cap : Z) (levels : Levels) : Prop :=
  double_exact (ap levels) /\
  double_exact (Z.max 0 (regular levels - (ceiling (ap levels) cap * cap - ap levels))).

#[global] Instance levels_in_range_dec cap levels : Decision (levels_in_range cap levels).
Proof. unfold levels_in_range. apply _. Defined.

(** Every division of the second loop of [calculate_min_teachers] is in the
    range: [periods_per_day - 1], and the two dividends of every subject. *)
Definition teachers_in_range (catalog : list (string * Course))
    (paths : GraduationPath -> GraduationPathPlan)
    (set_order : list string -> list string) (cfg : Config) : Prop :=
  double_exact (periods_per_day cfg - 1) /\
  forall sn, calculate_sections_needed paths set_order cfg = Ok sn ->
    Forall (fun e : SubjectArea * Levels => levels_in_range (periods_per_day cfg - 1) e.2)
           (subject_sections catalog sn).

(** The course code [c] appears in the plan of year [y]. *)
Definition lists (yp : YearPlan) (c : string) (y : Z) : Prop :=
  year yp = y ∧ c ∈ semester1_courses yp ++ semester2_courses yp.

#[global] Instance lists_dec yp c y : Decision (lists yp c y).
Proof. unfold lists. apply _. Defined.

(** What the year plans [yps] of a path with enrolment [n] contribute to the
    demand for [c] in year [y]: [n] for each plan of year [y] that lists [c],
    whether in one semester list or in both. *)
Definition year_demand (c : string) (y n : Z) (yps : list YearPlan) : Z :=
  sum ((fun yp => if decide (lists yp c y) then n else 0) <$> yps).

(** What one year plan does to the accumulator entry of [(c, y)]. *)
Definition bump_year (c : string) (y n : Z) (o : option Z) (yp : YearPlan) : option Z :=
  if decide (lists yp c y) then Some (default 0 o + n) else o.

Section Demand.
Variable paths : GraduationPath -> GraduationPathPlan.

(** The demand for course [c] in year [y], summed over the paths of the
    enrolment mapping. *)
Definition demand (students : list (GraduationPath * Z)) (c : string) (y : Z) : Z :=
  sum ((fun pn : GraduationPath * Z => year_demand c y pn.2 (year_plans (paths pn.1)))
         <$> students).

(** Some path of the enrolment mapping lists [c] in year [y]. *)
Definition in_plans (students : list (GraduationPath * Z)) (c : string) (y : Z) : Prop :=
  Exists (fun pn : GraduationPath * Z =>
            Exists (fun yp => lists yp c y) (year_plans (paths pn.1)))
         students.

#[global] Instance in_plans_dec students c y : Decision (in_plans students c y).
Proof. unfold in_plans. apply _. Defined.

Definition bump_path (c : string) (y : Z) (o : option Z) (pn : GraduationPath * Z) :=
  foldl (bump_year c y pn.2) o (year_plans (paths pn.1)).

Variable set_order : list string -> list string.

(** One year plan: [for code in year_plan.get_all_courses()]. *)
Definition add_year (n : Z) (cd : list (string * list (Z * Z))) (yp : YearPlan) :=
  foldl (fun cd c => add_demand cd c (year yp) n) cd (get_all_courses set_order yp).

(** One path: [for year_plan in path_plan.year_plans]. *)
Definition add_path (cd : list (string * list (Z * Z))) (pn : GraduationPath * Z) :=
  foldl (add_year pn.2) cd (year_plans (paths pn.1)).
End Demand.

(** Every code has its years at most once, and at least one year. *)
Definition wf2 (cd : list (string * list (Z * Z))) : Prop :=
  NoDup (dict_keys cd) ∧
  Forall (fun e : string * list (Z * Z) => NoDup (dict_keys e.2) ∧ e.2 ≠ []) cd.

(** The demand accumulator with every count replaced by its number of
    sections. *)
Definition sections_of_years (mcs : Z) (yd : list (Z * Z)) : list (Z * Z) :=
  (fun yn : Z * Z => (yn.1, ceiling yn.2 mcs)) <$> yd.

Definition sections_of_demand (mcs : Z) (cd : list (string * list (Z * Z)))
    : list (string * list (Z * Z)) :=
  (fun e : string * list (Z * Z) => (e.1, sections_of_years mcs e.2)) <$> cd.

(** The formula of the specification for the teachers of one subject. *)
Definition teacher_need (cap : Z) (levels : Levels) : TeacherNeed :=
  let ap_q := ceiling (ap levels) cap in
  let reg := ceiling (Z.max 0 (regular levels - (ap_q * cap - ap levels))) cap in
  mkNeed ap_q reg (ap_q + reg).

Section Buckets.
Variable COURSE_CATALOG : list (string * Course).
Implicit Types (sn : list (string * list (Z * Z))) (s : SubjectArea).

(** The catalog has the code of entry [e], with subject area [s]. *)
Definition teaches (s : SubjectArea) (e : string * list (Z * Z)) : Prop :=
  subject_area <$> dict_get COURSE_CATALOG e.1 = Some s.

#[global] Instance teaches_dec s e : Decision (teaches s e).
Proof. unfold teaches. apply _. Defined.

(** The sections of entry [e], all years together, when its course is of
    subject area [s] and its level is AP ([is_ap]) or not. *)
Definition bucket (is_ap : bool) (s : SubjectArea) (e : string * list (Z * Z)) : Z :=
  match dict_get COURSE_CATALOG e.1 with
  | Some course =>
      if decide (subject_area course = s ∧ bool_decide (level course = AP) = is_ap)
      then sum (dict_values e.2) else 0
  | None => 0
  end.

Definition ap_sections sn s : Z := sum (bucket true s <$> sn).
Definition regular_sections sn s : Z := sum (bucket false s <$> sn).

(** What one entry of [sections_needed] does to the bucket pair of [s]. *)
Definition bump_subject s (o : option Levels) (e : string * list (Z * Z))
    : option Levels :=
  if decide (teaches s e)
  then Some (mkLevels (regular (default (mkLevels 0 0) o) + bucket false s e)
                      (ap (default (mkLevels 0 0) o) + bucket true s e))
  else o.

(** The body of the grouping loop of [calculate_min_teachers], on an entry. *)
Definition subject_step (ss : list (SubjectArea * Levels))
    (e : string * list (Z * Z)) : list (SubjectArea * Levels) :=
  match dict_get COURSE_CATALOG e.1 with
  | None => ss
  | Some course =>
      let total_sections := sum (dict_values e.2) in
      let sa := subject_area course in
      let levels := default (mkLevels 0 0) (dict_get ss sa) in
      dict_set ss sa
        (if decide (level course = AP)
         then mkLevels (regular levels) (ap levels + total_sections)
         else mkLevels (regular levels + total_sections) (ap levels))
  end.
End Buckets.

(** The slot a section occupies in its classroom, and in its teacher's
    timetable. *)
Definition slot_room (s : ScheduledSection) : Z * Z * string :=
  (semester s, period s, classroom_id s).

Definition slot_teacher (s : ScheduledSection) : Z * Z * string :=
  (semester s, period s, teacher_id s).

(** The bookkeeping is consistent with the sections placed so far: the
    tables have all the keys [rk] and [tk], every placed section has its two
    slots marked used, and no slot is used twice. *)
Record consistent (rk tk : list (Z * Z * string)) (st : SchedState) : Prop := {
  rooms_present : forall k, k ∈ rk -> is_Some (classroom_available st !! k);
  teachers_present : forall k, k ∈ tk -> is_Some (teacher_available st !! k);
  rooms_taken : forall s, s ∈ scheduled_sections st ->
                  classroom_available st !! slot_room s = Some false;
  teachers_taken : forall s, s ∈ scheduled_sections st ->
                     teacher_available st !! slot_teacher s = Some false;
  rooms_NoDup : NoDup (slot_room <$> scheduled_sections st);
  teachers_NoDup : NoDup (slot_teacher <$> scheduled_sections st)
}.

(** No two sections in one classroom, or with one teacher, in one period of
    one semester. *)
Definition conflict_free (secs : list ScheduledSection) : Prop :=
  NoDup (slot_room <$> secs) ∧ NoDup (slot_teacher <$> secs).

(** What printing the warning of an unplaced section unit does to the
    bookkeeping: one more line of output, nothing else. *)
Definition warn (course : Course) (st : SchedState) : SchedState :=
  mkState (classroom_available st) (teacher_available st)
          (teacher_sections st) (scheduled_sections st)
          (section_counter st)
          (stdout st ++ ["WARNING: Could not schedule section of " +:+ name course]).

(** [placed course c rooms teachers st st']: one section unit of [course]
    was placed, taking [st] to [st'].  Either one section was added, in a
    slot where the room and the teacher were free and the teacher's counted
    load was below twice the daily maximum, or that section (in semester 1, of
    a year-long course) and its semester-2 twin, whose two slots were free as
    well. *)
Inductive placed (course : Course) (c : string)
    (rooms : list Classroom) (teachers : list Teacher)
    (ppd : Z) (st : SchedState) : SchedState -> Prop :=
| placed_once sem p room teacher :
    sem ∈ semesters_to_schedule course -> p ∈ seqZ 1 ppd ->
    room ∈ rooms -> teacher ∈ teachers ->
    classroom_available st !! (sem, p, cls_id room) = Some true ->
    teacher_available st !! (sem, p, tch_id teacher) = Some true ->
    default 0 (teacher_sections st !! tch_id teacher) < max_periods_per_day teacher * 2 ->
    placed course c rooms teachers ppd st (place c sem p room teacher st)
| placed_twice p room teacher :
    semesters course = 2 -> p ∈ seqZ 1 ppd ->
    room ∈ rooms -> teacher ∈ teachers ->
    classroom_available st !! (1, p, cls_id room) = Some true ->
    teacher_available st !! (1, p, tch_id teacher) = Some true ->
    default 0 (teacher_sections st !! tch_id teacher) < max_periods_per_day teacher * 2 ->
    classroom_available (place c 1 p room teacher st) !! (2, p, cls_id room) = Some true ->
    teacher_available (place c 1 p room teacher st) !! (2, p, tch_id teacher) = Some true ->
    placed course c rooms teachers ppd st
      (place_mirror c p room teacher (place c 1 p room teacher st)).




(** Every section of a course that does not last two semesters is in
    semester 1. *)
Definition single_first (catalog : list (string * Course))
    (secs : list ScheduledSection) : Prop :=
  forall s course,
    s ∈ secs -> dict_get catalog (course_code s) = Some course ->
    semesters course ≠ 2 -> semester s = 1.



(** ** What the further properties talk about *)

(** The section names a catalog course, a classroom of [rooms] that can host
    that course and a teacher of [teachers] who can teach it. *)
Definition suitable (catalog : list (string * Course)) (rooms : list Classroom)
    (teachers : list Teacher) (s : ScheduledSection) : Prop :=
  exists course room teacher,
    dict_get catalog (course_code s) = Some course /\
    room ∈ rooms /\ cls_id room = classroom_id s /\ can_host room course = true /\
    teacher ∈ teachers /\ tch_id teacher = teacher_id s /\
    can_teach teacher course = true.

(** The semester-2 twin of a section: same course, id, period, classroom and
    teacher. *)
Definition twin_of (s : ScheduledSection) : ScheduledSection :=
  mkSection (course_code s) (section_id s) (period s) 2 (classroom_id s) (teacher_id s).

(** The section ids under which teacher [t] has a section. *)
Definition ids_of_teacher (t : string) (secs : list ScheduledSection) : gset Z :=
  list_to_set (section_id <$> filter (fun s => teacher_id s = t) secs).

(** In semester [sem], period [p], some classroom of [rooms] is free and some
    teacher of [teachers] is free with a counted load below twice the daily
    maximum. *)
Definition fits (rooms : list Classroom) (teachers : list Teacher)
    (st : SchedState) (sem p : Z) : Prop :=
  (exists room, room ∈ rooms /\
     classroom_available st !! (sem, p, cls_id room) = Some true) /\
  (exists teacher, teacher ∈ teachers /\
     teacher_available st !! (sem, p, tch_id teacher) = Some true /\
     default 0 (teacher_sections st !! tch_id teacher) < max_periods_per_day teacher * 2).

(** The sections of one teacher, and of one classroom, in one semester. *)
Definition sections_of_teacher (t : string) (sem : Z) (secs : list ScheduledSection)
    : list ScheduledSection :=
  filter (fun s => teacher_id s = t ∧ semester s = sem) secs.

Definition sections_of_classroom (r : string) (sem : Z) (secs : list ScheduledSection)
    : list ScheduledSection :=
  filter (fun s => classroom_id s = r ∧ semester s = sem) secs.

(** The classroom [create_classrooms] builds for room type [rt] and number
    [i], and the two kinds of teacher [create_teachers] builds. *)
Definition classroom_of (mcs : Z) (rt : RoomType) (i : Z) : Classroom :=
  mkClassroom (RoomType_name rt +:+ "_" +:+ pretty i)
              (room_names rt +:+ " " +:+ pretty i) rt mcs.

Definition ap_teacher_of (ppd : Z) (subject : SubjectArea) (i : Z) : Teacher :=
  mkTeacher (subject_abbrev subject +:+ "_AP_" +:+ pretty i)
            (subject_abbrev subject +:+ " Teacher " +:+ pretty i +:+ " (AP)")
            [subject] true (ppd - 1).

Definition regular_teacher_of (ppd : Z) (subject : SubjectArea) (n_ap i : Z) : Teacher :=
  mkTeacher (subject_abbrev subject +:+ "_REG_" +:+ pretty i)
            (subject_abbrev subject +:+ " Teacher " +:+ pretty (i + n_ap))
            [subject] false (ppd - 1).

(** The teachers of one entry of [min_teachers]. *)
Definition teachers_of_entry (ppd : Z) (e : SubjectArea * TeacherNeed) : list Teacher :=
  (ap_teacher_of ppd e.1 <$> seqZ 1 (ap_qualified e.2)) ++
  (regular_teacher_of ppd e.1 (ap_qualified e.2) <$> seqZ 1 (regular_only e.2)).

(** The classrooms of one entry of [min_rooms]. *)
Definition classrooms_of_entry (mcs : Z) (e : RoomType * Z) : list Classroom :=
  classroom_of mcs e.1 <$> seqZ 1 e.2.

(** The section lies in the timetable grid of a day of [ppd] periods. *)
Definition in_grid (ppd : Z) (s : ScheduledSection) : Prop :=
  1 <= period s <= ppd /\ (semester s = 1 \/ semester s = 2).

(** The sections among [secs] that use classroom (or teacher) [i]. *)
Definition group_of (k : ConflictKind) (i : string) (secs : list ScheduledSection)
    : list ScheduledSection :=
  match k with
  | ClassroomConflict => filter (fun s => classroom_id s = i) secs
  | TeacherConflict => filter (fun s => teacher_id s = i) secs
  end.

(** An entry of the list of [validate] that reports a real collision: a
    semester and a period that [validate] visits, in which two or more
    sections use the resource, and whose course names are the ones listed. *)
Definition real_conflict (catalog : list (string * Course)) (ms : MasterSchedule)
    (e : Conflict) : Prop :=
  at_semester e ∈ [1; 2] /\ at_period e ∈ seqZ 1 6 /\
  (1 < length (group_of (kind e) (resource e)
                 (get_sections_by_period ms (at_period e) (at_semester e))))%nat /\
  course_names catalog
    (group_of (kind e) (resource e)
       (get_sections_by_period ms (at_period e) (at_semester e))) = Ok (courses e).

(** The catalog has the code of entry [e], with required room type [rt]. *)
Definition needs_room (catalog : list (string * Course)) (rt : RoomType)
    (e : string * list (Z * Z)) : Prop :=
  room_type_required <$> dict_get catalog e.1 = Some rt.

#[global] Instance needs_room_dec catalog rt e : Decision (needs_room catalog rt e).
Proof. unfold needs_room. apply _. Defined.

(** The sections of entry [e], all years together, when its course requires
    room type [rt]. *)
Definition room_bucket (catalog : list (string * Course)) (rt : RoomType)
    (e : string * list (Z * Z)) : Z :=
  match dict_get catalog e.1 with
  | Some course =>
      if decide (room_type_required course = rt) then sum (dict_values e.2) else 0
  | None => 0
  end.

(** The sections that need a room of type [rt], all courses and years
    together. *)
Definition room_total (catalog : list (string * Course))
    (sn : list (string * list (Z * Z))) (rt : RoomType) : Z :=
  sum (room_bucket catalog rt <$> sn).

(** The sections of room type [rt] that a year-by-year table counts, all
    years together. *)
Definition all_years (rt : RoomType) (yrs : list (Z * list (RoomType * Z))) : Z :=
  sum ((fun e : Z * list (RoomType * Z) => default 0 (dict_get e.2 rt)) <$> yrs).

(** The credits a course code counts for: those of its catalog course, and
    nothing for a code the catalog lacks. *)
Definition credits_of (catalog : list (string * Course)) (c : string) : Z :=
  match dict_get catalog c with
  | Some course => credits course
  | None => 0
  end.

(** The distinct course codes of a year plan. *)
Definition year_codes (yp : YearPlan) : list string :=
  remove_dups (semester1_courses yp ++ semester2_courses yp).

(** Teacher [t] can take a section in semester [sem], period [p]: free, with
    a counted load below twice the daily maximum. *)
Definition eligible (st : SchedState) (sem p : Z) (t : Teacher) : Prop :=
  teacher_available st !! (sem, p, tch_id t) = Some true /\
  default 0 (teacher_sections st !! tch_id t) < max_periods_per_day t * 2.

(** [room] is the first classroom of the list that is free in that slot. *)
Definition first_free_room (st : SchedState) (sem p : Z) (rooms : list Classroom)
    (room : Classroom) : Prop :=
  exists before after,
    rooms = before ++ room :: after /\
    (forall r, r ∈ before -> classroom_available st !! (sem, p, cls_id r) = Some false) /\
    classroom_available st !! (sem, p, cls_id room) = Some true.

(** [teacher] is the first teacher of the list who is eligible in that slot. *)
Definition first_eligible_teacher (st : SchedState) (sem p : Z) (teachers : list Teacher)
    (teacher : Teacher) : Prop :=
  exists before after,
    teachers = before ++ teacher :: after /\
    (forall t, t ∈ before -> ¬ eligible st sem p t) /\
    eligible st sem p teacher.

(** The course codes that the semester-1 lists of all year plans of all three
    paths hold, a code as often as it is listed. *)
Definition semester1_listings (paths : GraduationPath -> GraduationPathPlan) : list string :=
  ((paths <$> [MINIMUM; PRE_MED; ENGINEERING]) ≫= year_plans) ≫= semester1_courses.

(** How many of those listings are of a catalog course that requires room
    type [rt]. *)
Definition room_listings (catalog : list (string * Course))
    (paths : GraduationPath -> GraduationPathPlan) (rt : RoomType) : Z :=
  Z.of_nat (length (filter (fun c => room_type_required <$> dict_get catalog c = Some rt)
                           (semester1_listings paths))).

(** The sections of entry [e], all years together, when the catalog has its
    code. *)
Definition catalog_sections (catalog : list (string * Course))
    (e : string * list (Z * Z)) : Z :=
  match dict_get catalog e.1 with
  | Some _ => sum (dict_values e.2)
  | None => 0
  end.

(** All the sections a year-by-year table counts. *)
Definition grand_total (yrs : list (Z * list (RoomType * Z))) : Z :=
  sum ((fun e : Z * list (RoomType * Z) => sum (dict_values e.2)) <$> yrs).
(** ** Dictionaries: reading after writing *)

Section DictFacts.
Context {K V : Type} `{EqDecision K}.
Implicit Types (d : list (K * V)) (k : K) (v : V).

Lemma dict_get_set_eq d k v : dict_get (dict_set d k v) k = Some v.
Proof.
  induction d as [|[k' v'] d IH]; simpl.
  - by rewrite decide_True.
  - destruct (decide (k = k')) as [->|Hne]; simpl.
    + by rewrite decide_True.
    + by rewrite decide_False.
Qed.

Lemma dict_get_set_ne d k k' v :
  k ≠ k' -> dict_get (dict_set d k v) k' = dict_get d k'.
Proof.
  intros Hne. induction d as [|[k0 v0] d IH]; simpl.
  - by rewrite decide_False.
  - destruct (decide (k = k0)) as [->|Hk]; simpl.
    + by rewrite !decide_False.
    + destruct (decide (k' = k0)); done.
Qed.

Lemma dict_get_None d k : dict_get d k = None <-> k ∉ dict_keys d.
Proof.
  unfold dict_keys. induction d as [|[k' v'] d IH]; simpl.
  - split; [intros _; apply not_elem_of_nil | done].
  - rewrite not_elem_of_cons. destruct (decide (k = k')) as [->|Hne].
    + split; [done | intros [? _]; done].
    + rewrite IH. split; [by intros ? | by intros [_ ?]].
Qed.

Lemma dict_get_Some_elem d k v : dict_get d k = Some v -> (k, v) ∈ d.
Proof.
  induction d as [|[k' v'] d IH]; simpl; [done|].
  destruct (decide (k = k')) as [->|]; intros Hg.
  - injection Hg as ->. apply elem_of_cons; by left.
  - apply elem_of_cons; right; auto.
Qed.

Lemma dict_get_elem d k v : NoDup (dict_keys d) -> (k, v) ∈ d -> dict_get d k = Some v.
Proof.
  unfold dict_keys. induction d as [|[k' v'] d IH]; simpl.
  - intros _ Hin. by apply elem_of_nil in Hin.
  - rewrite NoDup_cons. intros [Hk Hnd] Hin.
    apply elem_of_cons in Hin as [Heq|Hin].
    + injection Heq as -> ->. by rewrite decide_True.
    + rewrite decide_False; [auto|].
      intros ->. apply Hk. apply list_elem_of_fmap. by exists (k', v).
Qed.

(** A new key goes last. *)
Lemma dict_set_fresh d k v : k ∉ dict_keys d -> dict_set d k v = d ++ [(k, v)].
Proof.
  unfold dict_keys. induction d as [|[k' v'] d IH]; simpl; [done|].
  rewrite not_elem_of_cons. intros [Hne Hk].
  rewrite decide_False by done. by rewrite IH.
Qed.

(** Writing the last key again only replaces its value. *)
Lemma dict_set_last d k v v' :
  k ∉ dict_keys d -> dict_set (d ++ [(k, v)]) k v' = d ++ [(k, v')].
Proof.
  unfold dict_keys. induction d as [|[k0 v0] d IH]; simpl.
  - by rewrite decide_True.
  - rewrite not_elem_of_cons. intros [Hne Hk].
    rewrite decide_False by done. by rewrite IH.
Qed.

Lemma dict_get_app_last d k v : dict_get (d ++ [(k, v)]) k = Some v \/ k ∈ dict_keys d.
Proof.
  destruct (decide (k ∈ dict_keys d)) as [|Hk]; [by right|left].
  rewrite <- (dict_set_fresh d k v Hk). apply dict_get_set_eq.
Qed.

Lemma dict_keys_set d k v :
  dict_keys (dict_set d k v) =
    if decide (k ∈ dict_keys d) then dict_keys d else dict_keys d ++ [k].
Proof.
  unfold dict_keys. induction d as [|[k' v'] d IH].
  - destruct (decide (k ∈ ([] : list (K * V)).*1)) as [Hin|]; [|done].
    by apply elem_of_nil in Hin.
  - cbn [dict_set]. destruct (decide (k = k')) as [->|Hne].
    + destruct (decide (k' ∈ ((k', v') :: d).*1)) as [|Hn]; [done|].
      exfalso. apply Hn. apply elem_of_cons. by left.
    + rewrite fmap_cons, IH. cbn [fst].
      destruct (decide (k ∈ d.*1)) as [Hin|Hin];
        destruct (decide (k ∈ ((k', v') :: d).*1)) as [Hin'|Hin']; try done.
      * exfalso. apply Hin'. rewrite fmap_cons. apply elem_of_cons. by right.
      * exfalso. rewrite fmap_cons in Hin'.
        apply elem_of_cons in Hin' as [?|?]; done.
Qed.

Lemma dict_set_NoDup d k v : NoDup (dict_keys d) -> NoDup (dict_keys (dict_set d k v)).
Proof.
  intros Hnd. rewrite dict_keys_set. destruct (decide (k ∈ dict_keys d)); [done|].
  apply NoDup_app. split_and!; [done | | apply NoDup_singleton].
  intros x Hx Hx'. apply list_elem_of_singleton in Hx' as ->. done.
Qed.

Lemma dict_keys_app d1 d2 : dict_keys (d1 ++ d2) = dict_keys d1 ++ dict_keys d2.
Proof. unfold dict_keys. apply fmap_app. Qed.
End DictFacts.

(** ** [calculate_sections_needed]: the demand accumulator *)

Lemma sum_cons (x : Z) (xs : list Z) : sum (x :: xs) = x + sum xs.
Proof. reflexivity. Qed.

Lemma sum_app (xs ys : list Z) : sum (xs ++ ys) = sum xs + sum ys.
Proof. unfold sum. induction xs as [|x xs IH]; simpl; lia. Qed.

Lemma rbind_Ok {A B} (m : result A) (f : A -> result B) (b : B) :
  rbind m f = Ok b -> exists a, m = Ok a /\ f a = Ok b.
Proof. destruct m as [a|e]; simpl; [eauto | done]. Qed.

Lemma for_each_app {A S} (f : S -> A -> result S) (xs ys : list A) (s : S) :
  for_each f (xs ++ ys) s = rbind (for_each f xs s) (for_each f ys).
Proof.
  revert s. induction xs as [|x xs IH]; intros s; simpl; [done|].
  destruct (f s x) as [s'|e]; simpl; [apply IH | done].
Qed.

(** A loop whose body preserves an invariant and never raises under it
    returns, and the invariant holds of what it returns. *)
Lemma for_each_inv {A S} (P : S -> Prop) (f : S -> A -> result S) (xs : list A) :
  (forall s x, x ∈ xs -> P s -> exists s', f s x = Ok s' /\ P s') ->
  forall s, P s -> exists s', for_each f xs s = Ok s' /\ P s'.
Proof.
  induction xs as [|x xs IH]; intros Hstep s Hs; simpl; [eauto|].
  destruct (Hstep s x) as (s1 & -> & Hs1); [apply elem_of_cons; by left | done |].
  simpl. apply IH; [|done].
  intros s2 y Hy. apply Hstep. apply elem_of_cons. by right.
Qed.

(** The same for a body that may raise: whatever it returns satisfies the
    invariant. *)
Lemma for_each_preserves {A S} (P : S -> Prop) (f : S -> A -> result S) (xs : list A) :
  (forall s x s', x ∈ xs -> P s -> f s x = Ok s' -> P s') ->
  forall s s', P s -> for_each f xs s = Ok s' -> P s'.
Proof.
  induction xs as [|x xs IH]; intros Hstep s s' Hs; simpl.
  - by intros [= <-].
  - intros Hrun. apply rbind_Ok in Hrun as (s1 & H1 & Hrest).
    eapply IH; [| |exact Hrest].
    + intros s2 y s3 Hy. apply Hstep. apply elem_of_cons. by right.
    + eapply Hstep; [|exact Hs|exact H1]. apply elem_of_cons. by left.
Qed.

Section DemandFacts.
Variable paths : GraduationPath -> GraduationPathPlan.
Variable set_order : list string -> list string.
Hypothesis set_order_NoDup : forall xs, NoDup (set_order xs).
Hypothesis set_order_elem : forall xs x, x ∈ set_order xs <-> x ∈ xs.

Implicit Types (cd : list (string * list (Z * Z))) (c : string) (y n : Z).

Local Abbreviation add_year := (add_year set_order).
Local Abbreviation add_path := (add_path paths set_order).
Local Abbreviation bump_path := (bump_path paths).

Lemma dict_set_nonempty {K V} `{EqDecision K} (d : list (K * V)) k v :
  dict_set d k v ≠ [].
Proof. destruct d as [|[k' v'] d]; simpl; [done|]. by destruct (decide (k = k')). Qed.

Lemma dict_set_Forall {K V} `{EqDecision K} (P : K * V -> Prop) (d : list (K * V)) k v :
  Forall P d -> P (k, v) -> Forall P (dict_set d k v).
Proof.
  intros Hd Hkv. induction Hd as [|[k' v'] d Hx Hd IH]; simpl.
  - by constructor.
  - destruct (decide (k = k')) as [->|]; constructor; auto.
Qed.

Lemma dict_get_Forall {K V} `{EqDecision K} (P : K * V -> Prop) (d : list (K * V)) k v :
  Forall P d -> dict_get d k = Some v -> P (k, v).
Proof.
  intros Hd Hg. apply dict_get_Some_elem in Hg.
  by apply (proj1 (Forall_forall P d) Hd).
Qed.

Lemma add_demand_wf2 cd c y n : wf2 cd -> wf2 (add_demand cd c y n).
Proof.
  intros [Hnd Hin]. unfold add_demand. split.
  - by apply dict_set_NoDup.
  - apply dict_set_Forall; [done|]. simpl. split.
    + apply dict_set_NoDup. destruct (dict_get cd c) as [inner|] eqn:Hg; simpl.
      * apply (dict_get_Forall _ _ _ _ Hin Hg).
      * apply NoDup_nil_2.
    + apply dict_set_nonempty.
Qed.

Lemma lookup2_add_demand cd c y n c' y' :
  lookup2 (add_demand cd c y n) c' y' =
    if decide (c' = c ∧ y' = y)
    then Some (default 0 (lookup2 cd c y) + n)
    else lookup2 cd c' y'.
Proof.
  unfold lookup2, add_demand.
  destruct (decide (c' = c)) as [->|Hc].
  - rewrite dict_get_set_eq.
    destruct (decide (y' = y)) as [->|Hy].
    + rewrite decide_True by done. rewrite dict_get_set_eq.
      by destruct (dict_get cd c).
    + rewrite decide_False by naive_solver.
      rewrite dict_get_set_ne by done. by destruct (dict_get cd c).
  - rewrite decide_False by naive_solver.
    by rewrite dict_get_set_ne.
Qed.

Lemma add_codes_wf2 y n l cd :
  wf2 cd -> wf2 (foldl (fun cd c => add_demand cd c y n) cd l).
Proof.
  revert cd. induction l as [|c l IH]; intros cd Hwf; simpl; [done|].
  apply IH. by apply add_demand_wf2.
Qed.

Lemma lookup2_add_codes y n l cd c' y' :
  NoDup l ->
  lookup2 (foldl (fun cd c => add_demand cd c y n) cd l) c' y' =
    if decide (y' = y ∧ c' ∈ l)
    then Some (default 0 (lookup2 cd c' y') + n)
    else lookup2 cd c' y'.
Proof.
  revert cd. induction l as [|c l IH]; intros cd Hnd; simpl.
  - rewrite decide_False; [done|]. intros [_ Hin]. by apply elem_of_nil in Hin.
  - apply NoDup_cons in Hnd as [Hc Hnd]. rewrite IH by done.
    rewrite !lookup2_add_demand.
    destruct (decide (y' = y)) as [->|Hy].
    + destruct (decide (c' = c)) as [->|Hcc].
      * rewrite (decide_False (P := y = y ∧ c ∈ l)) by naive_solver.
        rewrite decide_True by done.
        rewrite decide_True; [done|]. split; [done|]. apply elem_of_cons. by left.
      * rewrite (decide_False (P := c' = c ∧ y = y)) by naive_solver.
        destruct (decide (c' ∈ l)) as [Hin|Hin].
        -- rewrite !decide_True; [done| |done]. split; [done|].
           apply elem_of_cons. by right.
        -- rewrite !decide_False; [done| |naive_solver].
           rewrite elem_of_cons. naive_solver.
    + rewrite !decide_False by naive_solver. done.
Qed.

Lemma lookup2_add_year n cd yp c y :
  lookup2 (add_year n cd yp) c y = bump_year c y n (lookup2 cd c y) yp.
Proof.
  unfold add_year, get_all_courses, bump_year.
  rewrite lookup2_add_codes by apply set_order_NoDup.
  destruct (decide (lists yp c y)) as [[Hy Hin]|Hn].
  - rewrite decide_True; [done|]. split; [by subst|]. by apply (proj2 (set_order_elem _ _)).
  - rewrite decide_False; [done|]. intros [Hy Hin]. apply Hn.
    split; [by subst|]. by apply (proj1 (set_order_elem _ _)).
Qed.

Lemma lookup2_add_years n yps cd c y :
  lookup2 (foldl (add_year n) cd yps) c y = foldl (bump_year c y n) (lookup2 cd c y) yps.
Proof.
  revert cd. induction yps as [|yp yps IH]; intros cd; simpl; [done|].
  by rewrite IH, lookup2_add_year.
Qed.

Lemma add_years_wf2 n yps cd : wf2 cd -> wf2 (foldl (add_year n) cd yps).
Proof.
  revert cd. induction yps as [|yp yps IH]; intros cd Hwf; simpl; [done|].
  apply IH. by apply add_codes_wf2.
Qed.

Lemma course_demand_unfold cfg :
  course_demand paths set_order cfg = foldl add_path [] (students_per_path cfg).
Proof.
  unfold course_demand. generalize (@nil (string * list (Z * Z))).
  induction (students_per_path cfg) as [|[p n] l IH]; intros cd; simpl; [done|].
  apply IH.
Qed.

Lemma lookup2_add_paths l cd c y :
  lookup2 (foldl add_path cd l) c y = foldl (bump_path c y) (lookup2 cd c y) l.
Proof.
  revert cd. induction l as [|pn l IH]; intros cd; simpl; [done|].
  rewrite IH. f_equal. apply lookup2_add_years.
Qed.

Lemma add_paths_wf2 l cd : wf2 cd -> wf2 (foldl add_path cd l).
Proof.
  revert cd. induction l as [|pn l IH]; intros cd Hwf; simpl; [done|].
  apply IH. by apply add_years_wf2.
Qed.

Lemma course_demand_wf2 cfg : wf2 (course_demand paths set_order cfg).
Proof.
  rewrite course_demand_unfold. apply add_paths_wf2.
  split; [apply NoDup_nil_2 | constructor].
Qed.
End DemandFacts.

Section DemandSpec.
Variable paths : GraduationPath -> GraduationPathPlan.

Lemma year_demand_cons c y n yp yps :
  year_demand c y n (yp :: yps) =
    (if decide (lists yp c y) then n else 0) + year_demand c y n yps.
Proof. reflexivity. Qed.

Lemma demand_cons pn students c y :
  demand paths (pn :: students) c y =
    year_demand c y pn.2 (year_plans (paths pn.1)) + demand paths students c y.
Proof. reflexivity. Qed.

Lemma in_plans_cons pn students c y :
  in_plans paths (pn :: students) c y <->
    Exists (fun yp => lists yp c y) (year_plans (paths pn.1)) \/
    in_plans paths students c y.
Proof. unfold in_plans. apply Exists_cons. Qed.

Lemma year_demand_untouched c y n yps :
  ¬ Exists (fun yp => lists yp c y) yps -> year_demand c y n yps = 0.
Proof.
  induction yps as [|yp yps IH]; [done|].
  rewrite Exists_cons, year_demand_cons. intros Hn.
  rewrite decide_False by tauto. rewrite IH by tauto. done.
Qed.

Lemma bump_years_spec c y n yps o :
  foldl (bump_year c y n) o yps =
    if decide (Exists (fun yp => lists yp c y) yps)
    then Some (default 0 o + year_demand c y n yps)
    else o.
Proof.
  revert o. induction yps as [|yp yps IH]; intros o.
  - rewrite decide_False; [done|]. by intros H%Exists_nil.
  - cbn [foldl]. rewrite IH, year_demand_cons. unfold bump_year.
    destruct (decide (lists yp c y)) as [Hl|Hl];
      destruct (decide (Exists (fun yp => lists yp c y) yps)) as [He|He]; simpl.
    + rewrite decide_True by (by apply Exists_cons_hd). f_equal; lia.
    + rewrite decide_True by (by apply Exists_cons_hd).
      rewrite (year_demand_untouched _ _ _ _ He). f_equal; lia.
    + rewrite decide_True by (by apply Exists_cons_tl). f_equal; lia.
    + rewrite decide_False; [done|]. rewrite Exists_cons. tauto.
Qed.

Lemma demand_untouched students c y :
  ¬ in_plans paths students c y -> demand paths students c y = 0.
Proof.
  induction students as [|pn l IH]; [done|].
  rewrite in_plans_cons, demand_cons. intros Hn.
  rewrite year_demand_untouched by tauto. rewrite IH by tauto. done.
Qed.

Lemma bump_paths_spec c y students o :
  foldl (bump_path paths c y) o students =
    if decide (in_plans paths students c y)
    then Some (default 0 o + demand paths students c y)
    else o.
Proof.
  revert o. induction students as [|pn l IH]; intros o.
  - rewrite decide_False; [done|]. unfold in_plans. by intros H%Exists_nil.
  - cbn [foldl]. rewrite IH, demand_cons. unfold bump_path.
    rewrite bump_years_spec.
    destruct (decide (Exists (fun yp => lists yp c y) (year_plans (paths pn.1))))
      as [Hl|Hl];
      destruct (decide (in_plans paths l c y)) as [He|He]; simpl.
    + rewrite decide_True by (apply in_plans_cons; by left). f_equal; lia.
    + rewrite decide_True by (apply in_plans_cons; by left).
      rewrite (demand_untouched _ _ _ He). f_equal; lia.
    + rewrite decide_True by (apply in_plans_cons; by right).
      rewrite (year_demand_untouched _ _ _ _ Hl). f_equal; lia.
    + rewrite decide_False; [done|]. rewrite in_plans_cons. tauto.
Qed.
End DemandSpec.

(** ** [calculate_sections_needed]: from demand to section counts *)

Lemma ceil_div_Ok a b : b ≠ 0 -> ceil_div a b = Ok (ceiling a b).
Proof. intros Hb. unfold ceil_div. by rewrite decide_False. Qed.

Lemma dict_get_app_fresh {K V} `{EqDecision K} (d : list (K * V)) k v :
  k ∉ dict_keys d -> dict_get (d ++ [(k, v)]) k = Some v.
Proof. intros Hk. by destruct (dict_get_app_last d k v). Qed.

Lemma sections_of_years_keys mcs yd :
  dict_keys (sections_of_years mcs yd) = dict_keys yd.
Proof.
  unfold dict_keys, sections_of_years. rewrite <- list_fmap_compose.
  by apply list_fmap_ext.
Qed.


Section SectionsNeeded.
Variable mcs : Z.
Hypothesis mcs_nonzero : mcs ≠ 0.

Lemma set_sections_rest c yd :
  forall ys sn,
    c ∉ dict_keys sn ->
    NoDup (dict_keys ys ++ dict_keys yd) ->
    for_each (set_sections mcs c) yd (sn ++ [(c, ys)]) =
      Ok (sn ++ [(c, ys ++ sections_of_years mcs yd)]).
Proof.
  induction yd as [|[y n] yd IH]; intros ys sn Hc Hnd.
  - simpl. by rewrite app_nil_r.
  - cbn [for_each]. unfold set_sections at 1. cbn [fst snd].
    rewrite ceil_div_Ok by done. cbn [rbind].
    rewrite dict_get_app_fresh by done. cbn [default].
    simpl in Hnd. apply NoDup_app in Hnd as (Hys & Hdisj & Hyd).
    apply NoDup_cons in Hyd as [Hy Hyd].
    rewrite (dict_set_fresh ys y).
    2:{ intros Hin. apply (Hdisj y Hin). apply elem_of_cons. by left. }
    rewrite dict_set_last by done. rewrite IH; [|done|].
    + unfold sections_of_years. rewrite fmap_cons. cbn [fst snd].
      by rewrite <- app_assoc.
    + rewrite dict_keys_app. simpl. rewrite <- app_assoc. simpl.
      apply NoDup_app. split_and!; [done| |by apply NoDup_cons].
      intros x Hx Hx'. by apply (Hdisj x).
Qed.

Lemma set_sections_years c yd sn :
  c ∉ dict_keys sn -> NoDup (dict_keys yd) -> yd ≠ [] ->
  for_each (set_sections mcs c) yd sn = Ok (sn ++ [(c, sections_of_years mcs yd)]).
Proof.
  intros Hc Hnd Hne. destruct yd as [|[y n] yd]; [done|].
  cbn [for_each]. unfold set_sections at 1. cbn [fst snd].
  rewrite ceil_div_Ok by done. cbn [rbind].
  assert (dict_get sn c = None) as -> by by apply dict_get_None.
  cbn [default dict_set]. rewrite dict_set_fresh by done.
  rewrite set_sections_rest; [done|done|]. apply Hnd.
Qed.

Lemma sections_loop cd :
  forall sn,
    NoDup (dict_keys sn ++ dict_keys cd) ->
    Forall (fun e : string * list (Z * Z) => NoDup (dict_keys e.2) ∧ e.2 ≠ []) cd ->
    for_each (fun sections_needed '(c, year_demands) =>
                for_each (set_sections mcs c) year_demands sections_needed)
             cd sn
    = Ok (sn ++ sections_of_demand mcs cd).
Proof.
  induction cd as [|[c yd] cd IH]; intros sn Hnd Hall.
  - simpl. by rewrite app_nil_r.
  - cbn [for_each]. apply Forall_cons in Hall as [[Hyd Hne] Hall].
    simpl in Hnd. apply NoDup_app in Hnd as (Hsn & Hdisj & Hcd).
    apply NoDup_cons in Hcd as [Hc Hcd].
    rewrite set_sections_years; [|intros Hin; apply (Hdisj c Hin), elem_of_cons; by left|done|done].
    cbn [rbind]. rewrite IH; [|..|done].
    + unfold sections_of_demand. rewrite fmap_cons. cbn [fst snd].
      by rewrite <- app_assoc.
    + rewrite dict_keys_app. simpl. rewrite <- app_assoc. simpl.
      apply NoDup_app. split_and!; [done| |by apply NoDup_cons].
      intros x Hx Hx'. by apply (Hdisj x).
Qed.
End SectionsNeeded.

Lemma dict_get_fmap_value {K V W} `{EqDecision K} (g : V -> W) (d : list (K * V)) k :
  dict_get ((fun e : K * V => (e.1, g e.2)) <$> d) k = g <$> dict_get d k.
Proof.
  induction d as [|[k' v] d IH]; simpl; [done|].
  by destruct (decide (k = k')).
Qed.

Lemma lookup2_sections_of_demand mcs cd c y :
  lookup2 (sections_of_demand mcs cd) c y = (fun n => ceiling n mcs) <$> lookup2 cd c y.
Proof.
  unfold lookup2, sections_of_demand. rewrite dict_get_fmap_value.
  destruct (dict_get cd c) as [yd|]; simpl; [|done].
  unfold sections_of_years.
  apply (dict_get_fmap_value (fun n => ceiling n mcs)).
Qed.

Section SectionsNeededSpec.
Variable paths : GraduationPath -> GraduationPathPlan.
Variable set_order : list string -> list string.
Hypothesis set_order_NoDup : forall xs, NoDup (set_order xs).
Hypothesis set_order_elem : forall xs x, x ∈ set_order xs <-> x ∈ xs.

(** The result is the demand accumulator with every count replaced by its
    number of sections: same codes and years, in the same order. *)
Lemma calculate_sections_needed_eq cfg :
  max_class_size cfg ≠ 0 ->
  calculate_sections_needed paths set_order cfg =
    Ok (sections_of_demand (max_class_size cfg) (course_demand paths set_order cfg)).
Proof.
  intros Hm. unfold calculate_sections_needed.
  destruct (course_demand_wf2 paths set_order cfg) as [Hnd Hall].
  rewrite sections_loop; [done|done|by rewrite app_nil_l|done].
Qed.

Lemma lookup2_course_demand cfg c y :
  lookup2 (course_demand paths set_order cfg) c y =
    if decide (in_plans paths (students_per_path cfg) c y)
    then Some (demand paths (students_per_path cfg) c y)
    else None.
Proof.
  rewrite course_demand_unfold.
  rewrite (lookup2_add_paths paths set_order set_order_NoDup set_order_elem).
  rewrite bump_paths_spec. simpl. by destruct (decide _).
Qed.
End SectionsNeededSpec.

(** ** Loops that fill a dictionary *)

Lemma for_each_dict_map {K V W} `{EqDecision K}
    (f : V -> result W) (g : V -> W) (l : list (K * V)) :
  (forall e, e ∈ l -> f e.2 = Ok (g e.2)) ->
  forall acc, NoDup (dict_keys acc ++ dict_keys l) ->
    for_each (fun acc '(k, v) => do w <- f v; Ok (dict_set acc k w)) l acc
    = Ok (acc ++ ((fun e : K * V => (e.1, g e.2)) <$> l)).
Proof.
  induction l as [|[k v] l IH]; intros Hf acc Hnd.
  - simpl. by rewrite app_nil_r.
  - cbn [for_each]. pose proof (Hf (k, v)) as Hkv. cbn [snd] in Hkv.
    rewrite Hkv by (apply elem_of_cons; by left).
    cbn [rbind]. simpl in Hnd.
    apply NoDup_app in Hnd as (Hacc & Hdisj & Hl).
    apply NoDup_cons in Hl as [Hk Hl].
    rewrite dict_set_fresh.
    2:{ intros Hin. apply (Hdisj k Hin). apply elem_of_cons. by left. }
    rewrite IH.
    + rewrite fmap_cons. cbn [fst snd]. by rewrite <- app_assoc.
    + intros e He. apply Hf. apply elem_of_cons. by right.
    + rewrite dict_keys_app. simpl. rewrite <- app_assoc. simpl.
      apply NoDup_app. split_and!; [done| |by apply NoDup_cons].
      intros x Hx Hx'. by apply (Hdisj x).
Qed.

Lemma foldl_skip {A B} (P : B -> Prop) `{forall x, Decision (P x)}
    (step : A -> B -> A) (l : list B) :
  (forall a x, ¬ P x -> step a x = a) ->
  forall a, foldl step a l = foldl step a (filter P l).
Proof.
  intros Hskip. induction l as [|x l IH]; intros a; [done|].
  rewrite filter_cons. destruct (decide (P x)) as [Hx|Hx]; simpl.
  - apply IH.
  - rewrite Hskip by done. apply IH.
Qed.

Lemma foldl_dict_NoDup {K V B} `{EqDecision K} (step : list (K * V) -> B -> list (K * V))
    (l : list B) :
  (forall d x, NoDup (dict_keys d) -> NoDup (dict_keys (step d x))) ->
  forall d, NoDup (dict_keys d) -> NoDup (dict_keys (foldl step d l)).
Proof.
  intros Hstep. induction l as [|x l IH]; intros d Hd; simpl; auto.
Qed.

(** ** [calculate_min_teachers] *)

Lemma teachers_for_Ok cap levels :
  cap ≠ 0 -> teachers_for cap levels = Ok (teacher_need cap levels).
Proof.
  intros Hc. unfold teachers_for, teacher_need.
  rewrite ceil_div_Ok by done. cbn [rbind]. by rewrite ceil_div_Ok.
Qed.

Section BucketFacts.
Variable COURSE_CATALOG : list (string * Course).
Implicit Types (sn : list (string * list (Z * Z))) (s : SubjectArea).

Local Abbreviation teaches := (teaches COURSE_CATALOG).
Local Abbreviation bucket := (bucket COURSE_CATALOG).
Local Abbreviation ap_sections := (ap_sections COURSE_CATALOG).
Local Abbreviation regular_sections := (regular_sections COURSE_CATALOG).
Local Abbreviation bump_subject := (bump_subject COURSE_CATALOG).
Local Abbreviation subject_step := (subject_step COURSE_CATALOG).

Lemma subject_sections_unfold sn :
  subject_sections COURSE_CATALOG sn = foldl subject_step [] sn.
Proof.
  unfold subject_sections. generalize (@nil (SubjectArea * Levels)).
  induction sn as [|[c ys] sn IH]; intros ss; simpl; [done|]. apply IH.
Qed.

Lemma dict_get_subject_step ss e s :
  dict_get (subject_step ss e) s = bump_subject s (dict_get ss s) e.
Proof.
  unfold subject_step, bump_subject, bucket.
  destruct (decide (teaches s e)) as [Ht|Ht]; unfold teaches in Ht;
    destruct (dict_get COURSE_CATALOG e.1) as [course|]; simpl in Ht; try done.
  - injection Ht as <-. cbn zeta. rewrite dict_get_set_eq.
    destruct (decide (level course = AP)) as [Hl|Hl].
    + rewrite (bool_decide_eq_true_2 _ Hl).
      rewrite decide_False by (intros [_ ?]; done).
      rewrite decide_True by done. f_equal; f_equal; lia.
    + rewrite (bool_decide_eq_false_2 _ Hl).
      rewrite decide_True by done.
      rewrite decide_False by (intros [_ ?]; done). f_equal; f_equal; lia.
  - cbn zeta. rewrite dict_get_set_ne; [done|]. congruence.
Qed.

Lemma dict_get_subject_fold sn ss s :
  dict_get (foldl subject_step ss sn) s = foldl (bump_subject s) (dict_get ss s) sn.
Proof.
  revert ss. induction sn as [|e sn IH]; intros ss; simpl; [done|].
  by rewrite IH, dict_get_subject_step.
Qed.

Lemma bucket_not_teaches b s e : ¬ teaches s e -> bucket b s e = 0.
Proof.
  unfold teaches, bucket. intros Ht.
  destruct (dict_get COURSE_CATALOG e.1) as [course|]; simpl in Ht; [|done].
  rewrite decide_False; [done|]. intros [Hs _]. apply Ht. by rewrite Hs.
Qed.

Lemma bucket_untaught b s sn :
  ¬ Exists (teaches s) sn -> sum (bucket b s <$> sn) = 0.
Proof.
  induction sn as [|e sn IH]; [done|].
  rewrite Exists_cons, fmap_cons, sum_cons. intros Hn.
  rewrite IH by tauto. rewrite bucket_not_teaches by tauto. done.
Qed.

Lemma bump_subject_spec s sn o :
  foldl (bump_subject s) o sn =
    if decide (Exists (teaches s) sn)
    then Some (mkLevels (regular (default (mkLevels 0 0) o) + regular_sections sn s)
                        (ap (default (mkLevels 0 0) o) + ap_sections sn s))
    else o.
Proof.
  unfold regular_sections, ap_sections.
  revert o. induction sn as [|e sn IH]; intros o.
  - rewrite decide_False; [done|]. by intros H%Exists_nil.
  - cbn [foldl]. rewrite IH, !fmap_cons, !sum_cons.
    unfold bump_subject.
    destruct (decide (teaches s e)) as [Ht|Ht];
      destruct (decide (Exists (teaches s) sn)) as [He|He]; simpl.
    + rewrite decide_True by (by apply Exists_cons_hd). f_equal; f_equal; lia.
    + rewrite decide_True by (by apply Exists_cons_hd).
      rewrite !(bucket_untaught _ _ _ He). f_equal; f_equal; lia.
    + rewrite decide_True by (by apply Exists_cons_tl).
      rewrite !bucket_not_teaches by done. f_equal; f_equal; lia.
    + rewrite decide_False; [done|]. rewrite Exists_cons. tauto.
Qed.

(** The bucket pair of a subject is the pair of the two sums, and a subject
    has an entry exactly when one of its catalog courses has one. *)
Lemma subject_sections_spec sn s :
  dict_get (subject_sections COURSE_CATALOG sn) s =
    if decide (Exists (teaches s) sn)
    then Some (mkLevels (regular_sections sn s) (ap_sections sn s))
    else None.
Proof.
  rewrite subject_sections_unfold, dict_get_subject_fold, bump_subject_spec.
  simpl. by destruct (decide _).
Qed.

Lemma subject_sections_NoDup sn :
  NoDup (dict_keys (subject_sections COURSE_CATALOG sn)).
Proof.
  rewrite subject_sections_unfold. apply foldl_dict_NoDup; [|apply NoDup_nil_2].
  intros d e Hd. unfold subject_step.
  destruct (dict_get COURSE_CATALOG e.1); [by apply dict_set_NoDup | done].
Qed.

Lemma min_teachers_of_eq cap sn :
  cap ≠ 0 ->
  min_teachers_of cap (subject_sections COURSE_CATALOG sn) =
    Ok ((fun e : SubjectArea * Levels => (e.1, teacher_need cap e.2))
          <$> subject_sections COURSE_CATALOG sn).
Proof.
  intros Hc. unfold min_teachers_of.
  rewrite (for_each_dict_map (teachers_for cap) (teacher_need cap)); [done| |].
  - intros e _. by apply teachers_for_Ok.
  - simpl. apply subject_sections_NoDup.
Qed.
End BucketFacts.

(** ** The admissible set order used for concrete runs *)

Lemma first_seen_elem (xs : list string) (x : string) : x ∈ first_seen xs <-> x ∈ xs.
Proof.
  induction xs as [|a xs IH]; simpl; [done|].
  rewrite !elem_of_cons, list_elem_of_filter, IH.
  destruct (decide (x = a)); naive_solver.
Qed.

Lemma first_seen_NoDup (xs : list string) : NoDup (first_seen xs).
Proof.
  induction xs as [|a xs IH]; simpl; [apply NoDup_nil_2|].
  apply NoDup_cons. split.
  - rewrite list_elem_of_filter. naive_solver.
  - by apply NoDup_filter.
Qed.

(** ** The ceiling *)

(** [ceiling a b] is the least integer not below [a / b]. *)
Lemma ceiling_spec (a b q : Z) :
  0 < b -> (ceiling a b = q <-> (q - 1) * b < a <= q * b).
Proof.
  intros Hb. unfold ceiling.
  pose proof (Z.div_mod (- a) b) as Hdm.
  pose proof (Z.mod_pos_bound (- a) b Hb) as Hmod.
  split; intros H; nia.
Qed.

(** ** Claims on the calculator *)

(** C6 (as amended).  With a non-zero class size, and the class size and
    every accumulated demand of magnitude below 2^53 (where the ceiling of
    the double-precision quotient is the exact one),
    [calculate_sections_needed] returns, and its entry for a course code and
    a year is the ceiling of demand / max_class_size, where the demand adds
    the enrolment of every path of the enrolment mapping once for each of its
    plans of that year that lists the code (in one semester list or in both).
    The pair has an entry exactly when some path of the enrolment mapping
    lists the code in that year; a pair listed only by paths of enrolment 0
    is present, with 0 sections. *)
Theorem C6_sections_needed
    (paths : GraduationPath -> GraduationPathPlan)
    (set_order : list string -> list string) (cfg : Config)
    (set_order_NoDup : forall xs, NoDup (set_order xs))
    (set_order_elem : forall xs x, x ∈ set_order xs <-> x ∈ xs)
    (Hsize : max_class_size cfg ≠ 0)
    (Hrange : sections_in_range paths set_order cfg) :
  exists sn,
    calculate_sections_needed paths set_order cfg = Ok sn /\
    forall c y,
      lookup2 sn c y =
        if decide (in_plans paths (students_per_path cfg) c y)
        then Some (ceiling (demand paths (students_per_path cfg) c y)
                           (max_class_size cfg))
        else None.
Proof.
  eexists. split; [by apply calculate_sections_needed_eq|].
  intros c y. rewrite lookup2_sections_of_demand.
  rewrite lookup2_course_demand by done.
  by destruct (decide _).
Qed.

Lemma C6_sections_needed_witness :
  exists sn,
    calculate_sections_needed get_all_paths first_seen
      (mkConfig [(MINIMUM, 20); (PRE_MED, 20); (ENGINEERING, 20)] 25 6) = Ok sn /\
    forall c y,
      lookup2 sn c y =
        if decide (in_plans get_all_paths
                     [(MINIMUM, 20); (PRE_MED, 20); (ENGINEERING, 20)] c y)
        then Some (ceiling (demand get_all_paths
                              [(MINIMUM, 20); (PRE_MED, 20); (ENGINEERING, 20)] c y) 25)
        else None.
Proof.
  apply (C6_sections_needed get_all_paths first_seen
           (mkConfig [(MINIMUM, 20); (PRE_MED, 20); (ENGINEERING, 20)] 25 6)
           first_seen_NoDup first_seen_elem).
  - cbn [max_class_size]. lia.
  - apply (bool_decide_unpack _). vm_compute. exact I.
Defined.

(** C6 as stated fails: with an enrolment of 0 for the one enrolled path the
    demand for English 9 in year 1 is zero, and the pair is in the result,
    with 0 sections. *)
Lemma C6_zero_demand_present :
  demand get_all_paths [(MINIMUM, 0)] "ENG9" 1 = 0 /\
  exists sn,
    calculate_sections_needed get_all_paths first_seen
      (mkConfig [(MINIMUM, 0)] 25 6) = Ok sn /\
    lookup2 sn "ENG9" 1 = Some 0.
Proof.
  split; [reflexivity|]. eexists. split; [vm_compute; reflexivity | reflexivity].
Qed.

Section RoomFacts.
Variable COURSE_CATALOG : list (string * Course).

Lemma room_type_sections_NoDup sn :
  NoDup (dict_keys (room_type_sections COURSE_CATALOG sn)).
Proof.
  unfold room_type_sections. apply foldl_dict_NoDup; [|apply NoDup_nil_2].
  intros d [c ys] Hd. destruct (dict_get COURSE_CATALOG c); [by apply dict_set_NoDup | done].
Qed.

Lemma min_rooms_of_eq ppd sn :
  ppd ≠ 0 ->
  min_rooms_of ppd (room_type_sections COURSE_CATALOG sn) =
    Ok ((fun e : RoomType * Z => (e.1, ceiling e.2 ppd))
          <$> room_type_sections COURSE_CATALOG sn).
Proof.
  intros Hp. unfold min_rooms_of.
  rewrite (for_each_dict_map (fun v => ceil_div v ppd) (fun v => ceiling v ppd)); [done| |].
  - intros e _. by apply ceil_div_Ok.
  - simpl. apply room_type_sections_NoDup.
Qed.

(** Entries whose code the catalog lacks play no part in the two groupings. *)
Lemma room_type_sections_absent c sn :
  dict_get COURSE_CATALOG c = None ->
  room_type_sections COURSE_CATALOG sn =
    room_type_sections COURSE_CATALOG
      (filter (fun e : string * list (Z * Z) => e.1 ≠ c) sn).
Proof.
  intros Hc. unfold room_type_sections. apply foldl_skip.
  intros rts [c' ys] Hne. simpl in Hne.
  destruct (decide (c' = c)) as [->|]; [by rewrite Hc | tauto].
Qed.

Lemma subject_sections_absent c sn :
  dict_get COURSE_CATALOG c = None ->
  subject_sections COURSE_CATALOG sn =
    subject_sections COURSE_CATALOG
      (filter (fun e : string * list (Z * Z) => e.1 ≠ c) sn).
Proof.
  intros Hc. unfold subject_sections. apply foldl_skip.
  intros rts [c' ys] Hne. simpl in Hne.
  destruct (decide (c' = c)) as [->|]; [by rewrite Hc | tauto].
Qed.
End RoomFacts.

(** C2 (as amended).  With a non-zero class size and [periods_per_day <> 1],
    and every division in the range below 2^53 where the ceiling of the
    double-precision quotient is the exact one,
    [calculate_min_teachers] returns; a subject area has an entry exactly
    when [sections_needed] has a code whose catalog course is of that area,
    and that entry is: ap_qualified = ceiling (AP sections / cap),
    regular_only = ceiling (max (0, regular sections - (ap_qualified * cap -
    AP sections)) / cap), total = their sum, with cap = periods_per_day - 1
    and the sections summed over the years and the courses of the area.  In
    particular 12 AP and 10 regular sections with cap 5 give 3, 2 and 5, and
    without AP sections no teacher is AP-qualified and the regular sections go
    through the regular-only formula unchanged.  (A subject whose courses all
    have 0 sections still has its entry, with three zeros.) *)
Theorem C2_min_teachers
    (catalog : list (string * Course))
    (paths : GraduationPath -> GraduationPathPlan)
    (set_order : list string -> list string) (cfg : Config)
    (Hsize : max_class_size cfg ≠ 0)
    (Hcap : periods_per_day cfg - 1 ≠ 0)
    (Hrange : sections_in_range paths set_order cfg)
    (Hteachers : teachers_in_range catalog paths set_order cfg) :
  (exists sn mt,
     calculate_sections_needed paths set_order cfg = Ok sn /\
     calculate_min_teachers catalog paths set_order cfg = Ok mt /\
     forall s,
       let cap := periods_per_day cfg - 1 in
       let aps := ap_sections catalog sn s in
       let regs := regular_sections catalog sn s in
       (Exists (teaches catalog s) sn ->
        exists info,
          dict_get mt s = Some info /\
          ap_qualified info = ceiling aps cap /\
          regular_only info =
            ceiling (Z.max 0 (regs - (ap_qualified info * cap - aps))) cap /\
          total info = ap_qualified info + regular_only info) /\
       (¬ Exists (teaches catalog s) sn -> dict_get mt s = None)) /\
  teachers_for 5 (mkLevels 10 12) = Ok (mkNeed 3 2 5) /\
  (forall cap regs, cap ≠ 0 -> 0 <= regs -> double_exact cap -> double_exact regs ->
     teachers_for cap (mkLevels regs 0) =
       Ok (mkNeed 0 (ceiling regs cap) (ceiling regs cap))).
Proof.
  split; [|split].
  - unfold calculate_min_teachers.
    rewrite calculate_sections_needed_eq by done. cbn [rbind].
    rewrite min_teachers_of_eq by done.
    eexists _, _. split; [done|]. split; [done|].
    intros s. cbv zeta. rewrite dict_get_fmap_value, subject_sections_spec.
    split; intros He.
    + rewrite decide_True by done. eexists. split; [done|]. by simpl.
    + by rewrite decide_False.
  - reflexivity.
  - intros cap regs Hc Hr _ _. rewrite teachers_for_Ok by done.
    unfold teacher_need, ceiling. cbn [ap regular].
    replace (- 0) with 0 by done. rewrite Z.div_0_l by done.
    replace (- 0 * cap - 0) with 0 by lia.
    replace (Z.max 0 (regs - 0)) with regs by lia. done.
Qed.

Lemma C2_min_teachers_witness :
  (exists sn mt,
     calculate_sections_needed get_all_paths first_seen
       (mkConfig [(PRE_MED, 60)] 25 6) = Ok sn /\
     calculate_min_teachers COURSE_CATALOG get_all_paths first_seen
       (mkConfig [(PRE_MED, 60)] 25 6) = Ok mt /\
     forall s,
       let cap := 6 - 1 in
       let aps := ap_sections COURSE_CATALOG sn s in
       let regs := regular_sections COURSE_CATALOG sn s in
       (Exists (teaches COURSE_CATALOG s) sn ->
        exists info,
          dict_get mt s = Some info /\
          ap_qualified info = ceiling aps cap /\
          regular_only info =
            ceiling (Z.max 0 (regs - (ap_qualified info * cap - aps))) cap /\
          total info = ap_qualified info + regular_only info) /\
       (¬ Exists (teaches COURSE_CATALOG s) sn -> dict_get mt s = None)) /\
  teachers_for 5 (mkLevels 10 12) = Ok (mkNeed 3 2 5) /\
  (forall cap regs, cap ≠ 0 -> 0 <= regs -> double_exact cap -> double_exact regs ->
     teachers_for cap (mkLevels regs 0) =
       Ok (mkNeed 0 (ceiling regs cap) (ceiling regs cap))).
Proof.
  apply (C2_min_teachers COURSE_CATALOG get_all_paths first_seen
           (mkConfig [(PRE_MED, 60)] 25 6)).
  - cbn [max_class_size]. lia.
  - cbn [periods_per_day]. lia.
  - apply (bool_decide_unpack _). vm_compute. exact I.
  - split; [apply (bool_decide_unpack _); vm_compute; exact I|].
    intros sn Hsn. vm_compute in Hsn. injection Hsn as <-.
    apply (bool_decide_unpack _). vm_compute. exact I.
Defined.

(** C2 as stated fails in its last sentence: with an enrolment of 0 English
    has zero sections in total and is in the result, with three zeros. *)
Lemma C2_zero_subject_present :
  exists sn mt,
    calculate_sections_needed get_all_paths first_seen
      (mkConfig [(MINIMUM, 0)] 25 6) = Ok sn /\
    calculate_min_teachers COURSE_CATALOG get_all_paths first_seen
      (mkConfig [(MINIMUM, 0)] 25 6) = Ok mt /\
    ap_sections COURSE_CATALOG sn ENGLISH + regular_sections COURSE_CATALOG sn ENGLISH = 0 /\
    dict_get mt ENGLISH = Some (mkNeed 0 0 0).
Proof.
  eexists _, _. split; [vm_compute; reflexivity|].
  split; [vm_compute; reflexivity|]. split; reflexivity.
Qed.

(** C8 (as amended).  A course code that a plan lists and the catalog lacks
    is not excluded from the section counts: [calculate_sections_needed]
    gives it the same ceiling of its demand as any other code.  The two
    groupings skip it: the minimum classrooms and the minimum teachers are the
    ones computed from the other codes alone, and the scheduler leaves its
    bookkeeping and its output untouched at that code.  Nothing records the
    skip, and with a non-zero class size, [periods_per_day] neither 0 nor 1
    and every division in the range below 2^53 (where the ceiling of the
    double-precision quotient is the exact one) all three calculations
    return. *)
Theorem C8_absent_code
    (catalog : list (string * Course))
    (paths : GraduationPath -> GraduationPathPlan)
    (set_order : list string -> list string) (cfg : Config) (c : string)
    (set_order_NoDup : forall xs, NoDup (set_order xs))
    (set_order_elem : forall xs x, x ∈ set_order xs <-> x ∈ xs)
    (Habsent : dict_get catalog c = None)
    (Hsize : max_class_size cfg ≠ 0)
    (Hperiods : periods_per_day cfg ≠ 0)
    (Hcap : periods_per_day cfg - 1 ≠ 0)
    (Hrange : sections_in_range paths set_order cfg)
    (Hrooms : rooms_in_range catalog paths set_order cfg)
    (Hteachers : teachers_in_range catalog paths set_order cfg) :
  exists sn rooms mt,
    calculate_sections_needed paths set_order cfg = Ok sn /\
    calculate_min_classrooms catalog paths set_order cfg = Ok rooms /\
    calculate_min_teachers catalog paths set_order cfg = Ok mt /\
    (forall y, in_plans paths (students_per_path cfg) c y ->
       lookup2 sn c y =
         Some (ceiling (demand paths (students_per_path cfg) c y)
                       (max_class_size cfg))) /\
    min_rooms_of (periods_per_day cfg)
      (room_type_sections catalog
         (filter (fun e : string * list (Z * Z) => e.1 ≠ c) sn)) = Ok rooms /\
    min_teachers_of (periods_per_day cfg - 1)
      (subject_sections catalog
         (filter (fun e : string * list (Z * Z) => e.1 ≠ c) sn)) = Ok mt /\
    forall ppd all_classrooms all_teachers st,
      schedule_course catalog ppd all_classrooms all_teachers sn st c = Ok st.
Proof.
  unfold calculate_min_classrooms, calculate_min_teachers.
  rewrite calculate_sections_needed_eq by done. cbn [rbind].
  rewrite min_rooms_of_eq, min_teachers_of_eq by done.
  eexists _, _, _. split_and!; try done.
  - intros y Hy. rewrite lookup2_sections_of_demand.
    rewrite lookup2_course_demand by done. by rewrite decide_True.
  - rewrite <- (room_type_sections_absent catalog c) by done.
    by apply min_rooms_of_eq.
  - rewrite <- (subject_sections_absent catalog c) by done.
    by apply min_teachers_of_eq.
  - intros ppd rs ts st. unfold schedule_course. by rewrite Habsent.
Qed.

Lemma C8_absent_code_witness :
  exists sn rooms mt,
    calculate_sections_needed get_all_paths first_seen
      (mkConfig [(MINIMUM, 20)] 25 6) = Ok sn /\
    calculate_min_classrooms COURSE_CATALOG get_all_paths first_seen
      (mkConfig [(MINIMUM, 20)] 25 6) = Ok rooms /\
    calculate_min_teachers COURSE_CATALOG get_all_paths first_seen
      (mkConfig [(MINIMUM, 20)] 25 6) = Ok mt /\
    (forall y, in_plans get_all_paths [(MINIMUM, 20)] "REL1" y ->
       lookup2 sn "REL1" y =
         Some (ceiling (demand get_all_paths [(MINIMUM, 20)] "REL1" y) 25)) /\
    min_rooms_of 6
      (room_type_sections COURSE_CATALOG
         (filter (fun e : string * list (Z * Z) => e.1 ≠ "REL1") sn)) = Ok rooms /\
    min_teachers_of (6 - 1)
      (subject_sections COURSE_CATALOG
         (filter (fun e : string * list (Z * Z) => e.1 ≠ "REL1") sn)) = Ok mt /\
    forall ppd all_classrooms all_teachers st,
      schedule_course COURSE_CATALOG ppd all_classrooms all_teachers sn st "REL1" = Ok st.
Proof.
  apply (C8_absent_code COURSE_CATALOG get_all_paths first_seen
           (mkConfig [(MINIMUM, 20)] 25 6) "REL1"
           first_seen_NoDup first_seen_elem).
  - reflexivity.
  - cbn [max_class_size]. lia.
  - cbn [periods_per_day]. lia.
  - cbn [periods_per_day]. lia.
  - apply (bool_decide_unpack _). vm_compute. exact I.
  - split; [apply (bool_decide_unpack _); vm_compute; exact I|].
    intros sn Hsn. vm_compute in Hsn. injection Hsn as <-.
    apply (bool_decide_unpack _). vm_compute. exact I.
  - split; [apply (bool_decide_unpack _); vm_compute; exact I|].
    intros sn Hsn. vm_compute in Hsn. injection Hsn as <-.
    apply (bool_decide_unpack _). vm_compute. exact I.
Defined.

(** C8 as stated fails: the plans list REL1, the catalog has no REL1, and the
    section counts include it, with one section in year 1. *)
Lemma C8_absent_code_counted :
  dict_get COURSE_CATALOG "REL1" = None /\
  exists sn,
    calculate_sections_needed get_all_paths first_seen
      (mkConfig [(MINIMUM, 20)] 25 6) = Ok sn /\
    lookup2 sn "REL1" 1 = Some 1.
Proof.
  split; [reflexivity|]. eexists. split; [vm_compute; reflexivity | reflexivity].
Qed.

(** ** [sorted]: a stable sort *)

Section SortedFacts.
Context {A : Type} (key : A -> Z).

Lemma insert_by_Permutation x l : insert_by key x l ≡ₚ x :: l.
Proof.
  induction l as [|y l IH]; simpl; [done|].
  destruct (decide (key x <= key y)); [done|].
  rewrite IH. apply Permutation_swap.
Qed.

Lemma sorted_Permutation l : sorted key l ≡ₚ l.
Proof.
  unfold sorted. induction l as [|x l IH]; simpl; [done|].
  by rewrite insert_by_Permutation, IH.
Qed.

Lemma insert_by_StronglySorted x l :
  StronglySorted (fun a b => key a <= key b) l ->
  StronglySorted (fun a b => key a <= key b) (insert_by key x l).
Proof.
  induction 1 as [|y l Hl IH Hy]; simpl.
  - repeat constructor.
  - destruct (decide (key x <= key y)) as [Hxy|Hxy].
    + constructor; [by constructor|]. constructor; [done|].
      eapply Forall_impl; [exact Hy|]. simpl. intros z Hz. lia.
    + constructor; [done|]. rewrite insert_by_Permutation.
      constructor; [lia | done].
Qed.

Lemma StronglySorted_weaken (R R' : A -> A -> Prop) l :
  (forall a b, R a b -> R' a b) -> StronglySorted R l -> StronglySorted R' l.
Proof.
  intros HR. induction 1 as [|x l Hl IH Hx]; constructor; [done|].
  eapply Forall_impl; [exact Hx | auto].
Qed.

Lemma sorted_StronglySorted l :
  StronglySorted (fun a b => key a <= key b) (sorted key l).
Proof.
  unfold sorted. induction l as [|x l IH]; simpl; [constructor|].
  by apply insert_by_StronglySorted.
Qed.

Lemma insert_by_stable w x l :
  filter (fun a => key a = w) (insert_by key x l) =
  filter (fun a => key a = w) (x :: l).
Proof.
  induction l as [|y l IH]; simpl; [done|].
  destruct (decide (key x <= key y)) as [Hxy|Hxy]; [done|].
  rewrite filter_cons, IH, !filter_cons.
  destruct (decide (key y = w)), (decide (key x = w)); try done. lia.
Qed.

(** Elements of equal key keep their relative order. *)
Lemma sorted_stable w l :
  filter (fun a => key a = w) (sorted key l) = filter (fun a => key a = w) l.
Proof.
  unfold sorted. induction l as [|x l IH]; simpl; [done|].
  by rewrite insert_by_stable, !filter_cons, IH.
Qed.
End SortedFacts.

(** ** The availability tables *)

Lemma elem_of_table_keys ids ppd sem p i :
  (sem, p, i) ∈ table_keys ids ppd <-> (sem = 1 \/ sem = 2) /\ p ∈ seqZ 1 ppd /\ i ∈ ids.
Proof.
  unfold table_keys. rewrite list_elem_of_bind. split.
  - intros (sem' & Hin & Hsem). apply list_elem_of_bind in Hin as (p' & Hin & Hp).
    apply list_elem_of_bind in Hin as (i' & Hin & Hi).
    apply list_elem_of_singleton in Hin. injection Hin as -> -> ->.
    split; [|done]. rewrite !elem_of_cons in Hsem.
    destruct Hsem as [?|[?|Hn]]; [by left | by right | by apply elem_of_nil in Hn].
  - intros (Hsem & Hp & Hi). exists sem. split.
    + apply list_elem_of_bind. exists p. split; [|done].
      apply list_elem_of_bind. exists i. split; [|done]. by apply list_elem_of_singleton.
    + rewrite !elem_of_cons. tauto.
Qed.

Lemma init_available_present ids ppd k :
  k ∈ table_keys ids ppd -> is_Some (init_available ids ppd !! k).
Proof.
  intros Hk. unfold init_available.
  destruct (list_to_map (M := gmap (Z * Z * string) bool)
              ((fun k => (k, true)) <$> table_keys ids ppd) !! k) eqn:Hl; [done|].
  apply not_elem_of_list_to_map in Hl. exfalso. apply Hl.
  rewrite <- list_fmap_compose. simpl.
  apply list_elem_of_fmap. by exists k.
Qed.

(** ** The two scans *)

Lemma find_room_Ok avail sem p rooms :
  (forall r, r ∈ rooms -> is_Some (avail !! (sem, p, cls_id r))) ->
  exists o, find_room avail sem p rooms = Ok o /\
    match o with
    | Some room => room ∈ rooms /\ avail !! (sem, p, cls_id room) = Some true
    | None => True
    end.
Proof.
  induction rooms as [|r rooms IH]; intros Hdom; simpl.
  - by exists None.
  - destruct (Hdom r) as [b Hb]; [apply elem_of_cons; by left|].
    rewrite Hb. destruct b.
    + exists (Some r). split; [done|]. split; [apply elem_of_cons; by left | done].
    + destruct IH as (o & -> & Ho).
      { intros r' Hr'. apply Hdom. apply elem_of_cons. by right. }
      exists o. split; [done|]. destruct o; [|done].
      destruct Ho. split; [apply elem_of_cons; by right | done].
Qed.

Lemma find_teacher_Ok avail loads sem p ts :
  (forall t, t ∈ ts -> is_Some (avail !! (sem, p, tch_id t))) ->
  exists o, find_teacher avail loads sem p ts = Ok o /\
    match o with
    | Some teacher =>
        teacher ∈ ts /\ avail !! (sem, p, tch_id teacher) = Some true /\
        default 0 (loads !! tch_id teacher) < max_periods_per_day teacher * 2
    | None => True
    end.
Proof.
  induction ts as [|t ts IH]; intros Hdom; simpl.
  - by exists None.
  - destruct (Hdom t) as [b Hb]; [apply elem_of_cons; by left|].
    rewrite Hb.
    destruct (b && bool_decide (default 0 (loads !! tch_id t) < max_periods_per_day t * 2))
      eqn:Hc.
    + apply andb_true_iff in Hc as [-> Hlt]. apply bool_decide_eq_true_1 in Hlt.
      exists (Some t). split; [done|]. split; [apply elem_of_cons; by left | done].
    + destruct IH as (o & -> & Ho).
      { intros t' Ht'. apply Hdom. apply elem_of_cons. by right. }
      exists o. split; [done|]. destruct o; [|done].
      destruct Ho as (? & ? & ?). split; [apply elem_of_cons; by right | done].
Qed.

Lemma find_room_Ok_inv avail sem p rooms o :
  find_room avail sem p rooms = Ok o ->
  o = None \/
  exists room, o = Some room /\ room ∈ rooms /\
    avail !! (sem, p, cls_id room) = Some true.
Proof.
  induction rooms as [|r rooms IH]; simpl.
  - intros [= <-]. by left.
  - destruct (avail !! (sem, p, cls_id r)) as [[]|] eqn:Hr; [| |done].
    + intros [= <-]. right. exists r. split; [done|].
      split; [apply elem_of_cons; by left | done].
    + intros Hrun. destruct (IH Hrun) as [->|(room & -> & Hin & Ha)]; [by left|].
      right. exists room. split; [done|]. split; [apply elem_of_cons; by right | done].
Qed.

Lemma find_teacher_Ok_inv avail loads sem p ts o :
  find_teacher avail loads sem p ts = Ok o ->
  o = None \/
  exists teacher, o = Some teacher /\ teacher ∈ ts /\
    avail !! (sem, p, tch_id teacher) = Some true /\
    default 0 (loads !! tch_id teacher) < max_periods_per_day teacher * 2.
Proof.
  induction ts as [|t ts IH]; simpl.
  - intros [= <-]. by left.
  - destruct (avail !! (sem, p, tch_id t)) as [b|] eqn:Ht; [|done].
    destruct (b && bool_decide (default 0 (loads !! tch_id t) < max_periods_per_day t * 2))
      eqn:Hc.
    + apply andb_true_iff in Hc as [-> Hlt]. apply bool_decide_eq_true_1 in Hlt.
      intros [= <-]. right. exists t. split; [done|].
      split; [apply elem_of_cons; by left | done].
    + intros Hrun. destruct (IH Hrun) as [->|(teacher & -> & Hin & Ha)]; [by left|].
      right. exists teacher. split; [done|]. split; [apply elem_of_cons; by right | done].
Qed.

(** ** One section unit *)

Lemma mirror_cases course c sem p room teacher st st' :
  mirror course c sem p room teacher st = Ok st' ->
  st' = st \/
  (semesters course = 2 /\ sem = 1 /\
   classroom_available st !! (2, p, cls_id room) = Some true /\
   teacher_available st !! (2, p, tch_id teacher) = Some true /\
   st' = place_mirror c p room teacher st).
Proof.
  unfold mirror. destruct (decide (semesters course = 2 ∧ sem = 1)) as [[Hs ->]|Hn].
  - destruct (classroom_available st !! (2, p, cls_id room)) as [[]|] eqn:Hr; [| |done].
    + destruct (teacher_available st !! (2, p, tch_id teacher)) as [[]|] eqn:Ht; [| |done].
      * intros [= <-]. right. done.
      * intros [= <-]. by left.
    + intros [= <-]. by left.
  - intros [= <-]. by left.
Qed.

Lemma mirror_Ok course c sem p room teacher st :
  is_Some (classroom_available st !! (2, p, cls_id room)) ->
  is_Some (teacher_available st !! (2, p, tch_id teacher)) ->
  exists st', mirror course c sem p room teacher st = Ok st'.
Proof.
  intros [br Hr] [bt Ht]. unfold mirror.
  destruct (decide (semesters course = 2 ∧ sem = 1)); [|eauto].
  rewrite Hr. destruct br; [|eauto]. rewrite Ht. destruct bt; eauto.
Qed.

Lemma try_period_cases course c rooms teachers ppd sem acc p acc' :
  sem ∈ semesters_to_schedule course -> p ∈ seqZ 1 ppd ->
  try_period course c rooms teachers sem acc p = Ok acc' ->
  acc' = acc \/
  (acc.1 = false /\ acc'.1 = true /\ placed course c rooms teachers ppd acc.2 acc'.2).
Proof.
  intros Hsem Hp. unfold try_period. destruct acc as [[] st]; cbn [fst snd].
  { intros [= <-]. by left. }
  intros Hrun. apply rbind_Ok in Hrun as (o & Hfr & Hrun).
  destruct (find_room_Ok_inv _ _ _ _ _ Hfr) as [Ho|(room & -> & Hroom & Hravail)];
    [subst o; injection Hrun as <-; by left|].
  apply rbind_Ok in Hrun as (o & Hft & Hrun).
  destruct (find_teacher_Ok_inv _ _ _ _ _ _ Hft)
    as [Ho|(teacher & -> & Hteacher & Htavail & Hload)];
    [subst o; injection Hrun as <-; by left|].
  apply rbind_Ok in Hrun as (st1 & Hm & Hrun). injection Hrun as <-.
  right. split; [done|]. split; [done|]. cbn [snd].
  apply mirror_cases in Hm as [->|(Hs & -> & Hr2 & Ht2 & ->)].
  - by apply placed_once.
  - by apply placed_twice.
Qed.

Lemma unit_loop_cases course c rooms teachers ppd st r :
  for_each (fun acc sem =>
              for_each (try_period course c rooms teachers sem) (seqZ 1 ppd) acc)
           (semesters_to_schedule course) (false, st) = Ok r ->
  r = (false, st) \/ (r.1 = true /\ placed course c rooms teachers ppd st r.2).
Proof.
  apply (for_each_preserves
           (fun acc => acc = (false, st) \/
                       (acc.1 = true /\ placed course c rooms teachers ppd st acc.2)));
    [|by left].
  intros acc sem acc' Hsem Hacc.
  apply (for_each_preserves
           (fun acc => acc = (false, st) \/
                       (acc.1 = true /\ placed course c rooms teachers ppd st acc.2)));
    [|done].
  intros a p a' Hp Ha Hrun.
  destruct (try_period_cases _ _ _ _ _ _ _ _ _ Hsem Hp Hrun) as [->|(Hf & Ht & Hpl)];
    [done|].
  destruct Ha as [->|[Htrue _]]; [|congruence]. right. done.
Qed.

(** A section unit is placed, or the warning is printed and nothing else
    changes. *)
Lemma schedule_unit_cases ppd course c rooms teachers st st' :
  schedule_unit ppd course c rooms teachers st = Ok st' ->
  st' = warn course st \/ placed course c rooms teachers ppd st st'.
Proof.
  unfold schedule_unit. intros Hrun. apply rbind_Ok in Hrun as (r & Hloop & Hrun).
  apply unit_loop_cases in Hloop as [->|[Htrue Hpl]].
  - cbn [fst snd] in Hrun. injection Hrun as <-. by left.
  - rewrite Htrue in Hrun. injection Hrun as <-. by right.
Qed.

(** ** Consistency of the bookkeeping *)

Section Consistency.
Variables (rk tk : list (Z * Z * string)).

Lemma add_consistent st s loads counter out :
  consistent rk tk st ->
  classroom_available st !! slot_room s = Some true ->
  teacher_available st !! slot_teacher s = Some true ->
  consistent rk tk
    (mkState (<[slot_room s := false]> (classroom_available st))
             (<[slot_teacher s := false]> (teacher_available st))
             loads (scheduled_sections st ++ [s]) counter out).
Proof.
  intros [Hrp Htp Hrt Htt Hrn Htn] Hr Ht. constructor; cbn.
  - intros k Hk. apply lookup_insert_is_Some'. right. by apply Hrp.
  - intros k Hk. apply lookup_insert_is_Some'. right. by apply Htp.
  - intros s' Hs'. apply elem_of_app in Hs' as [Hold|Hnew].
    + rewrite lookup_insert_ne; [by apply Hrt|].
      intros Heq. specialize (Hrt s' Hold). rewrite <- Heq in Hrt. congruence.
    + apply list_elem_of_singleton in Hnew as ->. apply lookup_insert_eq.
  - intros s' Hs'. apply elem_of_app in Hs' as [Hold|Hnew].
    + rewrite lookup_insert_ne; [by apply Htt|].
      intros Heq. specialize (Htt s' Hold). rewrite <- Heq in Htt. congruence.
    + apply list_elem_of_singleton in Hnew as ->. apply lookup_insert_eq.
  - rewrite fmap_app. apply NoDup_app. split_and!; [done| |apply NoDup_singleton].
    intros k Hk Hk'. apply list_elem_of_singleton in Hk' as ->.
    apply list_elem_of_fmap in Hk as (s' & Heq & Hs').
    specialize (Hrt s' Hs'). rewrite <- Heq in Hrt. congruence.
  - rewrite fmap_app. apply NoDup_app. split_and!; [done| |apply NoDup_singleton].
    intros k Hk Hk'. apply list_elem_of_singleton in Hk' as ->.
    apply list_elem_of_fmap in Hk as (s' & Heq & Hs').
    specialize (Htt s' Hs'). rewrite <- Heq in Htt. congruence.
Qed.

Lemma place_consistent c sem p room teacher st :
  consistent rk tk st ->
  classroom_available st !! (sem, p, cls_id room) = Some true ->
  teacher_available st !! (sem, p, tch_id teacher) = Some true ->
  consistent rk tk (place c sem p room teacher st).
Proof.
  intros Hc Hr Ht. unfold place.
  by apply (add_consistent st
              (mkSection c (section_counter st + 1) p sem (cls_id room) (tch_id teacher))).
Qed.

Lemma place_mirror_consistent c p room teacher st :
  consistent rk tk st ->
  classroom_available st !! (2, p, cls_id room) = Some true ->
  teacher_available st !! (2, p, tch_id teacher) = Some true ->
  consistent rk tk (place_mirror c p room teacher st).
Proof.
  intros Hc Hr Ht. unfold place_mirror.
  by apply (add_consistent st
              (mkSection c (section_counter st) p 2 (cls_id room) (tch_id teacher))).
Qed.

Lemma warn_consistent course st : consistent rk tk st -> consistent rk tk (warn course st).
Proof. intros []. by constructor. Qed.

Lemma placed_consistent course c rooms teachers ppd st st' :
  consistent rk tk st -> placed course c rooms teachers ppd st st' ->
  consistent rk tk st'.
Proof.
  intros Hc Hpl. destruct Hpl.
  - by apply place_consistent.
  - apply place_mirror_consistent; [|done|done]. by apply place_consistent.
Qed.
End Consistency.

(** ** The placement loop returns *)

Section Placement.
Variable COURSE_CATALOG : list (string * Course).
Variables (ppd : Z) (all_classrooms : list Classroom) (all_teachers : list Teacher).

Local Abbreviation rk := (table_keys (cls_id <$> all_classrooms) ppd).
Local Abbreviation tk := (table_keys (tch_id <$> all_teachers) ppd).

Lemma semesters_to_schedule_range course sem :
  sem ∈ semesters_to_schedule course -> sem = 1 \/ sem = 2.
Proof.
  unfold semesters_to_schedule. destruct (decide (semesters course = 2)).
  - rewrite !elem_of_cons. intros [?|[?|Hn]]; [by left | by right |].
    by apply elem_of_nil in Hn.
  - rewrite !elem_of_cons. intros [?|Hn]; [by left|]. by apply elem_of_nil in Hn.
Qed.

Lemma room_key sem p room (rooms : list Classroom) :
  rooms ⊆ all_classrooms -> room ∈ rooms -> sem = 1 \/ sem = 2 -> p ∈ seqZ 1 ppd ->
  (sem, p, cls_id room) ∈ rk.
Proof.
  intros Hsub Hr Hsem Hp. apply elem_of_table_keys. split_and!; [done|done|].
  apply list_elem_of_fmap. exists room. split; [done|]. by apply Hsub.
Qed.

Lemma teacher_key sem p teacher (teachers : list Teacher) :
  teachers ⊆ all_teachers -> teacher ∈ teachers -> sem = 1 \/ sem = 2 -> p ∈ seqZ 1 ppd ->
  (sem, p, tch_id teacher) ∈ tk.
Proof.
  intros Hsub Hr Hsem Hp. apply elem_of_table_keys. split_and!; [done|done|].
  apply list_elem_of_fmap. exists teacher. split; [done|]. by apply Hsub.
Qed.

Lemma try_period_Ok course c rooms teachers sem acc p :
  rooms ⊆ all_classrooms -> teachers ⊆ all_teachers ->
  sem = 1 \/ sem = 2 -> p ∈ seqZ 1 ppd ->
  consistent rk tk acc.2 ->
  exists acc', try_period course c rooms teachers sem acc p = Ok acc'.
Proof.
  intros Hrs Hts Hsem Hp Hc. unfold try_period. destruct acc as [[] st]; cbn [fst snd] in *.
  { eauto. }
  destruct (find_room_Ok (classroom_available st) sem p rooms) as (o & -> & Ho).
  { intros r Hr. apply (rooms_present _ _ _ Hc). by eapply room_key. }
  cbn [rbind]. destruct o as [room|]; [|eauto]. destruct Ho as [Hroom Hra].
  destruct (find_teacher_Ok (teacher_available st) (teacher_sections st) sem p teachers)
    as (o & -> & Ho).
  { intros t Ht. apply (teachers_present _ _ _ Hc). by eapply teacher_key. }
  cbn [rbind]. destruct o as [teacher|]; [|eauto]. destruct Ho as (Hteacher & Hta & _).
  pose proof (place_consistent rk tk c sem p room teacher st Hc Hra Hta) as Hc'.
  destruct (mirror_Ok course c sem p room teacher (place c sem p room teacher st))
    as [st' ->].
  - apply (rooms_present _ _ _ Hc'). eapply room_key; eauto.
  - apply (teachers_present _ _ _ Hc'). eapply teacher_key; eauto.
  - cbn [rbind]. eauto.
Qed.

Lemma schedule_unit_Ok course c rooms teachers st :
  rooms ⊆ all_classrooms -> teachers ⊆ all_teachers ->
  consistent rk tk st ->
  exists st', schedule_unit ppd course c rooms teachers st = Ok st' /\ consistent rk tk st'.
Proof.
  intros Hrs Hts Hc. unfold schedule_unit.
  destruct (for_each_inv (fun acc : bool * SchedState => consistent rk tk acc.2)
              (fun acc sem =>
                 for_each (try_period course c rooms teachers sem) (seqZ 1 ppd) acc)
              (semesters_to_schedule course)) with (s := (false, st))
    as (r & -> & Hr); [|done|].
  - intros acc sem Hsem Hacc.
    apply (for_each_inv (fun acc : bool * SchedState => consistent rk tk acc.2)); [|done].
    intros a p Hp Ha.
    destruct (try_period_Ok course c rooms teachers sem a p) as [a' Hrun]; auto.
    { by eapply semesters_to_schedule_range. }
    exists a'. split; [done|].
    destruct (try_period_cases _ _ _ _ _ _ _ _ _ Hsem Hp Hrun) as [->|(_ & _ & Hpl)];
      [done|]. by eapply placed_consistent.
  - cbn [rbind]. destruct r as [[] st']; cbn [fst snd] in *.
    + eauto.
    + eexists. split; [done|]. by apply (warn_consistent rk tk course).
Qed.

Lemma schedule_course_Ok sn st c :
  c ∈ dict_keys sn -> consistent rk tk st ->
  exists st', schedule_course COURSE_CATALOG ppd all_classrooms all_teachers sn st c = Ok st'
              /\ consistent rk tk st'.
Proof.
  intros Hc Hst. unfold schedule_course.
  destruct (dict_get COURSE_CATALOG c) as [course|]; [|eauto].
  destruct (dict_get sn c) as [ys|] eqn:Hg.
  2:{ apply dict_get_None in Hg. done. }
  apply (for_each_inv (consistent rk tk)); [|done].
  intros s _ _ Hs. apply schedule_unit_Ok; [| |done].
  - intros r Hr. by apply list_elem_of_filter in Hr as [_ ?].
  - intros t Ht. by apply list_elem_of_filter in Ht as [_ ?].
Qed.

Lemma initial_state_consistent :
  consistent rk tk (initial_state ppd all_classrooms all_teachers).
Proof.
  constructor; cbn.
  - intros k Hk. by apply init_available_present.
  - intros k Hk. by apply init_available_present.
  - intros s Hs. by apply elem_of_nil in Hs.
  - intros s Hs. by apply elem_of_nil in Hs.
  - apply NoDup_nil_2.
  - apply NoDup_nil_2.
Qed.

Lemma place_sections_Ok sn :
  exists st, place_sections COURSE_CATALOG ppd all_classrooms all_teachers sn = Ok st
             /\ consistent rk tk st.
Proof.
  unfold place_sections.
  apply (for_each_inv (consistent rk tk)); [|apply initial_state_consistent].
  intros st c Hc Hst. apply schedule_course_Ok; [|done].
  by rewrite sorted_Permutation in Hc.
Qed.
End Placement.

Section CreateSchedule.
Variable COURSE_CATALOG : list (string * Course).
Variable paths : GraduationPath -> GraduationPathPlan.
Variable set_order : list string -> list string.

Lemma calculate_min_classrooms_Ok cfg :
  max_class_size cfg ≠ 0 -> periods_per_day cfg ≠ 0 ->
  exists rooms, calculate_min_classrooms COURSE_CATALOG paths set_order cfg = Ok rooms.
Proof.
  intros Hm Hp. unfold calculate_min_classrooms.
  rewrite calculate_sections_needed_eq by done. cbn [rbind].
  rewrite min_rooms_of_eq by done. eauto.
Qed.

Lemma calculate_min_teachers_Ok cfg :
  max_class_size cfg ≠ 0 -> periods_per_day cfg - 1 ≠ 0 ->
  exists mt, calculate_min_teachers COURSE_CATALOG paths set_order cfg = Ok mt.
Proof.
  intros Hm Hp. unfold calculate_min_teachers.
  rewrite calculate_sections_needed_eq by done. cbn [rbind].
  rewrite min_teachers_of_eq by done. eauto.
Qed.

(** What a returning [create_schedule] went through. *)
Lemma create_schedule_inv cfg ms out :
  create_schedule COURSE_CATALOG paths set_order cfg = Ok (ms, out) ->
  exists all_classrooms all_teachers sn st,
    create_classrooms COURSE_CATALOG paths set_order cfg = Ok all_classrooms /\
    create_teachers COURSE_CATALOG paths set_order cfg = Ok all_teachers /\
    calculate_sections_needed paths set_order cfg = Ok sn /\
    place_sections COURSE_CATALOG (periods_per_day cfg) all_classrooms all_teachers sn
      = Ok st /\
    ms = mkMasterSchedule (scheduled_sections st) all_classrooms all_teachers /\
    out = stdout st.
Proof.
  unfold create_schedule. intros Hrun.
  apply rbind_Ok in Hrun as (rooms & Hrooms & Hrun).
  apply rbind_Ok in Hrun as (teachers & Hteachers & Hrun).
  apply rbind_Ok in Hrun as (sn & Hsn & Hrun).
  apply rbind_Ok in Hrun as (st & Hst & Hrun).
  injection Hrun as <- <-. by exists rooms, teachers, sn, st.
Qed.

(** With a non-zero class size and [periods_per_day] neither 0 nor 1,
    [create_schedule] returns. *)
Lemma create_schedule_Ok cfg :
  max_class_size cfg ≠ 0 -> periods_per_day cfg ≠ 0 -> periods_per_day cfg - 1 ≠ 0 ->
  exists ms out, create_schedule COURSE_CATALOG paths set_order cfg = Ok (ms, out).
Proof.
  intros Hm Hp Hc. unfold create_schedule, create_classrooms, create_teachers.
  destruct (calculate_min_classrooms_Ok cfg Hm Hp) as [rooms ->].
  destruct (calculate_min_teachers_Ok cfg Hm Hc) as [mt ->]. cbn [rbind].
  rewrite calculate_sections_needed_eq by done. cbn [rbind].
  match goal with
  | |- context [place_sections ?cat ?p ?rs ?ts ?sn] =>
      destruct (place_sections_Ok cat p rs ts sn) as (st & -> & _)
  end.
  cbn [rbind]. eauto.
Qed.

(** A returned schedule has no slot used twice. *)
Lemma create_schedule_conflict_free cfg ms out :
  create_schedule COURSE_CATALOG paths set_order cfg = Ok (ms, out) ->
  conflict_free (sections ms).
Proof.
  intros Hrun.
  apply create_schedule_inv in Hrun as (rooms & teachers & sn & st & _ & _ & _ & Hst & -> & _).
  destruct (place_sections_Ok COURSE_CATALOG (periods_per_day cfg) rooms teachers sn)
    as (st' & Hst' & Hc).
  rewrite Hst in Hst'. injection Hst' as <-.
  split; [apply (rooms_NoDup _ _ _ Hc) | apply (teachers_NoDup _ _ _ Hc)].
Qed.
End CreateSchedule.

(** ** [validate] *)

Section Validate.
Variable COURSE_CATALOG : list (string * Course).

Lemma group_by_fresh (key : ScheduledSection -> string) l :
  forall used, NoDup (dict_keys used ++ (key <$> l)) ->
    foldl (fun used s => dict_set used (key s) (default [] (dict_get used (key s)) ++ [s]))
          used l
    = used ++ ((fun s => (key s, [s])) <$> l).
Proof.
  induction l as [|s l IH]; intros used Hnd; simpl.
  - by rewrite app_nil_r.
  - simpl in Hnd. apply NoDup_app in Hnd as (Hu & Hdisj & Hl).
    apply NoDup_cons in Hl as [Hs Hl].
    assert (key s ∉ dict_keys used) as Hfresh.
    { intros Hin. apply (Hdisj _ Hin). apply elem_of_cons. by left. }
    assert (dict_get used (key s) = None) as -> by by apply dict_get_None.
    cbn [default app]. rewrite dict_set_fresh by done.
    rewrite IH; [by rewrite <- app_assoc|].
    rewrite dict_keys_app. simpl. rewrite <- app_assoc. simpl.
    apply NoDup_app. split_and!; [done| |by apply NoDup_cons].
    intros x Hx Hx'. by apply (Hdisj x).
Qed.

(** Sections with pairwise different keys are grouped one by one. *)
Lemma group_by_NoDup (key : ScheduledSection -> string) l :
  NoDup (key <$> l) -> group_by key l = (fun s => (key s, [s])) <$> l.
Proof. intros Hnd. unfold group_by. by rewrite group_by_fresh. Qed.

Lemma check_groups_quiet k p sem used errors :
  Forall (fun g : string * list ScheduledSection => (length g.2 <= 1)%nat) used ->
  check_groups COURSE_CATALOG k p sem used errors = Ok errors.
Proof.
  unfold check_groups. induction 1 as [|[i g] used Hg Hused IH]; simpl; [done|].
  simpl in Hg. rewrite decide_False by lia. simpl. apply IH.
Qed.

Lemma slots_in_period (f : ScheduledSection -> Z * Z * string)
    (g : ScheduledSection -> string) p sem secs :
  (forall s, f s = (semester s, period s, g s)) ->
  NoDup (f <$> secs) ->
  NoDup (g <$> filter (fun s => period s = p ∧ semester s = sem) secs).
Proof.
  intros Hf. induction secs as [|s secs IH]; intros Hnd; [apply NoDup_nil_2|].
  rewrite fmap_cons in Hnd. apply NoDup_cons in Hnd as [Hs Hnd].
  rewrite filter_cons. destruct (decide (period s = p ∧ semester s = sem)) as [[Hp Hsem]|];
    [|by apply IH].
  rewrite fmap_cons. apply NoDup_cons. split; [|by apply IH].
  intros Hin. apply Hs. apply list_elem_of_fmap in Hin as (s' & Hg & Hs').
  apply list_elem_of_filter in Hs' as [[Hp' Hsem'] Hs'].
  apply list_elem_of_fmap. exists s'. split; [|done].
  rewrite !Hf. congruence.
Qed.

(** A schedule without a slot used twice passes [validate]. *)
Lemma validate_conflict_free ms :
  conflict_free (sections ms) -> validate COURSE_CATALOG ms = Ok [].
Proof.
  intros [Hrooms Hteachers]. unfold validate.
  assert (forall p sem errors,
            (do errors <- check_groups COURSE_CATALOG ClassroomConflict p sem
                            (group_by classroom_id (get_sections_by_period ms p sem)) errors;
             check_groups COURSE_CATALOG TeacherConflict p sem
               (group_by teacher_id (get_sections_by_period ms p sem)) errors)
            = Ok errors) as Hbody.
  { intros p sem errors. unfold get_sections_by_period.
    rewrite (group_by_NoDup classroom_id)
      by (by apply (slots_in_period slot_room classroom_id)).
    rewrite (group_by_NoDup teacher_id)
      by (by apply (slots_in_period slot_teacher teacher_id)).
    rewrite check_groups_quiet; [|apply Forall_fmap, Forall_true; simpl; lia].
    cbn [rbind].
    apply check_groups_quiet. apply Forall_fmap, Forall_true. simpl. lia. }
  assert (forall sem ps errors,
            for_each (fun errors p =>
              let secs := get_sections_by_period ms p sem in
              do errors <- check_groups COURSE_CATALOG ClassroomConflict p sem
                             (group_by classroom_id secs) errors;
              check_groups COURSE_CATALOG TeacherConflict p sem
                (group_by teacher_id secs) errors) ps errors = Ok errors) as Hper.
  { intros sem ps. induction ps as [|p ps IH]; intros errors; [done|].
    cbn [for_each]. cbv zeta. rewrite Hbody. cbn [rbind]. apply IH. }
  cbn [for_each]. rewrite Hper. cbn [rbind]. rewrite Hper. done.
Qed.
End Validate.

(** ** Invariants of the placement loop *)


Section PlacementInvariants.
Variable COURSE_CATALOG : list (string * Course).
Variables (ppd : Z) (all_classrooms : list Classroom) (all_teachers : list Teacher).
Variable sn : list (string * list (Z * Z)).

(** Whatever holds at the start, survives the placement of a unit of a
    catalog course in rooms that can host it with teachers that can teach
    it, and survives a warning, holds at the end. *)
Lemma place_sections_preserves (Q : SchedState -> Prop) :
  (forall c course st st',
     dict_get COURSE_CATALOG c = Some course -> Q st ->
     placed course c (filter (fun r => can_host r course) all_classrooms)
                     (filter (fun t => can_teach t course) all_teachers) ppd st st' ->
     Q st') ->
  (forall c course st, dict_get COURSE_CATALOG c = Some course -> Q st -> Q (warn course st)) ->
  Q (initial_state ppd all_classrooms all_teachers) ->
  forall st, place_sections COURSE_CATALOG ppd all_classrooms all_teachers sn = Ok st -> Q st.
Proof.
  intros Hplaced Hwarn Hinit st. unfold place_sections.
  apply (for_each_preserves Q); [|done].
  intros s c s' _ Hs. unfold schedule_course.
  destruct (dict_get COURSE_CATALOG c) as [course|] eqn:Hc; [|by intros [= <-]].
  destruct (dict_get sn c) as [ys|]; [|done].
  apply (for_each_preserves Q); [|done].
  intros s1 u s2 _ Hs1 Hunit.
  apply schedule_unit_cases in Hunit as [->|Hpl]; [by eapply Hwarn | by eapply Hplaced].
Qed.





End PlacementInvariants.

Lemma sum_Permutation (xs ys : list Z) : xs ≡ₚ ys -> sum xs = sum ys.
Proof.
  induction 1 as [|x xs ys _ IH|x y xs|xs ys zs _ IH1 _ IH2];
    rewrite ?sum_cons; lia.
Qed.


(** ** Claims on the scheduler *)

Lemma placed_sections course c rooms teachers ppd st st' :
  placed course c rooms teachers ppd st st' ->
  exists sem p room teacher,
    sem ∈ semesters_to_schedule course /\ room ∈ rooms /\ teacher ∈ teachers /\
    section_counter st' = section_counter st + 1 /\
    stdout st' = stdout st /\
    let s1 := mkSection c (section_counter st + 1) p sem (cls_id room) (tch_id teacher) in
    let s2 := mkSection c (section_counter st + 1) p 2 (cls_id room) (tch_id teacher) in
    (scheduled_sections st' = scheduled_sections st ++ [s1] \/
     (semesters course = 2 /\ sem = 1 /\
      scheduled_sections st' = scheduled_sections st ++ [s1; s2])).
Proof.
  intros [sem p room teacher Hsem Hp Hr Ht _ _ _|p room teacher Hs Hp Hr Ht _ _ _ _ _].
  - exists sem, p, room, teacher. split_and!; try done. by left.
  - exists 1, p, room, teacher. split_and!; try done.
    + unfold semesters_to_schedule. rewrite decide_True by done.
      apply elem_of_cons. by left.
    + right. split_and!; try done. cbn. by rewrite <- app_assoc.
Qed.

Section SchedulerClaims.
Variable COURSE_CATALOG : list (string * Course).
Variable paths : GraduationPath -> GraduationPathPlan.
Variable set_order : list string -> list string.

Lemma place_sections_single_first ppd rooms teachers sn st :
  place_sections COURSE_CATALOG ppd rooms teachers sn = Ok st ->
  single_first COURSE_CATALOG (scheduled_sections st).
Proof.
  apply (place_sections_preserves COURSE_CATALOG ppd rooms teachers sn
           (fun st => single_first COURSE_CATALOG (scheduled_sections st))).
  - intros c course s s' Hc Hs Hpl.
    apply placed_sections in Hpl as (sem & p & room & teacher & Hsem & _ & _ & _ & _ & Hsecs).
    cbv zeta in Hsecs. intros x course' Hx Hcat Hsingle.
    destruct Hsecs as [Heq|(Hyear & -> & Heq)]; rewrite Heq in Hx.
    + apply elem_of_app in Hx as [Hx|Hx]; [by eapply Hs|].
      apply list_elem_of_singleton in Hx as ->. cbn in *.
      rewrite Hc in Hcat. injection Hcat as <-.
      unfold semesters_to_schedule in Hsem. rewrite decide_False in Hsem by done.
      by apply list_elem_of_singleton in Hsem.
    + apply elem_of_app in Hx as [Hx|Hx]; [by eapply Hs|].
      assert (course_code x = c) as Hcode.
      { rewrite !elem_of_cons in Hx. destruct Hx as [->|[->|Hn]]; [done|done|].
        by apply elem_of_nil in Hn. }
      rewrite Hcode, Hc in Hcat. injection Hcat as <-. done.
  - intros c course s _ Hs. exact Hs.
  - intros x course Hx. by apply elem_of_nil in Hx.
Qed.


End SchedulerClaims.

Section EngineClaims.
Variable catalog : list (string * Course).
Variable paths : GraduationPath -> GraduationPathPlan.
Variable set_order : list string -> list string.

(** C1.  For every enrolment, with a positive class size and at least two
    periods a day, [create_schedule] returns a schedule in which no two
    sections share (classroom id, period, semester) and no two share
    (teacher id, period, semester), and [validate] of that schedule returns
    the empty list. *)
Theorem C1_no_double_booking (cfg : Config)
    (Hsize : 0 < max_class_size cfg)
    (Hperiods : 2 <= periods_per_day cfg) :
  exists ms out,
    create_schedule catalog paths set_order cfg = Ok (ms, out) /\
    NoDup (slot_room <$> sections ms) /\
    NoDup (slot_teacher <$> sections ms) /\
    validate catalog ms = Ok [].
Proof.
  destruct (create_schedule_Ok catalog paths set_order cfg) as (ms & out & Hrun);
    [lia..|].
  pose proof (create_schedule_conflict_free _ _ _ _ _ _ Hrun) as Hfree.
  exists ms, out. split; [done|]. destruct Hfree as [Hr Ht].
  split; [done|]. split; [done|]. by apply validate_conflict_free.
Qed.

(** C10.  For every enrolment, with a positive class size and at least two
    periods a day, every section of the returned schedule whose course lasts
    one semester is in semester 1; and a unit of such a course either adds one
    section, in semester 1, or leaves the sections as they are and prints the
    warning. *)
Theorem C10_single_semester_first (cfg : Config)
    (Hsize : 0 < max_class_size cfg)
    (Hperiods : 2 <= periods_per_day cfg) :
  (exists ms out,
     create_schedule catalog paths set_order cfg = Ok (ms, out) /\
     forall s course,
       s ∈ sections ms -> dict_get catalog (course_code s) = Some course ->
       semesters course = 1 -> semester s = 1) /\
  (forall ppd course c rooms teachers st st',
     semesters course = 1 ->
     schedule_unit ppd course c rooms teachers st = Ok st' ->
     (scheduled_sections st' = scheduled_sections st /\
      stdout st' = stdout st ++ ["WARNING: Could not schedule section of " +:+ name course])
     \/
     (exists p room teacher,
        scheduled_sections st' =
          scheduled_sections st ++
            [mkSection c (section_counter st + 1) p 1 (cls_id room) (tch_id teacher)] /\
        stdout st' = stdout st)).
Proof.
  split.
  - destruct (create_schedule_Ok catalog paths set_order cfg) as (ms & out & Hrun);
      [lia..|].
    exists ms, out. split; [done|].
    apply create_schedule_inv in Hrun
      as (rooms & teachers & sn & st & _ & _ & _ & Hst & -> & _).
    intros s course Hs Hcat Hone.
    apply (place_sections_single_first _ _ _ _ _ _ Hst s course Hs Hcat). lia.
  - intros ppd course c rooms teachers st st' Hone Hrun.
    apply schedule_unit_cases in Hrun as [->|Hpl]; [by left|]. right.
    apply placed_sections in Hpl
      as (sem & p & room & teacher & Hsem & _ & _ & _ & Hout & Hsecs).
    cbv zeta in Hsecs. destruct Hsecs as [Heq|(Hyear & _ & _)]; [|lia].
    unfold semesters_to_schedule in Hsem. rewrite decide_False in Hsem by lia.
    apply list_elem_of_singleton in Hsem as ->. by exists p, room, teacher.
Qed.

End EngineClaims.

Lemma C1_no_double_booking_witness :
  exists ms out,
    create_schedule COURSE_CATALOG get_all_paths first_seen
      (mkConfig [(MINIMUM, 20); (PRE_MED, 20); (ENGINEERING, 20)] 25 6) = Ok (ms, out) /\
    NoDup (slot_room <$> sections ms) /\
    NoDup (slot_teacher <$> sections ms) /\
    validate COURSE_CATALOG ms = Ok [].
Proof.
  apply (C1_no_double_booking COURSE_CATALOG get_all_paths first_seen
           (mkConfig [(MINIMUM, 20); (PRE_MED, 20); (ENGINEERING, 20)] 25 6));
    cbn [max_class_size periods_per_day]; lia.
Defined.

Lemma C10_single_semester_first_witness :
  (exists ms out,
     create_schedule COURSE_CATALOG get_all_paths first_seen
       (mkConfig [(MINIMUM, 20); (PRE_MED, 20); (ENGINEERING, 20)] 25 6) = Ok (ms, out) /\
     forall s course,
       s ∈ sections ms -> dict_get COURSE_CATALOG (course_code s) = Some course ->
       semesters course = 1 -> semester s = 1) /\
  (forall ppd course c rooms teachers st st',
     semesters course = 1 ->
     schedule_unit ppd course c rooms teachers st = Ok st' ->
     (scheduled_sections st' = scheduled_sections st /\
      stdout st' = stdout st ++ ["WARNING: Could not schedule section of " +:+ name course])
     \/
     (exists p room teacher,
        scheduled_sections st' =
          scheduled_sections st ++
            [mkSection c (section_counter st + 1) p 1 (cls_id room) (tch_id teacher)] /\
        stdout st' = stdout st)).
Proof.
  apply (C10_single_semester_first COURSE_CATALOG get_all_paths first_seen
           (mkConfig [(MINIMUM, 20); (PRE_MED, 20); (ENGINEERING, 20)] 25 6));
    cbn [max_class_size periods_per_day]; lia.
Defined.



(** C7 (as amended).  The scheduling order [sorted(keys, key=course_priority)]
    is the stable sort of the codes of [sections_needed] by descending
    priority weight: a rearrangement of the codes, weights never increasing,
    and codes of equal weight in the order in which [sections_needed] has
    them (not by code).  The weight is 100 for an AP course plus 50 for a
    room requirement other than general, and 0 for a code the catalog lacks,
    so every AP course comes before every course that is not AP. *)
Theorem C7_scheduling_order (catalog : list (string * Course)) (codes : list string) :
  let key := course_priority catalog in
  let order := sorted key codes in
  order ≡ₚ codes /\
  StronglySorted (fun a b => - key b <= - key a) order /\
  (forall w, filter (fun c => - key c = w) order = filter (fun c => - key c = w) codes) /\
  (forall c, - key c =
     match dict_get catalog c with
     | None => 0
     | Some course =>
         (if decide (level course = AP) then 100 else 0) +
         (if decide (room_type_required course = GENERAL) then 0 else 50)
     end) /\
  (forall a b ca cb,
     dict_get catalog a = Some ca -> dict_get catalog b = Some cb ->
     level ca = AP -> level cb ≠ AP -> - key b < - key a).
Proof.
  cbv zeta. split_and!.
  - apply sorted_Permutation.
  - eapply StronglySorted_weaken; [|apply sorted_StronglySorted].
    intros a b Hab. cbn beta in Hab. lia.
  - intros w.
    pose proof (sorted_stable (course_priority catalog) (- w) codes) as Hst.
    assert (forall l : list string,
              filter (fun c => - course_priority catalog c = w) l =
                      filter (fun c => course_priority catalog c = - w) l) as Hf.
    { intros l. apply list_filter_iff. intros c. lia. }
    by rewrite !Hf.
  - intros c. unfold course_priority. destruct (dict_get catalog c) as [course|]; [|done].
    cbv zeta. destruct (decide (level course = AP)),
      (decide (room_type_required course ≠ GENERAL)),
      (decide (room_type_required course = GENERAL)); try done; lia.
  - intros a b ca cb Ha Hb Hap Hnap. unfold course_priority. rewrite Ha, Hb. cbv zeta.
    rewrite (decide_True (P := level ca = AP)) by done.
    rewrite (decide_False (P := level cb = AP)) by done.
    destruct (decide (room_type_required ca ≠ GENERAL)),
      (decide (room_type_required cb ≠ GENERAL)); lia.
Qed.

(** C7 as stated fails in its tie-break: English 9 and English 10 have the
    same weight, ENG10 is the smaller code, and ENG9 is scheduled first (it
    is in the plan of year 1, ENG10 in that of year 2). *)
Lemma C7_ties_not_by_code :
  exists sn order i j,
    calculate_sections_needed get_all_paths first_seen
      (mkConfig [(MINIMUM, 20)] 25 6) = Ok sn /\
    order = sorted (course_priority COURSE_CATALOG) (dict_keys sn) /\
    (i < j)%nat /\
    order !! i = Some "ENG9" /\ order !! j = Some "ENG10" /\
    course_priority COURSE_CATALOG "ENG9" = course_priority COURSE_CATALOG "ENG10" /\
    String.ltb "ENG10" "ENG9" = true.
Proof.
  eexists _, _, 4%nat, 8%nat. split; [vm_compute; reflexivity|].
  split; [reflexivity|]. split; [lia|]. split; [vm_compute; reflexivity|].
  split; [vm_compute; reflexivity|]. split; reflexivity.
Qed.

(** C5: the code misses the claim.  [validate] looks at periods 1 to 6
    whatever the number of periods of the day: two sections in one classroom
    in period 7 of semester 1 are a double booking, and [validate] returns
    the empty list. *)
Lemma C5_validate_misses_period_7 :
  let ms := mkMasterSchedule
              [mkSection "ENG9" 1 7 1 "GENERAL_1" "ENG_REG_1";
               mkSection "ALG1" 2 7 1 "GENERAL_1" "MATH_REG_1"] [] [] in
  validate COURSE_CATALOG ms = Ok [] /\
  ¬ NoDup (slot_room <$> sections ms).
Proof.
  cbv zeta. split; [vm_compute; reflexivity|].
  intros Hnd. cbn in Hnd. apply NoDup_cons in Hnd as [Hin _].
  apply Hin. apply elem_of_cons. by left.
Qed.

(** C3: the code misses the claim.  With 75 students on the minimum path,
    class size 25 and 6 periods, teacher PE_REG_1 is given 12 sections (the
    six periods of semester 1 and their six semester-2 twins), more than
    (6 - 1) * 2 = 10: the twins are not counted in the teacher's load. *)
Lemma C3_teacher_over_limit :
  exists ms out,
    create_schedule COURSE_CATALOG get_all_paths first_seen
      (mkConfig [(MINIMUM, 75)] 25 6) = Ok (ms, out) /\
    length (filter (fun s => teacher_id s = "PE_REG_1") (sections ms)) = 12%nat /\
    length (filter (fun s => teacher_id s = "PE_REG_1" ∧ semester s = 1) (sections ms))
      = 6%nat /\
    (6 - 1) * 2 = 10.
Proof.
  eexists _, _. split; [vm_compute; reflexivity|].
  split; [vm_compute; reflexivity|]. split; [vm_compute; reflexivity | reflexivity].
Qed.

(** C9 (as amended).  No configuration is rejected: both constructors store
    whatever they are given.  With a class size other than 0,
    [periods_per_day] neither 0 nor 1 and every division in the range below
    2^53 (where the ceiling of the double-precision quotient is the exact
    one) the three calculations and [create_schedule] return, negative values
    included.  With a class size of 0, [calculate_sections_needed] raises
    [ZeroDivisionError] as soon as the demand accumulator has an entry. *)
Theorem C9_nothing_rejected :
  (forall students mcs ppd,
     ResourceCalculator_init students mcs ppd = Ok (mkConfig students mcs ppd) /\
     Scheduler_init students mcs ppd = Ok (mkConfig students mcs ppd)) /\
  (forall catalog paths set_order cfg,
     max_class_size cfg ≠ 0 -> periods_per_day cfg ≠ 0 -> periods_per_day cfg - 1 ≠ 0 ->
     sections_in_range paths set_order cfg ->
     rooms_in_range catalog paths set_order cfg ->
     teachers_in_range catalog paths set_order cfg ->
     exists sn rooms mt ms out,
       calculate_sections_needed paths set_order cfg = Ok sn /\
       calculate_min_classrooms catalog paths set_order cfg = Ok rooms /\
       calculate_min_teachers catalog paths set_order cfg = Ok mt /\
       create_schedule catalog paths set_order cfg = Ok (ms, out)) /\
  (forall paths set_order cfg,
     max_class_size cfg = 0 -> course_demand paths set_order cfg ≠ [] ->
     calculate_sections_needed paths set_order cfg = Raise ZeroDivisionError).
Proof.
  split_and!.
  - intros students mcs ppd. split; reflexivity.
  - intros catalog paths set_order cfg Hm Hp Hc _ _ _.
    destruct (calculate_min_classrooms_Ok catalog paths set_order cfg Hm Hp) as [rooms Hr].
    destruct (calculate_min_teachers_Ok catalog paths set_order cfg Hm Hc) as [mt Hmt].
    destruct (create_schedule_Ok catalog paths set_order cfg Hm Hp Hc) as (ms & out & Hrun).
    eexists _, rooms, mt, ms, out. split; [by apply calculate_sections_needed_eq|]. done.
  - intros paths set_order cfg Hm Hne. unfold calculate_sections_needed.
    destruct (course_demand_wf2 paths set_order cfg) as [_ Hall].
    destruct (course_demand paths set_order cfg) as [|[c yd] cd]; [done|].
    apply Forall_cons in Hall as [[_ Hyd] _]. cbn [snd] in Hyd.
    destruct yd as [|[y n] yd]; [done|].
    cbn [for_each]. unfold set_sections at 1. unfold ceil_div.
    rewrite decide_True by done. reflexivity.
Qed.

Lemma C9_nothing_rejected_witness :
  exists sn rooms mt ms out,
    calculate_sections_needed get_all_paths first_seen
      (mkConfig [(MINIMUM, -30)] (-25) (-2)) = Ok sn /\
    calculate_min_classrooms COURSE_CATALOG get_all_paths first_seen
      (mkConfig [(MINIMUM, -30)] (-25) (-2)) = Ok rooms /\
    calculate_min_teachers COURSE_CATALOG get_all_paths first_seen
      (mkConfig [(MINIMUM, -30)] (-25) (-2)) = Ok mt /\
    create_schedule COURSE_CATALOG get_all_paths first_seen
      (mkConfig [(MINIMUM, -30)] (-25) (-2)) = Ok (ms, out).
Proof.
  apply (proj1 (proj2 C9_nothing_rejected) COURSE_CATALOG get_all_paths first_seen
           (mkConfig [(MINIMUM, -30)] (-25) (-2))).
  - cbn [max_class_size]. lia.
  - cbn [periods_per_day]. lia.
  - cbn [periods_per_day]. lia.
  - apply (bool_decide_unpack _). vm_compute. exact I.
  - split; [apply (bool_decide_unpack _); vm_compute; exact I|].
    intros sn Hsn. vm_compute in Hsn. injection Hsn as <-.
    apply (bool_decide_unpack _). vm_compute. exact I.
  - split; [apply (bool_decide_unpack _); vm_compute; exact I|].
    intros sn Hsn. vm_compute in Hsn. injection Hsn as <-.
    apply (bool_decide_unpack _). vm_compute. exact I.
Defined.

(** C9 as stated fails: a negative enrolment is accepted by the constructor
    and section counts are computed from it (here -1 for English 9 in year 1,
    the ceiling of -30 / 25); so are a class size below 0 and a single period
    a day. *)
Lemma C9_invalid_configuration_accepted :
  (exists cfg sn,
     Scheduler_init [(MINIMUM, -30)] 25 6 = Ok cfg /\
     calculate_sections_needed get_all_paths first_seen cfg = Ok sn /\
     lookup2 sn "ENG9" 1 = Some (-1)) /\
  (exists cfg sn,
     Scheduler_init [(MINIMUM, 20)] (-25) 6 = Ok cfg /\
     calculate_sections_needed get_all_paths first_seen cfg = Ok sn /\
     lookup2 sn "ENG9" 1 = Some 0) /\
  (exists cfg sn rooms,
     Scheduler_init [(MINIMUM, 20)] 25 1 = Ok cfg /\
     calculate_sections_needed get_all_paths first_seen cfg = Ok sn /\
     calculate_min_classrooms COURSE_CATALOG get_all_paths first_seen cfg = Ok rooms /\
     dict_get rooms GENERAL = Some 17).
Proof.
  split_and!.
  - eexists _, _. split; [reflexivity|]. split; [vm_compute; reflexivity | reflexivity].
  - eexists _, _. split; [reflexivity|]. split; [vm_compute; reflexivity | reflexivity].
  - eexists _, _, _. split; [reflexivity|]. split; [vm_compute; reflexivity|].
    split; [vm_compute; reflexivity | reflexivity].
Qed.

Lemma C7_scheduling_order_witness :
  - course_priority COURSE_CATALOG "ENG9" < - course_priority COURSE_CATALOG "ENG11-AP".
Proof.
  pose proof (C7_scheduling_order COURSE_CATALOG ["ENG9"; "ENG11-AP"]) as H.
  cbv zeta in H. destruct H as (_ & _ & _ & _ & H).
  apply (H "ENG11-AP" "ENG9" (mkCourse "ENG11-AP" "AP English Language" ENGLISH AP 10 2 GENERAL)
           (mkCourse "ENG9" "English 9" ENGLISH REGULAR 10 2 GENERAL));
    [reflexivity | reflexivity | reflexivity | discriminate].
Defined.
(** ** The pools of [create_classrooms] and [create_teachers] *)

Lemma foldl_snoc_fmap {A B} (g : A -> B) (l : list A) (acc : list B) :
  foldl (fun acc x => acc ++ [g x]) acc l = acc ++ (g <$> l).
Proof.
  revert acc. induction l as [|x l IH]; intros acc; simpl.
  - by rewrite app_nil_r.
  - rewrite IH. by rewrite <- app_assoc.
Qed.

Lemma foldl_app_bind {A B} (step : list B -> A -> list B) (h : A -> list B) (l : list A) :
  (forall acc x, step acc x = acc ++ h x) ->
  forall acc, foldl step acc l = acc ++ (l ≫= h).
Proof.
  intros Hstep. induction l as [|x l IH]; intros acc; simpl.
  - by rewrite app_nil_r.
  - rewrite IH, Hstep. by rewrite <- app_assoc.
Qed.

(** A loop that only writes dictionary entries keeps the keys distinct. *)
Lemma for_each_dict_set_NoDup {K V W} `{EqDecision K} (f : V -> result W)
    (l : list (K * V)) (acc r : list (K * W)) :
  for_each (fun acc '(k, v) => do w <- f v; Ok (dict_set acc k w)) l acc = Ok r ->
  NoDup (dict_keys acc) -> NoDup (dict_keys r).
Proof.
  intros Hrun Hacc. revert Hacc Hrun.
  apply (for_each_preserves (fun d : list (K * W) => NoDup (dict_keys d))).
  intros d [k v] d' _ Hd Hstep. apply rbind_Ok in Hstep as (w & _ & Hret).
  injection Hret as <-. by apply dict_set_NoDup.
Qed.

Section Pools.
Variable COURSE_CATALOG : list (string * Course).
Variable paths : GraduationPath -> GraduationPathPlan.
Variable set_order : list string -> list string.

Lemma calculate_min_classrooms_NoDup cfg min_rooms :
  calculate_min_classrooms COURSE_CATALOG paths set_order cfg = Ok min_rooms ->
  NoDup (dict_keys min_rooms).
Proof.
  unfold calculate_min_classrooms. intros Hrun.
  apply rbind_Ok in Hrun as (sn & _ & Hrun). unfold min_rooms_of in Hrun.
  eapply for_each_dict_set_NoDup; [exact Hrun|]. apply NoDup_nil_2.
Qed.

Lemma calculate_min_teachers_NoDup cfg mt :
  calculate_min_teachers COURSE_CATALOG paths set_order cfg = Ok mt ->
  NoDup (dict_keys mt).
Proof.
  unfold calculate_min_teachers. intros Hrun.
  apply rbind_Ok in Hrun as (sn & _ & Hrun). unfold min_teachers_of in Hrun.
  eapply for_each_dict_set_NoDup; [exact Hrun|]. apply NoDup_nil_2.
Qed.

(** The classroom pool, entry by entry of [min_rooms]. *)
Lemma create_classrooms_eq cfg rooms :
  create_classrooms COURSE_CATALOG paths set_order cfg = Ok rooms ->
  exists min_rooms,
    calculate_min_classrooms COURSE_CATALOG paths set_order cfg = Ok min_rooms /\
    rooms = min_rooms ≫= classrooms_of_entry (max_class_size cfg).
Proof.
  unfold create_classrooms. intros Hrun.
  apply rbind_Ok in Hrun as (min_rooms & Hmin & Hret). injection Hret as <-.
  exists min_rooms. split; [done|].
  rewrite (foldl_app_bind _ (classrooms_of_entry (max_class_size cfg))); [done|].
  intros acc [rt count]. apply foldl_snoc_fmap.
Qed.

(** The teacher pool, entry by entry of [min_teachers]. *)
Lemma create_teachers_eq cfg ts :
  create_teachers COURSE_CATALOG paths set_order cfg = Ok ts ->
  exists mt,
    calculate_min_teachers COURSE_CATALOG paths set_order cfg = Ok mt /\
    ts = mt ≫= teachers_of_entry (periods_per_day cfg).
Proof.
  unfold create_teachers. intros Hrun.
  apply rbind_Ok in Hrun as (mt & Hmt & Hret). injection Hret as <-.
  exists mt. split; [done|].
  rewrite (foldl_app_bind _ (teachers_of_entry (periods_per_day cfg))); [done|].
  intros acc e. unfold teachers_of_subject, teachers_of_entry. cbv zeta.
  rewrite !foldl_snoc_fmap. by rewrite <- app_assoc.
Qed.
End Pools.

Lemma classroom_id_inj mcs rt i rt' i' :
  cls_id (classroom_of mcs rt i) = cls_id (classroom_of mcs rt' i') ->
  rt = rt' /\ i = i'.
Proof.
  unfold classroom_of. cbn [cls_id].
  destruct rt, rt'; cbn [RoomType_name String.append]; intros Heq;
    simplify_eq; split; try done; by apply (inj pretty).
Qed.

Lemma ap_teacher_id_inj ppd s i s' i' :
  tch_id (ap_teacher_of ppd s i) = tch_id (ap_teacher_of ppd s' i') ->
  s = s' /\ i = i'.
Proof.
  unfold ap_teacher_of. cbn [tch_id].
  destruct s, s'; cbn [subject_abbrev String.append]; intros Heq;
    simplify_eq; split; try done; by apply (inj pretty).
Qed.

Lemma regular_teacher_id_inj ppd s n i s' n' i' :
  tch_id (regular_teacher_of ppd s n i) = tch_id (regular_teacher_of ppd s' n' i') ->
  s = s' /\ i = i'.
Proof.
  unfold regular_teacher_of. cbn [tch_id].
  destruct s, s'; cbn [subject_abbrev String.append]; intros Heq;
    simplify_eq; split; try done; by apply (inj pretty).
Qed.

Lemma ap_regular_teacher_id ppd s i s' n' i' :
  tch_id (ap_teacher_of ppd s i) ≠ tch_id (regular_teacher_of ppd s' n' i').
Proof.
  unfold ap_teacher_of, regular_teacher_of. cbn [tch_id].
  destruct s, s'; cbn [subject_abbrev String.append]; intros Heq; simplify_eq.
Qed.

Lemma elem_of_classrooms_of_entry mcs e room :
  room ∈ classrooms_of_entry mcs e <->
  exists i, 1 <= i <= e.2 /\ room = classroom_of mcs e.1 i.
Proof.
  unfold classrooms_of_entry. rewrite list_elem_of_fmap. split.
  - intros (i & -> & Hi). apply elem_of_seqZ in Hi. exists i. split; [lia|done].
  - intros (i & Hi & ->). exists i. split; [done|]. apply elem_of_seqZ. lia.
Qed.

Lemma elem_of_teachers_of_entry ppd e t :
  t ∈ teachers_of_entry ppd e <->
  exists i,
    (1 <= i <= ap_qualified e.2 /\ t = ap_teacher_of ppd e.1 i) \/
    (1 <= i <= regular_only e.2 /\
     t = regular_teacher_of ppd e.1 (ap_qualified e.2) i).
Proof.
  unfold teachers_of_entry. rewrite elem_of_app, !list_elem_of_fmap. split.
  - intros [(i & -> & Hi)|(i & -> & Hi)]; apply elem_of_seqZ in Hi; exists i;
      [left | right]; (split; [lia|done]).
  - intros (i & [[Hi ->]|[Hi ->]]); [left | right]; exists i;
      (split; [done|]); apply elem_of_seqZ; lia.
Qed.

Lemma classrooms_of_entry_NoDup mcs e : NoDup (cls_id <$> classrooms_of_entry mcs e).
Proof.
  unfold classrooms_of_entry. rewrite <- list_fmap_compose.
  apply NoDup_fmap_2_strong; [|apply NoDup_seqZ].
  intros i j _ _ Heq. by apply classroom_id_inj in Heq as [_ ?].
Qed.

Lemma teachers_of_entry_NoDup ppd e : NoDup (tch_id <$> teachers_of_entry ppd e).
Proof.
  unfold teachers_of_entry. rewrite fmap_app, <- !list_fmap_compose.
  apply NoDup_app. split_and!.
  - apply NoDup_fmap_2_strong; [|apply NoDup_seqZ].
    intros i j _ _ Heq. by apply ap_teacher_id_inj in Heq as [_ ?].
  - intros x Hx Hx'. apply list_elem_of_fmap in Hx as (i & -> & _).
    apply list_elem_of_fmap in Hx' as (j & Heq & _).
    by apply ap_regular_teacher_id in Heq.
  - apply NoDup_fmap_2_strong; [|apply NoDup_seqZ].
    intros i j _ _ Heq. by apply regular_teacher_id_inj in Heq as [_ ?].
Qed.

Lemma teachers_of_entry_subject ppd e e' t t' :
  t ∈ teachers_of_entry ppd e -> t' ∈ teachers_of_entry ppd e' ->
  tch_id t = tch_id t' -> e.1 = e'.1.
Proof.
  rewrite !elem_of_teachers_of_entry.
  intros (i & [[_ ->]|[_ ->]]) (j & [[_ ->]|[_ ->]]) Heq.
  - by apply ap_teacher_id_inj in Heq as [? _].
  - by apply ap_regular_teacher_id in Heq.
  - symmetry in Heq. by apply ap_regular_teacher_id in Heq.
  - by apply regular_teacher_id_inj in Heq as [? _].
Qed.

(** Entries with distinct keys, each giving distinct ids, and ids that tell
    the key: the ids of all entries are distinct. *)
Lemma bind_ids_NoDup {K V A} `{EqDecision K} (ident : A -> string)
    (h : K * V -> list A) (d : list (K * V)) :
  NoDup (dict_keys d) ->
  (forall e, NoDup (ident <$> h e)) ->
  (forall e e' a a', a ∈ h e -> a' ∈ h e' -> ident a = ident a' -> e.1 = e'.1) ->
  NoDup (ident <$> (d ≫= h)).
Proof.
  intros Hd Hin Hkey.
  assert (ident <$> (d ≫= h) = d ≫= (fun e => ident <$> h e)) as ->.
  { induction d as [|e d IH]; [done|].
    rewrite !bind_cons, fmap_app, IH; [done|].
    unfold dict_keys in Hd. rewrite fmap_cons in Hd. by apply NoDup_cons in Hd as [_ ?]. }
  apply NoDup_bind; [|auto|by apply NoDup_fmap_1 in Hd].
  intros [k v] [k' v'] y He He' Hy Hy'.
  apply list_elem_of_fmap in Hy as (a & -> & Ha).
  apply list_elem_of_fmap in Hy' as (a' & Heq & Ha').
  pose proof (Hkey _ _ _ _ Ha Ha' Heq) as Hk. cbn in Hk. subst k'.
  f_equal. pose proof (dict_get_elem d k v Hd He) as H1.
  pose proof (dict_get_elem d k v' Hd He') as H2. congruence.
Qed.
(** ** Further properties of the placement loop *)

(** What the placement of one unit adds. *)
Lemma placed_shape course c rooms teachers ppd st st' :
  placed course c rooms teachers ppd st st' ->
  exists sem p room teacher,
    sem ∈ semesters_to_schedule course /\ p ∈ seqZ 1 ppd /\
    room ∈ rooms /\ teacher ∈ teachers /\
    default 0 (teacher_sections st !! tch_id teacher) < max_periods_per_day teacher * 2 /\
    section_counter st' = section_counter st + 1 /\
    teacher_sections st' =
      <[tch_id teacher := default 0 (teacher_sections st !! tch_id teacher) + 1]>
        (teacher_sections st) /\
    let s1 := mkSection c (section_counter st + 1) p sem (cls_id room) (tch_id teacher) in
    (scheduled_sections st' = scheduled_sections st ++ [s1] \/
     (sem = 1 /\ semesters course = 2 /\
      scheduled_sections st' = scheduled_sections st ++ [s1; twin_of s1])).
Proof.
  intros [sem p room teacher Hsem Hp Hr Ht _ _ Hload
         |p room teacher Hs Hp Hr Ht _ _ Hload _ _].
  - exists sem, p, room, teacher. split_and!; try done. by left.
  - exists 1, p, room, teacher. split_and!; try done.
    + unfold semesters_to_schedule. rewrite decide_True by done.
      apply elem_of_cons. by left.
    + right. split_and!; try done. cbn. by rewrite <- app_assoc.
Qed.

Section PlacedSections.
Variable catalog : list (string * Course).
Variables (ppd : Z) (rooms : list Classroom) (teachers : list Teacher).
Variable sn : list (string * list (Z * Z)).

Lemma place_sections_suitable st :
  place_sections catalog ppd rooms teachers sn = Ok st ->
  Forall (suitable catalog rooms teachers) (scheduled_sections st).
Proof.
  apply (place_sections_preserves catalog ppd rooms teachers sn
           (fun st => Forall (suitable catalog rooms teachers) (scheduled_sections st))).
  - intros c course s s' Hc Hs Hpl.
    apply placed_shape in Hpl
      as (sem & p & room & teacher & _ & _ & Hr & Ht & _ & _ & _ & Hsecs).
    cbv zeta in Hsecs.
    apply list_elem_of_filter in Hr as [Hhost Hr].
    apply list_elem_of_filter in Ht as [Hteach Ht].
    assert (forall n q sem', suitable catalog rooms teachers
              (mkSection c n q sem' (cls_id room) (tch_id teacher))) as Hnew.
    { intros n q sem'. exists course, room, teacher. cbn.
      split_and!; try done; by apply Is_true_true. }
    destruct Hsecs as [Heq|(_ & _ & Heq)]; rewrite Heq; apply Forall_app; (split; [done|]).
    + apply Forall_singleton. apply Hnew.
    + apply Forall_cons. split; [apply Hnew|]. apply Forall_singleton. apply Hnew.
  - intros c course s _ Hs. exact Hs.
  - constructor.
Qed.

Lemma place_sections_in_grid st :
  place_sections catalog ppd rooms teachers sn = Ok st ->
  Forall (in_grid ppd) (scheduled_sections st).
Proof.
  apply (place_sections_preserves catalog ppd rooms teachers sn
           (fun st => Forall (in_grid ppd) (scheduled_sections st))).
  - intros c course s s' Hc Hs Hpl.
    apply placed_shape in Hpl
      as (sem & p & room & teacher & Hsem & Hp & _ & _ & _ & _ & _ & Hsecs).
    cbv zeta in Hsecs. apply elem_of_seqZ in Hp.
    apply semesters_to_schedule_range in Hsem.
    assert (forall n sem', sem' = 1 \/ sem' = 2 ->
              in_grid ppd (mkSection c n p sem' (cls_id room) (tch_id teacher))) as Hnew.
    { intros n sem' Hsem'. split; cbn; [lia | done]. }
    destruct Hsecs as [Heq|(_ & _ & Heq)]; rewrite Heq; apply Forall_app; (split; [done|]).
    + apply Forall_singleton. by apply Hnew.
    + apply Forall_cons. split; [by apply Hnew|]. apply Forall_singleton.
      apply Hnew. by right.
  - intros c course s _ Hs. exact Hs.
  - constructor.
Qed.

Lemma place_sections_twins st :
  place_sections catalog ppd rooms teachers sn = Ok st ->
  (forall s, s ∈ scheduled_sections st -> section_id s <= section_counter st) /\
  (forall s1 s2,
     s1 ∈ scheduled_sections st -> s2 ∈ scheduled_sections st ->
     section_id s1 = section_id s2 ->
     s1 = s2 \/ (semester s1 = 1 /\ s2 = twin_of s1) \/ (semester s2 = 1 /\ s1 = twin_of s2)).
Proof.
  apply (place_sections_preserves catalog ppd rooms teachers sn
           (fun st =>
             (forall s, s ∈ scheduled_sections st -> section_id s <= section_counter st) /\
             (forall s1 s2,
                s1 ∈ scheduled_sections st -> s2 ∈ scheduled_sections st ->
                section_id s1 = section_id s2 ->
                s1 = s2 \/ (semester s1 = 1 /\ s2 = twin_of s1) \/
                (semester s2 = 1 /\ s1 = twin_of s2)))).
  - intros c course s s' Hc [Hle Hpair] Hpl.
    apply placed_shape in Hpl
      as (sem & p & room & teacher & _ & _ & _ & _ & _ & Hcnt & _ & Hsecs).
    cbv zeta in Hsecs.
    assert (exists new,
              scheduled_sections s' = scheduled_sections s ++ new /\
              (forall x, x ∈ new -> section_id x = section_counter s + 1) /\
              (forall x y, x ∈ new -> y ∈ new ->
                 x = y \/ (semester x = 1 /\ y = twin_of x) \/
                 (semester y = 1 /\ x = twin_of y))) as (new & Heq & Hid & Hnew).
    { destruct Hsecs as [Heq|(-> & _ & Heq)]; eexists; (split; [exact Heq|]); split.
      - intros x Hx. apply list_elem_of_singleton in Hx. by subst x.
      - intros x y Hx Hy. apply list_elem_of_singleton in Hx, Hy. left. congruence.
      - intros x Hx. rewrite !elem_of_cons in Hx.
        destruct Hx as [->|[->|Hn]]; [done | done | by apply elem_of_nil in Hn].
      - intros x y Hx Hy. rewrite !elem_of_cons in Hx, Hy.
        destruct Hx as [->|[->|Hn]]; [| |by apply elem_of_nil in Hn];
          (destruct Hy as [->|[->|Hn]]; [| |by apply elem_of_nil in Hn]).
        + by left.
        + right. left. done.
        + right. right. done.
        + by left. }
    rewrite Heq, Hcnt. split.
    + intros x Hx. apply elem_of_app in Hx as [Hx|Hx].
      * specialize (Hle _ Hx). lia.
      * rewrite (Hid _ Hx). lia.
    + intros x y Hx Hy Hxy.
      apply elem_of_app in Hx as [Hx|Hx]; apply elem_of_app in Hy as [Hy|Hy].
      * by apply Hpair.
      * specialize (Hle _ Hx). rewrite (Hid _ Hy) in Hxy. lia.
      * specialize (Hle _ Hy). rewrite (Hid _ Hx) in Hxy. lia.
      * by apply Hnew.
  - intros c course s _ Hs. exact Hs.
  - split.
    + intros s Hs. by apply elem_of_nil in Hs.
    + intros s1 s2 Hs. by apply elem_of_nil in Hs.
Qed.
End PlacedSections.

(** ** The counted load of a teacher *)

Lemma filter_none {A} (P : A -> Prop) `{forall x, Decision (P x)} (l : list A) :
  (forall x, x ∈ l -> ¬ P x) -> filter P l = [].
Proof.
  intros Hl. destruct (filter P l) as [|y r] eqn:Hf; [done|].
  assert (y ∈ filter P l) as Hy by (rewrite Hf; apply elem_of_cons; by left).
  apply list_elem_of_filter in Hy as [Hy Hin]. by destruct (Hl y Hin).
Qed.

Lemma ids_of_teacher_app t secs new tid n :
  new ≠ [] ->
  (forall x, x ∈ new -> teacher_id x = tid /\ section_id x = n) ->
  ids_of_teacher t (secs ++ new) =
    if decide (t = tid) then ids_of_teacher t secs ∪ {[n]} else ids_of_teacher t secs.
Proof.
  intros Hne Hnew. unfold ids_of_teacher.
  rewrite filter_app, fmap_app, list_to_set_app_L.
  destruct (decide (t = tid)) as [->|Hn].
  - f_equal. apply set_eq. intros x.
    rewrite elem_of_list_to_set, list_elem_of_fmap, elem_of_singleton. split.
    + intros (s & -> & Hs). apply list_elem_of_filter in Hs as [_ Hs].
      by apply Hnew.
    + intros ->. destruct new as [|s new]; [done|].
      assert (s ∈ s :: new) as Hs by (apply elem_of_cons; by left).
      destruct (Hnew s Hs) as [Ht Hid].
      exists s. split; [done|]. apply list_elem_of_filter. done.
  - rewrite (filter_none (fun s => teacher_id s = t) new).
    + rewrite fmap_nil, list_to_set_nil. apply union_empty_r_L.
    + intros x Hx Ht. destruct (Hnew x Hx) as [Hid _]. congruence.
Qed.

Lemma elem_of_ids_of_teacher t secs n :
  n ∈ ids_of_teacher t secs -> exists s, s ∈ secs /\ section_id s = n.
Proof.
  unfold ids_of_teacher. rewrite elem_of_list_to_set, list_elem_of_fmap.
  intros (s & -> & Hs). apply list_elem_of_filter in Hs as [_ Hs]. by exists s.
Qed.

Section CountedLoad.
Variable catalog : list (string * Course).
Variables (ppd : Z) (rooms : list Classroom) (teachers : list Teacher).
Variable sn : list (string * list (Z * Z)).
Variable cap : Z.
Hypothesis teachers_cap : Forall (fun t => max_periods_per_day t = cap) teachers.

(** The load counter of a teacher id is the number of section ids that
    teacher has, and the check before each placement keeps it at or below
    twice the daily maximum. *)
Lemma place_sections_load st :
  place_sections catalog ppd rooms teachers sn = Ok st ->
  (forall s, s ∈ scheduled_sections st -> section_id s <= section_counter st) /\
  (forall t, default 0 (teacher_sections st !! t) =
               Z.of_nat (size (ids_of_teacher t (scheduled_sections st)))) /\
  (forall t, default 0 (teacher_sections st !! t) <= Z.max 0 (cap * 2)).
Proof.
  apply (place_sections_preserves catalog ppd rooms teachers sn
           (fun st =>
              (forall s, s ∈ scheduled_sections st -> section_id s <= section_counter st) /\
              (forall t, default 0 (teacher_sections st !! t) =
                           Z.of_nat (size (ids_of_teacher t (scheduled_sections st)))) /\
              (forall t, default 0 (teacher_sections st !! t) <= Z.max 0 (cap * 2)))).
  - intros c course s s' Hc (Hle & Hsize & Hbound) Hpl.
    apply placed_shape in Hpl
      as (sem & p & room & teacher & _ & _ & _ & Ht & Hload & Hcnt & Hloads & Hsecs).
    cbv zeta in Hsecs.
    apply list_elem_of_filter in Ht as [_ Ht].
    rewrite Forall_forall in teachers_cap. rewrite (teachers_cap _ Ht) in Hload.
    assert (exists new,
              scheduled_sections s' = scheduled_sections s ++ new /\ new ≠ [] /\
              (forall x, x ∈ new ->
                 teacher_id x = tch_id teacher /\ section_id x = section_counter s + 1))
      as (new & Heq & Hne & Hnew).
    { destruct Hsecs as [Heq|(_ & _ & Heq)]; eexists; (split; [exact Heq|]);
        (split; [done|]); intros x Hx; rewrite !elem_of_cons in Hx.
      - destruct Hx as [->|Hn]; [done | by apply elem_of_nil in Hn].
      - destruct Hx as [->|[->|Hn]]; [done | done | by apply elem_of_nil in Hn]. }
    rewrite Heq, Hcnt, Hloads. split_and!.
    + intros x Hx. apply elem_of_app in Hx as [Hx|Hx].
      * specialize (Hle _ Hx). lia.
      * destruct (Hnew _ Hx) as [_ ->]. lia.
    + intros t. rewrite (ids_of_teacher_app t _ new (tch_id teacher) (section_counter s + 1))
        by done.
      destruct (decide (t = tch_id teacher)) as [->|Hn].
      * rewrite lookup_insert_eq. cbn [default]. rewrite size_union.
        -- rewrite size_singleton, Hsize. unfold id. lia.
        -- apply disjoint_singleton_r. intros Hin.
           apply elem_of_ids_of_teacher in Hin as (x & Hx & Hid).
           specialize (Hle _ Hx). lia.
      * rewrite lookup_insert_ne by done. apply Hsize.
    + intros t. destruct (decide (t = tch_id teacher)) as [->|Hn].
      * rewrite lookup_insert_eq. cbn. lia.
      * rewrite lookup_insert_ne by done. apply Hbound.
  - intros c course s _ Hs. exact Hs.
  - split_and!.
    + intros s Hs. by apply elem_of_nil in Hs.
    + intros t. cbn. rewrite lookup_empty. done.
    + intros t. cbn. rewrite lookup_empty. cbn. lia.
Qed.
End CountedLoad.

(** ** At most one section per period *)

Lemma NoDup_fmap_filter {A B C} (f : A -> B) (g : A -> C) (P : A -> Prop)
    `{forall x, Decision (P x)} (l : list A) :
  (forall x y, P x -> P y -> g x = g y -> f x = f y) ->
  NoDup (f <$> l) -> NoDup (g <$> filter P l).
Proof.
  intros Hfg. induction l as [|x l IH]; intros Hnd; [apply NoDup_nil_2|].
  rewrite fmap_cons in Hnd. apply NoDup_cons in Hnd as [Hx Hnd].
  rewrite filter_cons. destruct (decide (P x)) as [HP|HP]; [|by apply IH].
  rewrite fmap_cons. apply NoDup_cons. split; [|by apply IH].
  intros Hin. apply Hx. apply list_elem_of_fmap in Hin as (y & Hg & Hy).
  apply list_elem_of_filter in Hy as [HPy Hy].
  apply list_elem_of_fmap. exists y. split; [|done]. by apply Hfg.
Qed.

Lemma periods_bound (P : ScheduledSection -> Prop) `{forall x, Decision (P x)}
    (f : ScheduledSection -> Z * Z * string) ppd secs :
  (forall x y, P x -> P y -> period x = period y -> f x = f y) ->
  NoDup (f <$> secs) -> Forall (in_grid ppd) secs ->
  (length (filter P secs) <= Z.to_nat ppd)%nat.
Proof.
  intros Hf Hnd Hgrid.
  rewrite <- (length_fmap period), <- (length_seqZ 1 ppd).
  apply submseteq_length, NoDup_submseteq.
  - by apply (NoDup_fmap_filter f).
  - intros p Hp. apply list_elem_of_fmap in Hp as (s & -> & Hs).
    apply list_elem_of_filter in Hs as [_ Hs].
    rewrite Forall_forall in Hgrid. destruct (Hgrid s Hs) as [Hper _].
    apply elem_of_seqZ. lia.
Qed.

(** ** A warning means that no slot fits *)

Lemma find_room_None avail sem p rooms :
  find_room avail sem p rooms = Ok None ->
  forall room, room ∈ rooms -> avail !! (sem, p, cls_id room) = Some false.
Proof.
  induction rooms as [|r rooms IH]; simpl.
  - intros _ room Hr. by apply elem_of_nil in Hr.
  - destruct (avail !! (sem, p, cls_id r)) as [[]|] eqn:Hr; [done| |done].
    intros Hrun room Hin. apply elem_of_cons in Hin as [->|Hin]; auto.
Qed.

Lemma find_teacher_None avail loads sem p ts :
  find_teacher avail loads sem p ts = Ok None ->
  forall t, t ∈ ts ->
    ¬ (avail !! (sem, p, tch_id t) = Some true /\
       default 0 (loads !! tch_id t) < max_periods_per_day t * 2).
Proof.
  induction ts as [|t ts IH]; simpl.
  - intros _ t Ht. by apply elem_of_nil in Ht.
  - destruct (avail !! (sem, p, tch_id t)) as [b|] eqn:Ht; [|done].
    destruct (b && bool_decide (default 0 (loads !! tch_id t) < max_periods_per_day t * 2))
      eqn:Hc; [done|].
    intros Hrun t' Hin. apply elem_of_cons in Hin as [->|Hin]; [|by apply IH].
    intros [Ha Hl]. rewrite Ht in Ha. injection Ha as ->.
    rewrite bool_decide_eq_true_2 in Hc by done. done.
Qed.

Section NoSlot.
Variables (course : Course) (c : string).
Variables (rooms : list Classroom) (teachers : list Teacher).

Lemma try_period_flag sem st p a :
  try_period course c rooms teachers sem (false, st) p = Ok a ->
  (a = (false, st) /\ ¬ fits rooms teachers st sem p) \/ a.1 = true.
Proof.
  unfold try_period. cbn [fst snd]. intros Hrun.
  apply rbind_Ok in Hrun as (o & Hfr & Hrun). destruct o as [room|].
  - apply rbind_Ok in Hrun as (o & Hft & Hrun). destruct o as [teacher|].
    + apply rbind_Ok in Hrun as (st1 & _ & Hrun). injection Hrun as <-. by right.
    + injection Hrun as <-. left. split; [done|].
      intros [_ (teacher & Ht & Ha & Hl)].
      by apply (find_teacher_None _ _ _ _ _ Hft teacher Ht).
  - injection Hrun as <-. left. split; [done|].
    intros [(room & Hr & Ha) _].
    rewrite (find_room_None _ _ _ _ Hfr room Hr) in Ha. done.
Qed.

Lemma periods_loop_set sem st ps :
  for_each (try_period course c rooms teachers sem) ps (true, st) = Ok (true, st).
Proof. induction ps as [|p ps IH]; [done|]. cbn [for_each]. unfold try_period at 1. cbn. apply IH. Qed.

Lemma periods_loop_flag sem st ps a :
  for_each (try_period course c rooms teachers sem) ps (false, st) = Ok a ->
  (a = (false, st) /\ forall p, p ∈ ps -> ¬ fits rooms teachers st sem p) \/ a.1 = true.
Proof.
  induction ps as [|p ps IH].
  - intros [= <-]. left. split; [done|]. intros p Hp. by apply elem_of_nil in Hp.
  - cbn [for_each]. intros Hrun. apply rbind_Ok in Hrun as (a1 & Hp & Hrest).
    apply try_period_flag in Hp as [[-> Hno]|Htrue].
    + apply IH in Hrest as [[-> Hall]|Htrue]; [left | by right].
      split; [done|]. intros q Hq. apply elem_of_cons in Hq as [->|Hq]; auto.
    + right. destruct a1 as [b st1]. cbn in Htrue. subst b.
      rewrite periods_loop_set in Hrest. by injection Hrest as <-.
Qed.

Lemma semesters_loop_set ppd st sems :
  for_each (fun acc sem => for_each (try_period course c rooms teachers sem) (seqZ 1 ppd) acc)
           sems (true, st) = Ok (true, st).
Proof.
  induction sems as [|sem sems IH]; [done|]. cbn [for_each].
  rewrite periods_loop_set. cbn [rbind]. apply IH.
Qed.

Lemma semesters_loop_flag ppd st sems r :
  for_each (fun acc sem => for_each (try_period course c rooms teachers sem) (seqZ 1 ppd) acc)
           sems (false, st) = Ok r ->
  (r = (false, st) /\
   forall sem p, sem ∈ sems -> p ∈ seqZ 1 ppd -> ¬ fits rooms teachers st sem p) \/
  r.1 = true.
Proof.
  induction sems as [|sem sems IH].
  - intros [= <-]. left. split; [done|]. intros sem p Hs. by apply elem_of_nil in Hs.
  - cbn [for_each]. intros Hrun. apply rbind_Ok in Hrun as (a1 & Hp & Hrest).
    apply periods_loop_flag in Hp as [[-> Hno]|Htrue].
    + apply IH in Hrest as [[-> Hall]|Htrue]; [left | by right].
      split; [done|]. intros s q Hs Hq. apply elem_of_cons in Hs as [->|Hs]; auto.
    + right. destruct a1 as [b st1]. cbn in Htrue. subst b.
      rewrite semesters_loop_set in Hrest. by injection Hrest as <-.
Qed.
End NoSlot.

Lemma placed_fits course c rooms teachers ppd st st' :
  placed course c rooms teachers ppd st st' ->
  exists sem p, sem ∈ semesters_to_schedule course /\ p ∈ seqZ 1 ppd /\
    fits rooms teachers st sem p.
Proof.
  intros [sem p room teacher Hsem Hp Hr Ht Hra Hta Hload
         |p room teacher Hs Hp Hr Ht Hra Hta Hload _ _].
  - exists sem, p. split_and!; try done. split; [by exists room | by exists teacher].
  - exists 1, p. split_and!; try done.
    + unfold semesters_to_schedule. rewrite decide_True by done.
      apply elem_of_cons. by left.
    + split; [by exists room | by exists teacher].
Qed.

(** ** The two timetables *)

Lemma timetable_last (P : ScheduledSection -> Prop) `{forall s, Decision (P s)}
    (l : list ScheduledSection) (p : Z) :
  forall acc,
    dict_get (foldl (fun schedule s =>
                       if decide (P s) then dict_set schedule (period s) s else schedule)
                    acc l) p =
      match last (filter (fun s => P s ∧ period s = p) l) with
      | Some s => Some s
      | None => dict_get acc p
      end.
Proof.
  induction l as [|s l IH]; intros acc; [done|].
  cbn [foldl]. rewrite IH, filter_cons.
  destruct (decide (P s)) as [HP|HP].
  - destruct (decide (period s = p)) as [Hp|Hp].
    + rewrite decide_True by done. rewrite last_cons.
      destruct (last _); [done|]. rewrite <- Hp. apply dict_get_set_eq.
    + rewrite decide_False by tauto.
      destruct (last _); [done|]. by apply dict_get_set_ne.
  - rewrite decide_False by tauto. done.
Qed.

Lemma filter_slot {B} `{EqDecision B} (f : ScheduledSection -> B)
    (P : ScheduledSection -> Prop) `{forall s, Decision (P s)}
    (l : list ScheduledSection) (s : ScheduledSection) :
  NoDup (f <$> l) -> s ∈ l -> (forall x, P x <-> f x = f s) -> filter P l = [s].
Proof.
  intros Hnd Hs HP. induction l as [|x l IH]; [by apply elem_of_nil in Hs|].
  rewrite fmap_cons in Hnd. apply NoDup_cons in Hnd as [Hx Hnd].
  rewrite filter_cons. apply elem_of_cons in Hs as [<-|Hs].
  - rewrite decide_True by (by apply HP). f_equal.
    apply filter_none. intros y Hy HPy. apply Hx.
    apply list_elem_of_fmap. exists y. split; [|done]. symmetry. by apply HP.
  - rewrite decide_False; [by apply IH|].
    intros HPx. apply Hx. apply list_elem_of_fmap. exists s. split; [|done]. by apply HP.
Qed.
(** ** Properties of the returned schedule *)

Section ScheduleProperties.
Variable catalog : list (string * Course).
Variable paths : GraduationPath -> GraduationPathPlan.
Variable set_order : list string -> list string.

(** X1.  Every section of a schedule that [create_schedule] returns names a
    course of the catalog, a classroom of the returned pool that can host
    that course ([Classroom.can_host]) and a teacher of the returned pool who
    can teach it ([Teacher.can_teach]). *)
Theorem X1_sections_suitable (cfg : Config) (ms : MasterSchedule) (out : list string)
    (Hrun : create_schedule catalog paths set_order cfg = Ok (ms, out)) :
  Forall (suitable catalog (classrooms ms) (teachers ms)) (sections ms).
Proof.
  apply create_schedule_inv in Hrun
    as (rs & ts & sn & st & _ & _ & _ & Hst & -> & _).
  cbn [sections classrooms teachers]. by eapply place_sections_suitable.
Qed.

(** X2.  Every section of a returned schedule has its period between 1 and
    [periods_per_day] and its semester equal to 1 or 2. *)
Theorem X2_sections_in_grid (cfg : Config) (ms : MasterSchedule) (out : list string)
    (Hrun : create_schedule catalog paths set_order cfg = Ok (ms, out)) :
  Forall (in_grid (periods_per_day cfg)) (sections ms).
Proof.
  apply create_schedule_inv in Hrun
    as (rooms & teachers & sn & st & _ & _ & _ & Hst & -> & _).
  cbn [sections]. by eapply place_sections_in_grid.
Qed.

(** X3.  Two sections of a returned schedule that carry the same section id
    are the same section, or one is in semester 1 and the other is its
    semester-2 twin: same course, period, classroom and teacher.  So a
    section id is used by at most two sections. *)
Theorem X3_shared_section_id (cfg : Config) (ms : MasterSchedule) (out : list string)
    (Hrun : create_schedule catalog paths set_order cfg = Ok (ms, out)) :
  forall s1 s2,
    s1 ∈ sections ms -> s2 ∈ sections ms -> section_id s1 = section_id s2 ->
    s1 = s2 \/ (semester s1 = 1 /\ s2 = twin_of s1) \/ (semester s2 = 1 /\ s1 = twin_of s2).
Proof.
  apply create_schedule_inv in Hrun
    as (rooms & teachers & sn & st & _ & _ & _ & Hst & -> & _).
  cbn [sections]. by eapply place_sections_twins.
Qed.

(** X4.  In a returned schedule the number of distinct section ids one
    teacher has is at most twice [periods_per_day - 1] (and 0 when that is
    negative): this is what the load check before a placement bounds, a
    semester-2 twin sharing the id of its semester-1 section. *)
Theorem X4_counted_load_bound (cfg : Config) (ms : MasterSchedule) (out : list string)
    (Hrun : create_schedule catalog paths set_order cfg = Ok (ms, out)) :
  forall t,
    Z.of_nat (size (ids_of_teacher t (sections ms)))
      <= Z.max 0 ((periods_per_day cfg - 1) * 2).
Proof.
  apply create_schedule_inv in Hrun
    as (rooms & teachers & sn & st & _ & Hts & _ & Hst & -> & _).
  cbn [sections]. intros t.
  apply create_teachers_eq in Hts as (mt & _ & ->).
  destruct (place_sections_load catalog (periods_per_day cfg) rooms
              (mt ≫= teachers_of_entry (periods_per_day cfg)) sn
              (periods_per_day cfg - 1)) with (st := st) as (_ & Hsize & Hbound);
    [|done|].
  - apply Forall_forall. intros x Hx. apply list_elem_of_bind in Hx as (e & Hx & _).
    apply elem_of_teachers_of_entry in Hx as (i & [[_ ->]|[_ ->]]); done.
  - rewrite <- Hsize. apply Hbound.
Qed.

(** X5.  In a returned schedule a teacher has at most [periods_per_day]
    sections in one semester, and so has a classroom: one per period at
    most. *)
Theorem X5_sections_per_semester (cfg : Config) (ms : MasterSchedule) (out : list string)
    (Hrun : create_schedule catalog paths set_order cfg = Ok (ms, out)) :
  forall t r sem,
    (length (sections_of_teacher t sem (sections ms)) <= Z.to_nat (periods_per_day cfg))%nat /\
    (length (sections_of_classroom r sem (sections ms)) <= Z.to_nat (periods_per_day cfg))%nat.
Proof.
  pose proof (create_schedule_conflict_free _ _ _ _ _ _ Hrun) as [Hrooms Hteachers].
  pose proof Hrun as Hinv.
  apply create_schedule_inv in Hinv
    as (rooms & teachers & sn & st & _ & _ & _ & Hst & -> & _).
  apply place_sections_in_grid in Hst. cbn [sections] in *.
  intros t r sem. split.
  - apply (periods_bound _ slot_teacher); [|done|done].
    intros x y [Hx Hsx] [Hy Hsy] Hp. unfold slot_teacher. congruence.
  - apply (periods_bound _ slot_room); [|done|done].
    intros x y [Hx Hsx] [Hy Hsy] Hp. unfold slot_room. congruence.
Qed.

(** X10.  In a returned schedule no section is lost from the timetables: for
    every section, the timetable of its teacher and the timetable of its
    classroom in its semester have that very section at its period. *)
Theorem X10_timetables_complete (cfg : Config) (ms : MasterSchedule) (out : list string)
    (Hrun : create_schedule catalog paths set_order cfg = Ok (ms, out)) :
  forall s, s ∈ sections ms ->
    dict_get (get_teacher_schedule ms (teacher_id s) (semester s)) (period s) = Some s /\
    dict_get (get_classroom_schedule ms (classroom_id s) (semester s)) (period s) = Some s.
Proof.
  pose proof (create_schedule_conflict_free _ _ _ _ _ _ Hrun) as [Hrooms Hteachers].
  intros s Hs. split.
  - unfold get_teacher_schedule.
    rewrite (timetable_last (fun x => teacher_id x = teacher_id s ∧ semester x = semester s)).
    rewrite (filter_slot slot_teacher _ (sections ms) s); [done|done|done|].
    intros x. unfold slot_teacher. split.
    + intros [[-> ->] ->]. done.
    + intros [= -> -> ->]. done.
  - unfold get_classroom_schedule.
    rewrite (timetable_last (fun x => classroom_id x = classroom_id s ∧ semester x = semester s)).
    rewrite (filter_slot slot_room _ (sections ms) s); [done|done|done|].
    intros x. unfold slot_room. split.
    + intros [[-> ->] ->]. done.
    + intros [= -> -> ->]. done.
Qed.

(** X11.  The classroom pool of [create_classrooms]: for every room type
    with count n in the result of [calculate_min_classrooms] it holds exactly
    the classrooms numbered 1 to n of that type, each with capacity
    [max_class_size], and nothing else; the classroom ids of the pool are
    pairwise distinct. *)
Theorem X11_classroom_pool (cfg : Config) (rooms : list Classroom)
    (Hrun : create_classrooms catalog paths set_order cfg = Ok rooms) :
  exists min_rooms,
    calculate_min_classrooms catalog paths set_order cfg = Ok min_rooms /\
    NoDup (cls_id <$> rooms) /\
    forall room,
      room ∈ rooms <->
      exists rt n i,
        dict_get min_rooms rt = Some n /\ 1 <= i <= n /\
        room = classroom_of (max_class_size cfg) rt i.
Proof.
  apply create_classrooms_eq in Hrun as (min_rooms & Hmin & ->).
  pose proof (calculate_min_classrooms_NoDup _ _ _ _ _ Hmin) as Hnd.
  exists min_rooms. split; [done|]. split.
  - apply bind_ids_NoDup; [done|apply classrooms_of_entry_NoDup|].
    intros e e' a a' Ha Ha' Heq.
    apply elem_of_classrooms_of_entry in Ha as (i & _ & ->).
    apply elem_of_classrooms_of_entry in Ha' as (j & _ & ->).
    by apply classroom_id_inj in Heq as [? _].
  - intros room. rewrite list_elem_of_bind. split.
    + intros ([rt n] & Hroom & He).
      apply elem_of_classrooms_of_entry in Hroom as (i & Hi & ->).
      exists rt, n, i. split; [by apply dict_get_elem|done].
    + intros (rt & n & i & Hget & Hi & ->). exists (rt, n).
      split; [|by apply dict_get_Some_elem].
      apply elem_of_classrooms_of_entry. by exists i.
Qed.

(** X12.  The teacher pool of [create_teachers]: for every subject area with
    entry (ap_qualified, regular_only) in the result of
    [calculate_min_teachers] it holds exactly the AP-qualified teachers
    numbered 1 to ap_qualified and the regular teachers numbered 1 to
    regular_only of that one subject, each with [periods_per_day - 1] as daily
    maximum, and nothing else; the teacher ids of the pool are pairwise
    distinct. *)
Theorem X12_teacher_pool (cfg : Config) (ts : list Teacher)
    (Hrun : create_teachers catalog paths set_order cfg = Ok ts) :
  exists mt,
    calculate_min_teachers catalog paths set_order cfg = Ok mt /\
    NoDup (tch_id <$> ts) /\
    forall t,
      t ∈ ts <->
      exists subject need i,
        dict_get mt subject = Some need /\
        ((1 <= i <= ap_qualified need /\
          t = ap_teacher_of (periods_per_day cfg) subject i) \/
         (1 <= i <= regular_only need /\
          t = regular_teacher_of (periods_per_day cfg) subject (ap_qualified need) i)).
Proof.
  apply create_teachers_eq in Hrun as (mt & Hmt & ->).
  pose proof (calculate_min_teachers_NoDup _ _ _ _ _ Hmt) as Hnd.
  exists mt. split; [done|]. split.
  - apply bind_ids_NoDup; [done|apply teachers_of_entry_NoDup|].
    intros e e' a a'. apply teachers_of_entry_subject.
  - intros t. rewrite list_elem_of_bind. split.
    + intros ([subject need] & Ht & He).
      apply elem_of_teachers_of_entry in Ht as (i & Hi).
      exists subject, need, i. split; [by apply dict_get_elem|done].
    + intros (subject & need & i & Hget & Hi). exists (subject, need).
      split; [|by apply dict_get_Some_elem].
      apply elem_of_teachers_of_entry. by exists i.
Qed.
End ScheduleProperties.

(** X6.  One section unit: the warning is printed, and nothing else changes,
    exactly when in no semester of the course and no period of the day there
    is both a free classroom among the compatible ones and a free teacher
    among the compatible ones whose counted load is below twice the daily
    maximum.  Otherwise the unit is placed: one new section id is used and
    nothing is printed. *)
Theorem X6_warning_iff_no_slot (ppd : Z) (course : Course) (c : string)
    (rooms : list Classroom) (teachers : list Teacher) (st st' : SchedState)
    (Hrun : schedule_unit ppd course c rooms teachers st = Ok st') :
  (st' = warn course st <->
   forall sem p, sem ∈ semesters_to_schedule course -> p ∈ seqZ 1 ppd ->
     ¬ fits rooms teachers st sem p) /\
  (st' ≠ warn course st ->
   section_counter st' = section_counter st + 1 /\ stdout st' = stdout st).
Proof.
  pose proof (schedule_unit_cases _ _ _ _ _ _ _ Hrun) as Hcases.
  assert (placed course c rooms teachers ppd st st' -> st' ≠ warn course st) as Hexcl.
  { intros Hpl Heq. apply placed_shape in Hpl
      as (_ & _ & _ & _ & _ & _ & _ & _ & _ & Hcnt & _). rewrite Heq in Hcnt.
    cbn in Hcnt. lia. }
  split; [split|].
  - intros Hwarn. unfold schedule_unit in Hrun.
    apply rbind_Ok in Hrun as (r & Hloop & Hret).
    pose proof (unit_loop_cases _ _ _ _ _ _ _ Hloop) as Hr.
    apply semesters_loop_flag in Hloop as [[-> Hno]|Htrue]; [done|].
    destruct Hr as [->|[_ Hpl]]; [done|].
    rewrite Htrue in Hret. injection Hret as <-. by destruct (Hexcl Hpl).
  - intros Hno. destruct Hcases as [->|Hpl]; [done|].
    apply placed_fits in Hpl as (sem & p & Hsem & Hp & Hfit).
    by destruct (Hno sem p Hsem Hp).
  - intros Hne. destruct Hcases as [->|Hpl]; [done|].
    apply placed_shape in Hpl as (_ & _ & _ & _ & _ & _ & _ & _ & _ & Hcnt & _ & _).
    split; [done|]. destruct (schedule_unit_cases _ _ _ _ _ _ _ Hrun) as [->|Hpl]; [done|].
    by apply placed_sections in Hpl as (_ & _ & _ & _ & _ & _ & _ & _ & Hout & _).
Qed.

(** X9.  The timetable of a teacher, and of a classroom, for a semester has
    at each period the last section of the list that names that teacher (that
    classroom), semester and period, and no entry when there is none: of two
    sections that collide, the earlier one is not shown. *)
Theorem X9_timetable_last_wins (ms : MasterSchedule) (t r : string) (sem p : Z) :
  dict_get (get_teacher_schedule ms t sem) p =
    last (filter (fun s => (teacher_id s = t ∧ semester s = sem) ∧ period s = p)
                 (sections ms)) /\
  dict_get (get_classroom_schedule ms r sem) p =
    last (filter (fun s => (classroom_id s = r ∧ semester s = sem) ∧ period s = p)
                 (sections ms)).
Proof.
  split.
  - unfold get_teacher_schedule.
    rewrite (timetable_last (fun x => teacher_id x = t ∧ semester x = sem)).
    by destruct (last _).
  - unfold get_classroom_schedule.
    rewrite (timetable_last (fun x => classroom_id x = r ∧ semester x = sem)).
    by destruct (last _).
Qed.
(** ** The properties above on concrete runs *)

Lemma X1_sections_suitable_witness :
  exists ms out,
    create_schedule COURSE_CATALOG get_all_paths first_seen
      (mkConfig [(MINIMUM, 20)] 25 6) = Ok (ms, out) /\
    Forall (suitable COURSE_CATALOG (classrooms ms) (teachers ms)) (sections ms).
Proof.
  eexists _, _. split; [vm_compute; reflexivity|].
  eapply (X1_sections_suitable COURSE_CATALOG get_all_paths first_seen
            (mkConfig [(MINIMUM, 20)] 25 6)).
  vm_compute. reflexivity.
Defined.

Lemma X2_sections_in_grid_witness :
  exists ms out,
    create_schedule COURSE_CATALOG get_all_paths first_seen
      (mkConfig [(MINIMUM, 20)] 25 6) = Ok (ms, out) /\
    Forall (in_grid 6) (sections ms).
Proof.
  eexists _, _. split; [vm_compute; reflexivity|].
  eapply (X2_sections_in_grid COURSE_CATALOG get_all_paths first_seen
            (mkConfig [(MINIMUM, 20)] 25 6)).
  vm_compute. reflexivity.
Defined.

Lemma X3_shared_section_id_witness :
  exists ms out,
    create_schedule COURSE_CATALOG get_all_paths first_seen
      (mkConfig [(MINIMUM, 20)] 25 6) = Ok (ms, out) /\
    forall s1 s2,
      s1 ∈ sections ms -> s2 ∈ sections ms -> section_id s1 = section_id s2 ->
      s1 = s2 \/ (semester s1 = 1 /\ s2 = twin_of s1) \/ (semester s2 = 1 /\ s1 = twin_of s2).
Proof.
  eexists _, _. split; [vm_compute; reflexivity|].
  eapply (X3_shared_section_id COURSE_CATALOG get_all_paths first_seen
            (mkConfig [(MINIMUM, 20)] 25 6)).
  vm_compute. reflexivity.
Defined.

Lemma X4_counted_load_bound_witness :
  exists ms out,
    create_schedule COURSE_CATALOG get_all_paths first_seen
      (mkConfig [(MINIMUM, 75)] 25 6) = Ok (ms, out) /\
    forall t, Z.of_nat (size (ids_of_teacher t (sections ms))) <= Z.max 0 ((6 - 1) * 2).
Proof.
  eexists _, _. split; [vm_compute; reflexivity|].
  eapply (X4_counted_load_bound COURSE_CATALOG get_all_paths first_seen
            (mkConfig [(MINIMUM, 75)] 25 6)).
  vm_compute. reflexivity.
Defined.

Lemma X5_sections_per_semester_witness :
  exists ms out,
    create_schedule COURSE_CATALOG get_all_paths first_seen
      (mkConfig [(MINIMUM, 75)] 25 6) = Ok (ms, out) /\
    forall t r sem,
      (length (sections_of_teacher t sem (sections ms)) <= Z.to_nat 6)%nat /\
      (length (sections_of_classroom r sem (sections ms)) <= Z.to_nat 6)%nat.
Proof.
  eexists _, _. split; [vm_compute; reflexivity|].
  eapply (X5_sections_per_semester COURSE_CATALOG get_all_paths first_seen
            (mkConfig [(MINIMUM, 75)] 25 6)).
  vm_compute. reflexivity.
Defined.

Lemma X10_timetables_complete_witness :
  exists ms out,
    create_schedule COURSE_CATALOG get_all_paths first_seen
      (mkConfig [(MINIMUM, 20)] 25 6) = Ok (ms, out) /\
    forall s, s ∈ sections ms ->
      dict_get (get_teacher_schedule ms (teacher_id s) (semester s)) (period s) = Some s /\
      dict_get (get_classroom_schedule ms (classroom_id s) (semester s)) (period s) = Some s.
Proof.
  eexists _, _. split; [vm_compute; reflexivity|].
  eapply (X10_timetables_complete COURSE_CATALOG get_all_paths first_seen
            (mkConfig [(MINIMUM, 20)] 25 6)).
  vm_compute. reflexivity.
Defined.

Lemma X11_classroom_pool_witness :
  exists rooms,
    create_classrooms COURSE_CATALOG get_all_paths first_seen
      (mkConfig [(MINIMUM, 20); (PRE_MED, 20); (ENGINEERING, 20)] 25 6) = Ok rooms /\
    exists min_rooms,
      calculate_min_classrooms COURSE_CATALOG get_all_paths first_seen
        (mkConfig [(MINIMUM, 20); (PRE_MED, 20); (ENGINEERING, 20)] 25 6) = Ok min_rooms /\
      NoDup (cls_id <$> rooms) /\
      forall room,
        room ∈ rooms <->
        exists rt n i,
          dict_get min_rooms rt = Some n /\ 1 <= i <= n /\ room = classroom_of 25 rt i.
Proof.
  eexists. split; [vm_compute; reflexivity|].
  eapply (X11_classroom_pool COURSE_CATALOG get_all_paths first_seen
            (mkConfig [(MINIMUM, 20); (PRE_MED, 20); (ENGINEERING, 20)] 25 6)).
  vm_compute. reflexivity.
Defined.

Lemma X12_teacher_pool_witness :
  exists ts,
    create_teachers COURSE_CATALOG get_all_paths first_seen
      (mkConfig [(MINIMUM, 20); (PRE_MED, 20); (ENGINEERING, 20)] 25 6) = Ok ts /\
    exists mt,
      calculate_min_teachers COURSE_CATALOG get_all_paths first_seen
        (mkConfig [(MINIMUM, 20); (PRE_MED, 20); (ENGINEERING, 20)] 25 6) = Ok mt /\
      NoDup (tch_id <$> ts) /\
      forall t,
        t ∈ ts <->
        exists subject need i,
          dict_get mt subject = Some need /\
          ((1 <= i <= ap_qualified need /\ t = ap_teacher_of 6 subject i) \/
           (1 <= i <= regular_only need /\
            t = regular_teacher_of 6 subject (ap_qualified need) i)).
Proof.
  eexists. split; [vm_compute; reflexivity|].
  eapply (X12_teacher_pool COURSE_CATALOG get_all_paths first_seen
            (mkConfig [(MINIMUM, 20); (PRE_MED, 20); (ENGINEERING, 20)] 25 6)).
  vm_compute. reflexivity.
Defined.

Lemma X6_warning_iff_no_slot_witness :
  exists st',
    schedule_unit 2 (mkCourse "GOVT" "US Government" HISTORY_SOCIAL_SCIENCE REGULAR 5 1 GENERAL)
      "GOVT" [classroom_of 25 GENERAL 1] [regular_teacher_of 2 HISTORY_SOCIAL_SCIENCE 0 1]
      (initial_state 2 [classroom_of 25 GENERAL 1]
                     [regular_teacher_of 2 HISTORY_SOCIAL_SCIENCE 0 1]) = Ok st' /\
    (st' = warn (mkCourse "GOVT" "US Government" HISTORY_SOCIAL_SCIENCE REGULAR 5 1 GENERAL)
             (initial_state 2 [classroom_of 25 GENERAL 1]
                            [regular_teacher_of 2 HISTORY_SOCIAL_SCIENCE 0 1]) <->
     forall sem p,
       sem ∈ semesters_to_schedule
               (mkCourse "GOVT" "US Government" HISTORY_SOCIAL_SCIENCE REGULAR 5 1 GENERAL) ->
       p ∈ seqZ 1 2 ->
       ¬ fits [classroom_of 25 GENERAL 1] [regular_teacher_of 2 HISTORY_SOCIAL_SCIENCE 0 1]
           (initial_state 2 [classroom_of 25 GENERAL 1]
                          [regular_teacher_of 2 HISTORY_SOCIAL_SCIENCE 0 1]) sem p) /\
    (st' ≠ warn (mkCourse "GOVT" "US Government" HISTORY_SOCIAL_SCIENCE REGULAR 5 1 GENERAL)
             (initial_state 2 [classroom_of 25 GENERAL 1]
                            [regular_teacher_of 2 HISTORY_SOCIAL_SCIENCE 0 1]) ->
     section_counter st' = 0 + 1 /\ stdout st' = []).
Proof.
  eexists. split; [vm_compute; reflexivity|].
  eapply (X6_warning_iff_no_slot 2
            (mkCourse "GOVT" "US Government" HISTORY_SOCIAL_SCIENCE REGULAR 5 1 GENERAL)
            "GOVT" [classroom_of 25 GENERAL 1]
            [regular_teacher_of 2 HISTORY_SOCIAL_SCIENCE 0 1]
            (initial_state 2 [classroom_of 25 GENERAL 1]
                           [regular_teacher_of 2 HISTORY_SOCIAL_SCIENCE 0 1])).
  vm_compute. reflexivity.
Defined.
(** ** What [validate] reports *)

Lemma for_each_fix {A S} (f : S -> A -> result S) (xs : list A) (s : S) :
  (forall x, x ∈ xs -> f s x = Ok s) -> for_each f xs s = Ok s.
Proof.
  induction xs as [|x xs IH]; intros Hf; [done|]. cbn [for_each].
  rewrite Hf by (apply elem_of_cons; by left). cbn [rbind].
  apply IH. intros y Hy. apply Hf. apply elem_of_cons. by right.
Qed.

(** A loop that only appends to a log: the log it returns extends the one it
    started from, and if nothing was appended then no step appended. *)
Lemma for_each_log {A E} (f : list E -> A -> result (list E)) (R : A -> Prop)
    (xs : list A) :
  (forall e x e', x ∈ xs -> f e x = Ok e' ->
     exists new, e' = e ++ new /\ (new = [] -> R x)) ->
  forall e e', for_each f xs e = Ok e' ->
    exists new, e' = e ++ new /\ (new = [] -> forall x, x ∈ xs -> R x).
Proof.
  induction xs as [|x xs IH]; intros Hstep e e'.
  - intros [= <-]. exists []. split; [by rewrite app_nil_r|].
    intros _ x Hx. by apply elem_of_nil in Hx.
  - cbn [for_each]. intros Hrun. apply rbind_Ok in Hrun as (e1 & H1 & Hrest).
    destruct (Hstep e x e1) as (new1 & -> & HR); [apply elem_of_cons; by left|done|].
    destruct (IH (fun e0 y e0' Hy => Hstep e0 y e0' (proj2 (elem_of_cons _ _ _) (or_intror Hy)))
                 _ _ Hrest) as (new2 & -> & Hall).
    exists (new1 ++ new2). split; [by rewrite app_assoc|].
    intros Hnil. apply app_eq_nil in Hnil as [-> ->].
    intros y Hy. apply elem_of_cons in Hy as [->|Hy]; auto.
Qed.

(** A loop that returns ran each of its steps to the end. *)
Lemma for_each_steps {A S} (f : S -> A -> result S) (xs : list A) (s s' : S) :
  for_each f xs s = Ok s' -> forall x, x ∈ xs -> exists s1 s2, f s1 x = Ok s2.
Proof.
  revert s. induction xs as [|x xs IH]; intros s Hrun y Hy.
  - by apply elem_of_nil in Hy.
  - cbn [for_each] in Hrun. apply rbind_Ok in Hrun as (s1 & H1 & Hrest).
    apply elem_of_cons in Hy as [->|Hy]; [by exists s, s1 | by eapply IH].
Qed.

(** A loop whose steps raise nothing but [KeyError] raises nothing else. *)
Lemma for_each_raise {A S} (f : S -> A -> result S) (xs : list A) :
  (forall s x e, f s x = Raise e -> e = KeyError) ->
  forall s e, for_each f xs s = Raise e -> e = KeyError.
Proof.
  intros Hf. induction xs as [|x xs IH]; intros s e; [done|].
  cbn [for_each]. destruct (f s x) as [s1|e1] eqn:H1; cbn [rbind].
  - apply IH.
  - intros [= <-]. by eapply Hf.
Qed.

Section Groups.
Variable key : ScheduledSection -> string.

Lemma group_by_fold_get l :
  forall used k,
    dict_get (foldl (fun used s =>
                       dict_set used (key s) (default [] (dict_get used (key s)) ++ [s]))
                    used l) k =
      match dict_get used k, filter (fun s => key s = k) l with
      | None, [] => None
      | o, f => Some (default [] o ++ f)
      end.
Proof.
  induction l as [|s l IH]; intros used k.
  - cbn. destruct (dict_get used k); cbn; [by rewrite app_nil_r | done].
  - cbn [foldl]. rewrite IH, filter_cons.
    destruct (decide (key s = k)) as [<-|Hne].
    + rewrite dict_get_set_eq.
      destruct (dict_get used (key s)) as [g|]; cbn; [by rewrite <- app_assoc | done].
    + by rewrite dict_get_set_ne.
Qed.

(** The group of a key is the sub-list of the sections with that key, and a
    key has a group exactly when some section has it. *)
Lemma dict_get_group_by l k :
  dict_get (group_by key l) k =
    match filter (fun s => key s = k) l with
    | [] => None
    | f => Some f
    end.
Proof. unfold group_by. rewrite group_by_fold_get. cbn. by destruct (filter _ l). Qed.

Lemma group_by_keys_NoDup l : NoDup (dict_keys (group_by key l)).
Proof.
  unfold group_by. apply foldl_dict_NoDup; [|apply NoDup_nil_2].
  intros d s Hd. by apply dict_set_NoDup.
Qed.

Lemma elem_of_group_by l k g :
  (k, g) ∈ group_by key l <-> g = filter (fun s => key s = k) l /\ g ≠ [].
Proof.
  split.
  - intros Hin. apply (dict_get_elem _ _ _ (group_by_keys_NoDup l)) in Hin.
    rewrite dict_get_group_by in Hin.
    destruct (filter _ l) as [|x f]; [done|]. injection Hin as <-. done.
  - intros [-> Hne]. apply dict_get_Some_elem. rewrite dict_get_group_by.
    by destruct (filter _ l).
Qed.

Lemma filter_small_NoDup l :
  (forall k, (length (filter (fun s => key s = k) l) <= 1)%nat) -> NoDup (key <$> l).
Proof.
  induction l as [|s l IH]; intros Hsmall; [apply NoDup_nil_2|].
  rewrite fmap_cons. apply NoDup_cons. split.
  - intros Hin. apply list_elem_of_fmap in Hin as (s' & Heq & Hs').
    specialize (Hsmall (key s)). rewrite filter_cons, decide_True in Hsmall by done.
    assert (s' ∈ filter (fun x => key x = key s) l) as Hf
      by (apply list_elem_of_filter; done).
    destruct (filter (fun x => key x = key s) l); [by apply elem_of_nil in Hf|].
    cbn in Hsmall. lia.
  - apply IH. intros k. specialize (Hsmall k). rewrite filter_cons in Hsmall.
    destruct (decide (key s = k)); cbn in Hsmall; lia.
Qed.

Lemma groups_small_NoDup l :
  Forall (fun g : string * list ScheduledSection => (length g.2 <= 1)%nat) (group_by key l) ->
  NoDup (key <$> l).
Proof.
  intros Hsmall. apply filter_small_NoDup. intros k.
  destruct (filter (fun s => key s = k) l) as [|x f] eqn:Hf; [cbn; lia|].
  rewrite Forall_forall in Hsmall.
  apply (Hsmall (k, x :: f)). apply elem_of_group_by. by rewrite Hf.
Qed.
End Groups.

Section ValidateReports.
Variable catalog : list (string * Course).

Lemma course_names_unknown group s :
  s ∈ group -> dict_get catalog (course_code s) = None ->
  forall names,
    for_each (fun names s =>
                match dict_get catalog (course_code s) with
                | None => Raise KeyError
                | Some course => Ok (names ++ [name course])
                end) group names = Raise KeyError.
Proof.
  intros Hs Hnone. induction group as [|x group IH]; intros names.
  - by apply elem_of_nil in Hs.
  - cbn [for_each]. destruct (dict_get catalog (course_code x)) as [course|] eqn:Hx;
      cbn [rbind]; [|done].
    apply IH. apply elem_of_cons in Hs as [->|Hs]; [congruence | done].
Qed.

Lemma course_names_known group :
  Forall (fun s => is_Some (dict_get catalog (course_code s))) group ->
  exists names, course_names catalog group = Ok names.
Proof.
  intros Hknown. unfold course_names.
  destruct (for_each_inv (fun _ : list string => True)
              (fun names s =>
                 match dict_get catalog (course_code s) with
                 | None => Raise KeyError
                 | Some course => Ok (names ++ [name course])
                 end) group) with (s := @nil string) as (names & -> & _); [|done|eauto].
  intros names s Hs _. rewrite Forall_forall in Hknown.
  destruct (Hknown s Hs) as [course ->]. eauto.
Qed.

Lemma course_names_raise group e : course_names catalog group = Raise e -> e = KeyError.
Proof.
  unfold course_names. apply for_each_raise. intros names s e'.
  destruct (dict_get catalog (course_code s)); [done|]. by intros [= <-].
Qed.

Lemma check_groups_log k p sem used errors errors' :
  check_groups catalog k p sem used errors = Ok errors' ->
  exists new, errors' = errors ++ new /\
    (new = [] -> Forall (fun g : string * list ScheduledSection => (length g.2 <= 1)%nat) used).
Proof.
  unfold check_groups. intros Hrun.
  apply (for_each_log _ (fun g : string * list ScheduledSection => (length g.2 <= 1)%nat))
    in Hrun as (new & -> & Hall).
  - exists new. split; [done|]. intros Hnil. apply Forall_forall. by apply Hall.
  - intros e [i g] e' _. cbn [snd]. destruct (decide (1 < length g)%nat) as [Hlong|Hshort].
    + intros Hstep. apply rbind_Ok in Hstep as (names & _ & Hret). injection Hret as <-.
      eexists. split; [done|]. done.
    + intros [= <-]. exists []. split; [by rewrite app_nil_r|]. intros _. lia.
Qed.

Lemma check_groups_raise k p sem used errors e :
  check_groups catalog k p sem used errors = Raise e -> e = KeyError.
Proof.
  unfold check_groups. apply for_each_raise. intros errs [i g] e'.
  destruct (decide (1 < length g)%nat); [|done].
  destruct (course_names catalog g) as [names|e''] eqn:Hn; cbn [rbind]; [done|].
  intros [= <-]. by eapply course_names_raise.
Qed.

(** Every group of two or more sections that a returning [check_groups] met
    has known course codes only. *)
Lemma check_groups_known k p sem used errors errors' i g s :
  check_groups catalog k p sem used errors = Ok errors' ->
  (i, g) ∈ used -> (1 < length g)%nat -> s ∈ g ->
  is_Some (dict_get catalog (course_code s)).
Proof.
  unfold check_groups. intros Hrun Hin Hlong Hs.
  destruct (for_each_steps _ _ _ _ Hrun (i, g) Hin) as (e1 & e2 & Hstep).
  cbn beta iota in Hstep. rewrite decide_True in Hstep by done.
  apply rbind_Ok in Hstep as (names & Hnames & _).
  destruct (dict_get catalog (course_code s)) as [course|] eqn:Hc; [done|].
  unfold course_names in Hnames. by rewrite (course_names_unknown g s Hs Hc) in Hnames.
Qed.
End ValidateReports.
Section ValidateProperties.
Variable catalog : list (string * Course).

Lemma check_groups_reports (ms : MasterSchedule) (key : ScheduledSection -> string)
    k p sem errors :
  (forall i secs, group_of k i secs = filter (fun s => key s = i) secs) ->
  Forall (fun s => is_Some (dict_get catalog (course_code s))) (sections ms) ->
  sem ∈ [1; 2] -> p ∈ seqZ 1 6 ->
  Forall (real_conflict catalog ms) errors ->
  exists errors',
    check_groups catalog k p sem (group_by key (get_sections_by_period ms p sem)) errors
      = Ok errors' /\
    Forall (real_conflict catalog ms) errors'.
Proof.
  intros Hkey Hknown Hsem Hp Herrors. unfold check_groups.
  apply (for_each_inv (Forall (real_conflict catalog ms))); [|done].
  intros errs [i g] Hin Herrs.
  destruct (decide (1 < length g)%nat) as [Hlong|Hshort]; [|eauto].
  apply elem_of_group_by in Hin as [Hg _].
  destruct (course_names_known catalog g) as [names Hnames].
  { rewrite Hg. apply Forall_forall. intros s Hs.
    apply list_elem_of_filter in Hs as [_ Hs]. unfold get_sections_by_period in Hs.
    apply list_elem_of_filter in Hs as [_ Hs].
    rewrite Forall_forall in Hknown. by apply Hknown. }
  rewrite Hnames. cbn [rbind]. eexists. split; [done|].
  apply Forall_app. split; [done|]. apply Forall_singleton.
  unfold real_conflict. cbn [at_semester at_period kind resource courses].
  rewrite Hkey, <- Hg. done.
Qed.

(** X7.  [validate] returns the empty list exactly when, in each of the two
    semesters and each of the periods 1 to 6, no two sections are in the same
    classroom and no two sections have the same teacher. *)
Theorem X7_validate_empty_iff (ms : MasterSchedule) :
  validate catalog ms = Ok [] <->
  forall sem p, sem ∈ [1; 2] -> p ∈ seqZ 1 6 ->
    NoDup (classroom_id <$> get_sections_by_period ms p sem) /\
    NoDup (teacher_id <$> get_sections_by_period ms p sem).
Proof.
  unfold validate. split.
  - intros Hrun sem p Hsem Hp.
    apply (for_each_log _
             (fun sem => forall p, p ∈ seqZ 1 6 ->
                NoDup (classroom_id <$> get_sections_by_period ms p sem) /\
                NoDup (teacher_id <$> get_sections_by_period ms p sem)))
      in Hrun as (new & Hnew & Hall).
    + destruct new; [|done]. by apply Hall.
    + intros e sem' e' _ Hinner.
      apply (for_each_log _
               (fun p =>
                  NoDup (classroom_id <$> get_sections_by_period ms p sem') /\
                  NoDup (teacher_id <$> get_sections_by_period ms p sem')))
        in Hinner as (new' & -> & Hall'); [by exists new'|].
      intros e0 p0 e0' _ Hbody. cbv zeta in Hbody.
      apply rbind_Ok in Hbody as (e1 & H1 & H2).
      apply check_groups_log in H1 as (n1 & -> & Hs1).
      apply check_groups_log in H2 as (n2 & -> & Hs2).
      exists (n1 ++ n2). split; [by rewrite app_assoc|].
      intros Hnil. apply app_eq_nil in Hnil as [-> ->].
      split; apply groups_small_NoDup; auto.
  - intros Hfree. apply for_each_fix. intros sem Hsem.
    apply for_each_fix. intros p Hp. cbv zeta.
    destruct (Hfree sem p Hsem Hp) as [Hr Ht].
    rewrite (group_by_NoDup classroom_id) by done.
    rewrite (group_by_NoDup teacher_id) by done.
    rewrite check_groups_quiet; [|apply Forall_fmap, Forall_true; simpl; lia].
    cbn [rbind]. apply check_groups_quiet. apply Forall_fmap, Forall_true. simpl. lia.
Qed.

(** X8.  When in a semester and a period that [validate] visits two or more
    sections share a classroom (or a teacher) and one of them has a course
    code that the catalog lacks, [validate] raises KeyError: the names of the
    colliding courses are looked up in the catalog. *)
Theorem X8_validate_key_error (ms : MasterSchedule) (k : ConflictKind) (i : string)
    (sem p : Z) (s : ScheduledSection)
    (Hsem : sem ∈ [1; 2]) (Hp : p ∈ seqZ 1 6)
    (Hgroup : (1 < length (group_of k i (get_sections_by_period ms p sem)))%nat)
    (Hs : s ∈ group_of k i (get_sections_by_period ms p sem))
    (Hunknown : dict_get catalog (course_code s) = None) :
  validate catalog ms = Raise KeyError.
Proof.
  destruct (validate catalog ms) as [errors|e] eqn:Hv.
  - exfalso. unfold validate in Hv.
    destruct (for_each_steps _ _ _ _ Hv sem Hsem) as (e1 & e2 & Hinner).
    destruct (for_each_steps _ _ _ _ Hinner p Hp) as (e3 & e4 & Hbody).
    cbv zeta in Hbody. apply rbind_Ok in Hbody as (e5 & H1 & H2).
    assert (is_Some (dict_get catalog (course_code s))) as [c Hc]; [|congruence].
    assert (forall key : ScheduledSection -> string,
              s ∈ filter (fun x => key x = i) (get_sections_by_period ms p sem) ->
              (i, filter (fun x => key x = i) (get_sections_by_period ms p sem))
                ∈ group_by key (get_sections_by_period ms p sem)) as Hin.
    { intros key Hmem. apply elem_of_group_by. split; [done|].
      intros Hnil. rewrite Hnil in Hmem. by apply elem_of_nil in Hmem. }
    destruct k; cbn [group_of] in *.
    + eapply (check_groups_known catalog _ _ _ _ _ _ i _ s H1); [by apply Hin|done|done].
    + eapply (check_groups_known catalog _ _ _ _ _ _ i _ s H2); [by apply Hin|done|done].
  - f_equal. unfold validate in Hv. revert Hv. apply for_each_raise.
    intros errs sem' e'. apply for_each_raise. intros errs' p' e''. cbv zeta.
    destruct (check_groups catalog ClassroomConflict p' sem' _ errs') as [e1|e1] eqn:H1;
      cbn [rbind].
    + apply check_groups_raise.
    + intros [= <-]. by eapply check_groups_raise.
Qed.

(** X13.  When every section has a course code of the catalog, [validate]
    returns, and every entry of its list is a real collision: it names a
    semester 1 or 2, a period 1 to 6, and a classroom or teacher that two or
    more sections use in that period of that semester, with the names of
    their courses. *)
Theorem X13_validate_reports (ms : MasterSchedule)
    (Hknown : Forall (fun s => is_Some (dict_get catalog (course_code s))) (sections ms)) :
  exists errors,
    validate catalog ms = Ok errors /\ Forall (real_conflict catalog ms) errors.
Proof.
  unfold validate.
  apply (for_each_inv (Forall (real_conflict catalog ms))); [|constructor].
  intros errs sem Hsem Herrs.
  apply (for_each_inv (Forall (real_conflict catalog ms))); [|done].
  intros errs' p Hp Herrs'. cbv zeta.
  destruct (check_groups_reports ms classroom_id ClassroomConflict p sem errs')
    as (e1 & -> & He1); try done.
  cbn [rbind].
  by apply (check_groups_reports ms teacher_id TeacherConflict).
Qed.
End ValidateProperties.

Lemma X8_validate_key_error_witness :
  validate COURSE_CATALOG
    (mkMasterSchedule
       [mkSection "ENG9" 1 2 1 "GENERAL_1" "ENG_REG_1";
        mkSection "REL1" 2 2 1 "GENERAL_1" "REL_REG_1"] [] [])
  = Raise KeyError.
Proof.
  apply (X8_validate_key_error COURSE_CATALOG
           (mkMasterSchedule
              [mkSection "ENG9" 1 2 1 "GENERAL_1" "ENG_REG_1";
               mkSection "REL1" 2 2 1 "GENERAL_1" "REL_REG_1"] [] [])
           ClassroomConflict "GENERAL_1" 1 2
           (mkSection "REL1" 2 2 1 "GENERAL_1" "REL_REG_1")).
  - apply elem_of_cons. by left.
  - apply elem_of_seqZ. lia.
  - vm_compute. lia.
  - vm_compute. apply list_elem_of_further, list_elem_of_here.
  - reflexivity.
Defined.

Lemma X13_validate_reports_witness :
  exists errors,
    validate COURSE_CATALOG
      (mkMasterSchedule
         [mkSection "ENG9" 1 2 1 "GENERAL_1" "ENG_REG_1";
          mkSection "ALG1" 2 2 1 "GENERAL_1" "MATH_REG_1"] [] []) = Ok errors /\
    Forall (real_conflict COURSE_CATALOG
              (mkMasterSchedule
                 [mkSection "ENG9" 1 2 1 "GENERAL_1" "ENG_REG_1";
                  mkSection "ALG1" 2 2 1 "GENERAL_1" "MATH_REG_1"] [] [])) errors.
Proof.
  apply (X13_validate_reports COURSE_CATALOG).
  apply Forall_cons. split; [by eexists|].
  apply Forall_cons. split; [by eexists|]. constructor.
Defined.
(** ** Further properties of the calculator *)

Section RoomTotals.
Variable catalog : list (string * Course).
Implicit Types (sn : list (string * list (Z * Z))) (rt : RoomType).

Lemma room_bucket_not_needed rt e : ¬ needs_room catalog rt e -> room_bucket catalog rt e = 0.
Proof.
  unfold needs_room, room_bucket. intros Hn.
  destruct (dict_get catalog e.1) as [course|]; simpl in Hn; [|done].
  rewrite decide_False; [done|]. intros Hrt. apply Hn. by rewrite Hrt.
Qed.

Lemma room_total_not_needed rt sn :
  ¬ Exists (needs_room catalog rt) sn -> room_total catalog sn rt = 0.
Proof.
  unfold room_total. induction sn as [|e sn IH]; [done|].
  rewrite Exists_cons, fmap_cons, sum_cons. intros Hn.
  rewrite IH by tauto. rewrite room_bucket_not_needed by tauto. done.
Qed.

Lemma room_type_sections_fold rt sn :
  forall rts,
    dict_get
      (foldl (fun rts '(c, year_sections) =>
                match dict_get catalog c with
                | None => rts
                | Some course =>
                    let rt := room_type_required course in
                    let total_sections := sum (dict_values year_sections) in
                    dict_set rts rt (default 0 (dict_get rts rt) + total_sections)
                end) rts sn) rt =
      if decide (Exists (needs_room catalog rt) sn)
      then Some (default 0 (dict_get rts rt) + room_total catalog sn rt)
      else dict_get rts rt.
Proof.
  induction sn as [|[c ys] sn IH]; intros rts.
  - rewrite decide_False; [done|]. by intros H%Exists_nil.
  - cbn [foldl]. rewrite IH. unfold room_total. rewrite fmap_cons, sum_cons.
    fold (room_total catalog sn rt).
    unfold room_bucket at 1. cbn [fst snd].
    destruct (decide (needs_room catalog rt (c, ys))) as [Hn|Hn];
      unfold needs_room in Hn; cbn [fst] in Hn;
      destruct (dict_get catalog c) as [course|] eqn:Hc; simpl in Hn; try done.
    + injection Hn as Hrt. cbv zeta. rewrite Hrt, dict_get_set_eq.
      rewrite (decide_True (P := rt = rt)) by done.
      rewrite (decide_True (P := Exists _ (_ :: _)))
        by (apply Exists_cons_hd; unfold needs_room; cbn [fst]; by rewrite Hc, <- Hrt).
      destruct (decide (Exists (needs_room catalog rt) sn)) as [He|He].
      * cbn. f_equal; lia.
      * rewrite (room_total_not_needed rt sn He). f_equal; lia.
    + cbv zeta. rewrite dict_get_set_ne by congruence.
      rewrite (decide_False (P := room_type_required course = rt)) by congruence.
      destruct (decide (Exists (needs_room catalog rt) sn)) as [He|He].
      * rewrite decide_True by (by apply Exists_cons_tl). f_equal; lia.
      * rewrite decide_False; [done|]. rewrite Exists_cons. unfold needs_room at 1.
        cbn [fst]. rewrite Hc. cbn. intros [[= Heq]|?]; [congruence | done].
    + destruct (decide (Exists (needs_room catalog rt) sn)) as [He|He].
      * rewrite decide_True by (by apply Exists_cons_tl). f_equal; lia.
      * rewrite decide_False; [done|]. rewrite Exists_cons. unfold needs_room at 1.
        cbn [fst]. rewrite Hc. cbn. intros [?|?]; done.
Qed.

(** The section total of a room type is the sum over the catalog courses
    that require it, and a room type has an entry exactly when one of those
    courses is a code of [sections_needed]. *)
Lemma room_type_sections_spec sn rt :
  dict_get (room_type_sections catalog sn) rt =
    if decide (Exists (needs_room catalog rt) sn)
    then Some (room_total catalog sn rt)
    else None.
Proof.
  unfold room_type_sections. rewrite room_type_sections_fold. cbn.
  by destruct (decide _).
Qed.
End RoomTotals.

Lemma sum_dict_set {K V} `{EqDecision K} (f : V -> Z) (d : list (K * V)) k v :
  sum ((fun e : K * V => f e.2) <$> dict_set d k v) =
    sum ((fun e : K * V => f e.2) <$> d) - from_option f 0 (dict_get d k) + f v.
Proof.
  induction d as [|[k' v'] d IH]; cbn [dict_set dict_get].
  - cbn. lia.
  - destruct (decide (k = k')) as [->|Hne].
    + rewrite !fmap_cons, !sum_cons. cbn. lia.
    + rewrite !fmap_cons, !sum_cons, IH. cbn [snd]. lia.
Qed.

Lemma all_years_add rt yrs y rt' n :
  all_years rt (add_room_sections yrs y rt' n) =
    all_years rt yrs + (if decide (rt' = rt) then n else 0).
Proof.
  unfold all_years, add_room_sections. cbv zeta.
  rewrite (sum_dict_set (fun inner : list (RoomType * Z) => default 0 (dict_get inner rt))).
  destruct (dict_get yrs y) as [inner|]; cbn [from_option default]; unfold id.
  - destruct (decide (rt' = rt)) as [->|Hne].
    + rewrite dict_get_set_eq. cbn. lia.
    + rewrite dict_get_set_ne by done. lia.
  - destruct (decide (rt' = rt)) as [->|Hne].
    + rewrite dict_get_set_eq. cbn. lia.
    + rewrite dict_get_set_ne by done. cbn. lia.
Qed.

Section AllYears.
Variable catalog : list (string * Course).

Lemma all_years_course rt course ys :
  forall yrs,
    all_years rt
      (foldl (fun yrs '(y, num_sections) =>
                let rt := room_type_required course in
                add_room_sections yrs y rt num_sections) yrs ys) =
      all_years rt yrs +
      (if decide (room_type_required course = rt) then sum (dict_values ys) else 0).
Proof.
  induction ys as [|[y n] ys IH]; intros yrs.
  - cbn [foldl]. unfold dict_values. rewrite fmap_nil.
    change (sum []) with 0. destruct (decide _); lia.
  - cbn [foldl]. rewrite IH. cbv zeta. rewrite all_years_add.
    unfold dict_values. rewrite fmap_cons, sum_cons. cbn [snd].
    destruct (decide _); lia.
Qed.

Lemma all_years_fold rt sn :
  forall yrs,
    all_years rt
      (foldl (fun yrs '(c, year_sections) =>
                match dict_get catalog c with
                | None => yrs
                | Some course =>
                    foldl (fun yrs '(y, num_sections) =>
                             let rt := room_type_required course in
                             add_room_sections yrs y rt num_sections)
                          yrs year_sections
                end) yrs sn) =
      all_years rt yrs + room_total catalog sn rt.
Proof.
  induction sn as [|[c ys] sn IH]; intros yrs.
  - cbn [foldl]. unfold room_total. rewrite fmap_nil. change (sum []) with 0. lia.
  - cbn [foldl]. rewrite IH.
    change (room_total catalog ((c, ys) :: sn) rt)
      with (room_bucket catalog rt (c, ys) + room_total catalog sn rt).
    unfold room_bucket. cbn [fst snd].
    destruct (dict_get catalog c) as [course|]; [|lia].
    rewrite all_years_course. lia.
Qed.

Lemma all_years_room_total rt sn :
  all_years rt (year_room_sections catalog sn) = room_total catalog sn rt.
Proof.
  unfold year_room_sections. rewrite all_years_fold. unfold all_years.
  rewrite fmap_nil. change (sum []) with 0. lia.
Qed.

Lemma room_type_sections_nonempty sn :
  Exists (fun e : string * list (Z * Z) => is_Some (dict_get catalog e.1)) sn ->
  room_type_sections catalog sn ≠ [].
Proof.
  intros Hex Hnil. apply Exists_exists in Hex as (e & He & [course Hc]).
  pose proof (room_type_sections_spec catalog sn (room_type_required course)) as Hspec.
  rewrite Hnil, decide_True in Hspec; [done|].
  apply Exists_exists. exists e. split; [done|]. unfold needs_room. by rewrite Hc.
Qed.

Lemma subject_sections_nonempty sn :
  Exists (fun e : string * list (Z * Z) => is_Some (dict_get catalog e.1)) sn ->
  subject_sections catalog sn ≠ [].
Proof.
  intros Hex Hnil. apply Exists_exists in Hex as (e & He & [course Hc]).
  pose proof (subject_sections_spec catalog sn (subject_area course)) as Hspec.
  rewrite Hnil, decide_True in Hspec; [done|].
  apply Exists_exists. exists e. split; [done|]. unfold teaches. by rewrite Hc.
Qed.
End AllYears.

Lemma sections_of_demand_known (catalog : list (string * Course)) mcs cd :
  Exists (fun e : string * list (Z * Z) => is_Some (dict_get catalog e.1)) cd ->
  Exists (fun e : string * list (Z * Z) => is_Some (dict_get catalog e.1))
         (sections_of_demand mcs cd).
Proof.
  unfold sections_of_demand. intros Hex. apply Exists_fmap.
  eapply Exists_impl; [exact Hex|]. by intros [c ys].
Qed.

Section CalculatorProperties.
Variable catalog : list (string * Course).
Variable paths : GraduationPath -> GraduationPathPlan.
Variable set_order : list string -> list string.

(** X14.  With a non-zero class size, [periods_per_day <> 0] and every
    division in the range below 2^53, [calculate_min_classrooms] returns; a
    room type has an entry exactly when [sections_needed] has a code whose
    catalog course requires it, and that entry is the ceiling of (the
    sections of all such courses and years) / [periods_per_day].  For a
    positive [periods_per_day] that many rooms offer enough periods for those
    sections, and one room fewer would not. *)
Theorem X14_min_classrooms (cfg : Config)
    (Hsize : max_class_size cfg ≠ 0)
    (Hperiods : periods_per_day cfg ≠ 0)
    (Hrange : sections_in_range paths set_order cfg)
    (Hrooms : rooms_in_range catalog paths set_order cfg) :
  exists sn rooms,
    calculate_sections_needed paths set_order cfg = Ok sn /\
    calculate_min_classrooms catalog paths set_order cfg = Ok rooms /\
    (forall rt,
       dict_get rooms rt =
         if decide (Exists (needs_room catalog rt) sn)
         then Some (ceiling (room_total catalog sn rt) (periods_per_day cfg))
         else None) /\
    (forall rt n,
       0 < periods_per_day cfg -> dict_get rooms rt = Some n ->
       (n - 1) * periods_per_day cfg < room_total catalog sn rt <= n * periods_per_day cfg).
Proof.
  unfold calculate_min_classrooms.
  rewrite calculate_sections_needed_eq by done. cbn [rbind].
  rewrite min_rooms_of_eq by done. eexists _, _. split; [done|]. split; [done|].
  assert (forall rt,
            dict_get ((fun e : RoomType * Z => (e.1, ceiling e.2 (periods_per_day cfg))) <$>
                        room_type_sections catalog
                          (sections_of_demand (max_class_size cfg)
                             (course_demand paths set_order cfg))) rt =
              if decide (Exists (needs_room catalog rt)
                           (sections_of_demand (max_class_size cfg)
                              (course_demand paths set_order cfg)))
              then Some (ceiling (room_total catalog
                                    (sections_of_demand (max_class_size cfg)
                                       (course_demand paths set_order cfg)) rt)
                                 (periods_per_day cfg))
              else None) as Hget.
  { intros rt.
    rewrite (dict_get_fmap_value (fun v => ceiling v (periods_per_day cfg))),
      room_type_sections_spec.
    by destruct (decide _). }
  split; [exact Hget|].
  intros rt n Hpos Hn. rewrite Hget in Hn. destruct (decide _); [|done].
  injection Hn as Hn. by apply ceiling_spec in Hn.
Qed.

(** X16.  The table of [calculate_concurrent_sections] and the totals of
    [calculate_min_classrooms] count the same sections: for every room type,
    the sections the table has for it, all years together, are the sections
    of the catalog courses of [sections_needed] that require it. *)
Theorem X16_concurrent_sections_total (cfg : Config)
    (yrs : list (Z * list (RoomType * Z)))
    (Hrun : calculate_concurrent_sections catalog paths set_order cfg = Ok yrs) :
  exists sn,
    calculate_sections_needed paths set_order cfg = Ok sn /\
    forall rt,
      all_years rt yrs = room_total catalog sn rt /\
      all_years rt yrs = default 0 (dict_get (room_type_sections catalog sn) rt).
Proof.
  unfold calculate_concurrent_sections in Hrun.
  apply rbind_Ok in Hrun as (sn & Hsn & Hret). injection Hret as <-.
  exists sn. split; [done|]. intros rt. rewrite all_years_room_total. split; [done|].
  rewrite room_type_sections_spec.
  destruct (decide _) as [|Hn]; [done|]. cbn. by apply room_total_not_needed.
Qed.

(** X17.  With a class size other than 0, every division in range and some
    demanded course in the catalog: [periods_per_day = 0] makes
    [calculate_min_classrooms] raise ZeroDivisionError, [periods_per_day = 1]
    makes [calculate_min_teachers] raise it (one period a day leaves no
    teaching period), and in both cases [create_schedule] raises it. *)
Theorem X17_too_few_periods (cfg : Config)
    (Hsize : max_class_size cfg ≠ 0)
    (Hrange : sections_in_range paths set_order cfg)
    (Hrooms : rooms_in_range catalog paths set_order cfg)
    (Hdemand : Exists (fun e : string * list (Z * Z) => is_Some (dict_get catalog e.1))
                      (course_demand paths set_order cfg))
    (Hperiods : periods_per_day cfg = 0 \/ periods_per_day cfg = 1) :
  (periods_per_day cfg = 0 ->
   calculate_min_classrooms catalog paths set_order cfg = Raise ZeroDivisionError) /\
  (periods_per_day cfg = 1 ->
   calculate_min_teachers catalog paths set_order cfg = Raise ZeroDivisionError) /\
  create_schedule catalog paths set_order cfg = Raise ZeroDivisionError.
Proof.
  pose proof (room_type_sections_nonempty catalog _
                (sections_of_demand_known catalog (max_class_size cfg) _ Hdemand)) as Hr.
  pose proof (subject_sections_nonempty catalog _
                (sections_of_demand_known catalog (max_class_size cfg) _ Hdemand)) as Hs.
  assert (periods_per_day cfg = 0 ->
          calculate_min_classrooms catalog paths set_order cfg = Raise ZeroDivisionError)
    as Hzero.
  { intros H0. unfold calculate_min_classrooms.
    rewrite calculate_sections_needed_eq by done. cbn [rbind]. rewrite H0.
    destruct (room_type_sections catalog _) as [|[rt n] l]; [done|]. reflexivity. }
  assert (periods_per_day cfg = 1 ->
          calculate_min_teachers catalog paths set_order cfg = Raise ZeroDivisionError)
    as Hone.
  { intros H1. unfold calculate_min_teachers.
    rewrite calculate_sections_needed_eq by done. cbn [rbind]. rewrite H1.
    destruct (subject_sections catalog _) as [|[s lv] l]; [done|]. reflexivity. }
  split; [done|]. split; [done|].
  unfold create_schedule, create_classrooms, create_teachers.
  destruct Hperiods as [H0|H1].
  - by rewrite Hzero.
  - destruct (calculate_min_classrooms_Ok catalog paths set_order cfg) as [rooms ->];
      [done|lia|]. cbn [rbind]. by rewrite Hone.
Qed.

(** X18.  With no enrolled path nothing is divided: for every class size and
    every [periods_per_day], zero included, the three calculations return
    empty results and [create_schedule] returns the empty schedule, with
    empty pools and no output. *)
Theorem X18_no_enrolment (mcs ppd : Z) :
  calculate_sections_needed paths set_order (mkConfig [] mcs ppd) = Ok [] /\
  calculate_min_classrooms catalog paths set_order (mkConfig [] mcs ppd) = Ok [] /\
  calculate_min_teachers catalog paths set_order (mkConfig [] mcs ppd) = Ok [] /\
  create_schedule catalog paths set_order (mkConfig [] mcs ppd)
    = Ok (mkMasterSchedule [] [] [], []).
Proof. split_and!; reflexivity. Qed.
End CalculatorProperties.

(** X15.  For one subject with non-negative section counts and a positive
    number of teaching periods, in the range below 2^53: the total of
    [calculate_min_teachers] is the ceiling of (all its sections) / (teaching
    periods) -- the spare periods of the AP-qualified teachers are filled with
    regular sections before a regular teacher is added -- and the
    AP-qualified teachers alone cover the AP sections. *)
Theorem X15_teacher_total (cap : Z) (levels : Levels)
    (Hcap : 0 < cap) (Hap : 0 <= ap levels) (Hreg : 0 <= regular levels)
    (Hcap_range : double_exact cap) (Hrange : levels_in_range cap levels) :
  exists need,
    teachers_for cap levels = Ok need /\
    total need = ceiling (ap levels + regular levels) cap /\
    ap levels <= ap_qualified need * cap.
Proof.
  rewrite teachers_for_Ok by lia. eexists. split; [done|].
  unfold teacher_need. cbn [total ap_qualified].
  pose proof (proj1 (ceiling_spec (ap levels) cap _ Hcap) eq_refl) as Hq.
  pose proof (proj1 (ceiling_spec
                       (Z.max 0 (regular levels -
                                 (ceiling (ap levels) cap * cap - ap levels)))
                       cap _ Hcap) eq_refl) as Hr.
  split; [|lia]. symmetry. apply ceiling_spec; [done|].
  set (q := ceiling (ap levels) cap) in *.
  set (m := Z.max 0 (regular levels - (q * cap - ap levels))) in *.
  set (r := ceiling m cap) in *.
  assert (r <= 0 \/ cap <= r * cap) as Hsign by nia.
  assert (0 <= r -> 0 <= r * cap) as Hpos by nia.
  replace ((q + r - 1) * cap) with (q * cap + r * cap - cap) by ring.
  replace ((q + r) * cap) with (q * cap + r * cap) by ring.
  replace ((q - 1) * cap) with (q * cap - cap) in Hq by ring.
  replace ((r - 1) * cap) with (r * cap - cap) in Hr by ring.
  subst m. nia.
Qed.
Lemma X14_min_classrooms_witness :
  exists sn rooms,
    calculate_sections_needed get_all_paths first_seen
      (mkConfig [(MINIMUM, 20); (PRE_MED, 20); (ENGINEERING, 20)] 25 6) = Ok sn /\
    calculate_min_classrooms COURSE_CATALOG get_all_paths first_seen
      (mkConfig [(MINIMUM, 20); (PRE_MED, 20); (ENGINEERING, 20)] 25 6) = Ok rooms /\
    (forall rt,
       dict_get rooms rt =
         if decide (Exists (needs_room COURSE_CATALOG rt) sn)
         then Some (ceiling (room_total COURSE_CATALOG sn rt) 6)
         else None) /\
    (forall rt n,
       0 < 6 -> dict_get rooms rt = Some n ->
       (n - 1) * 6 < room_total COURSE_CATALOG sn rt <= n * 6).
Proof.
  apply (X14_min_classrooms COURSE_CATALOG get_all_paths first_seen
           (mkConfig [(MINIMUM, 20); (PRE_MED, 20); (ENGINEERING, 20)] 25 6)).
  - cbn [max_class_size]. lia.
  - cbn [periods_per_day]. lia.
  - apply (bool_decide_unpack _). vm_compute. exact I.
  - split; [apply (bool_decide_unpack _); vm_compute; exact I|].
    intros sn Hsn. vm_compute in Hsn. injection Hsn as <-.
    apply (bool_decide_unpack _). vm_compute. exact I.
Defined.

Lemma X15_teacher_total_witness :
  exists need,
    teachers_for 5 (mkLevels 10 12) = Ok need /\
    total need = ceiling (12 + 10) 5 /\
    12 <= ap_qualified need * 5.
Proof.
  apply (X15_teacher_total 5 (mkLevels 10 12)).
  - lia.
  - cbn [ap]. lia.
  - cbn [regular]. lia.
  - apply (bool_decide_unpack _). vm_compute. exact I.
  - apply (bool_decide_unpack _). vm_compute. exact I.
Defined.

Lemma X16_concurrent_sections_total_witness :
  exists yrs,
    calculate_concurrent_sections COURSE_CATALOG get_all_paths first_seen
      (mkConfig [(MINIMUM, 20); (PRE_MED, 20); (ENGINEERING, 20)] 25 6) = Ok yrs /\
    exists sn,
      calculate_sections_needed get_all_paths first_seen
        (mkConfig [(MINIMUM, 20); (PRE_MED, 20); (ENGINEERING, 20)] 25 6) = Ok sn /\
      forall rt,
        all_years rt yrs = room_total COURSE_CATALOG sn rt /\
        all_years rt yrs = default 0 (dict_get (room_type_sections COURSE_CATALOG sn) rt).
Proof.
  eexists. split; [vm_compute; reflexivity|].
  eapply (X16_concurrent_sections_total COURSE_CATALOG get_all_paths first_seen
            (mkConfig [(MINIMUM, 20); (PRE_MED, 20); (ENGINEERING, 20)] 25 6)).
  vm_compute. reflexivity.
Defined.

Lemma X17_too_few_periods_witness :
  (1 = 0 ->
   calculate_min_classrooms COURSE_CATALOG get_all_paths first_seen
     (mkConfig [(MINIMUM, 20)] 25 1) = Raise ZeroDivisionError) /\
  (1 = 1 ->
   calculate_min_teachers COURSE_CATALOG get_all_paths first_seen
     (mkConfig [(MINIMUM, 20)] 25 1) = Raise ZeroDivisionError) /\
  create_schedule COURSE_CATALOG get_all_paths first_seen
    (mkConfig [(MINIMUM, 20)] 25 1) = Raise ZeroDivisionError.
Proof.
  apply (X17_too_few_periods COURSE_CATALOG get_all_paths first_seen
           (mkConfig [(MINIMUM, 20)] 25 1)).
  - cbn [max_class_size]. lia.
  - apply (bool_decide_unpack _). vm_compute. exact I.
  - split; [apply (bool_decide_unpack _); vm_compute; exact I|].
    intros sn Hsn. vm_compute in Hsn. injection Hsn as <-.
    apply (bool_decide_unpack _). vm_compute. exact I.
  - apply (bool_decide_unpack _). vm_compute. exact I.
  - right. reflexivity.
Defined.
(** ** Credits and required courses *)

Section Credits.
Variable catalog : list (string * Course).
Variable paths : GraduationPath -> GraduationPathPlan.
Variable set_order : list string -> list string.
Hypothesis set_order_NoDup : forall xs, NoDup (set_order xs).
Hypothesis set_order_elem : forall xs x, x ∈ set_order xs <-> x ∈ xs.

Lemma foldl_credits l :
  forall t,
    foldl (fun total c =>
             match dict_get catalog c with
             | Some course => total + credits course
             | None => total
             end) t l = t + sum (credits_of catalog <$> l).
Proof.
  induction l as [|c l IH]; intros t.
  - rewrite fmap_nil. change (sum []) with 0. cbn. lia.
  - cbn [foldl]. rewrite IH, fmap_cons, sum_cons. unfold credits_of at 2.
    destruct (dict_get catalog c); lia.
Qed.

Lemma set_order_year_codes yp : get_all_courses set_order yp ≡ₚ year_codes yp.
Proof.
  unfold get_all_courses, year_codes. apply NoDup_Permutation.
  - apply set_order_NoDup.
  - apply NoDup_remove_dups.
  - intros c. by rewrite set_order_elem, elem_of_remove_dups.
Qed.

Lemma foldl_year_credits yps :
  forall t,
    foldl (fun total year_plan =>
             foldl (fun total c =>
                      match dict_get catalog c with
                      | Some course => total + credits course
                      | None => total
                      end)
                   total (get_all_courses set_order year_plan)) t yps =
      t + sum ((fun yp => sum (credits_of catalog <$> year_codes yp)) <$> yps).
Proof.
  induction yps as [|yp yps IH]; intros t.
  - rewrite fmap_nil. change (sum []) with 0. cbn. lia.
  - cbn [foldl]. rewrite IH, foldl_credits, fmap_cons, sum_cons.
    rewrite (sum_Permutation (credits_of catalog <$> get_all_courses set_order yp)
               (credits_of catalog <$> year_codes yp)); [lia|].
    apply fmap_Permutation, set_order_year_codes.
Qed.

Lemma elem_of_year_fold c yps :
  forall acc : gset string,
    c ∈ foldl (fun all_courses year_plan =>
                 all_courses ∪ list_to_set (get_all_courses set_order year_plan))
              acc yps <->
    c ∈ acc \/
    exists yp, yp ∈ yps /\ c ∈ semester1_courses yp ++ semester2_courses yp.
Proof.
  induction yps as [|yp yps IH]; intros acc.
  - cbn. split; [by left|]. intros [?|(yp & Hyp & _)]; [done|].
    by apply elem_of_nil in Hyp.
  - cbn [foldl]. rewrite IH, elem_of_union, elem_of_list_to_set.
    unfold get_all_courses. rewrite set_order_elem. split.
    + intros [[?|?]|(yp' & Hyp & Hc)]; [by left | right | right].
      * exists yp. split; [apply elem_of_cons; by left | done].
      * exists yp'. split; [apply elem_of_cons; by right | done].
    + intros [?|(yp' & Hyp & Hc)]; [by left; left|].
      apply elem_of_cons in Hyp as [->|Hyp]; [by left; right|].
      right. by exists yp'.
Qed.

Lemma elem_of_path_fold c plans :
  forall acc : gset string,
    c ∈ foldl (fun all_courses path_plan =>
                 foldl (fun all_courses year_plan =>
                          all_courses ∪ list_to_set (get_all_courses set_order year_plan))
                       all_courses (year_plans path_plan))
              acc plans <->
    c ∈ acc \/
    exists plan yp, plan ∈ plans /\ yp ∈ year_plans plan /\
      c ∈ semester1_courses yp ++ semester2_courses yp.
Proof.
  induction plans as [|plan plans IH]; intros acc.
  - cbn. split; [by left|]. intros [?|(plan & yp & Hp & _)]; [done|].
    by apply elem_of_nil in Hp.
  - cbn [foldl]. rewrite IH, elem_of_year_fold. split.
    + intros [[?|(yp & Hyp & Hc)]|(plan' & yp & Hp & Hyp & Hc)]; [by left | right | right].
      * exists plan, yp. split; [apply elem_of_cons; by left | done].
      * exists plan', yp. split; [apply elem_of_cons; by right | done].
    + intros [?|(plan' & yp & Hp & Hyp & Hc)]; [by left; left|].
      apply elem_of_cons in Hp as [->|Hp]; [left; right; by exists yp|].
      right. by exists plan', yp.
Qed.

(** The codes of [sections_needed] are codes of the demand accumulator. *)
Lemma calculate_sections_needed_keys cfg sn :
  calculate_sections_needed paths set_order cfg = Ok sn ->
  forall c, c ∈ dict_keys sn -> c ∈ dict_keys (course_demand paths set_order cfg).
Proof.
  unfold calculate_sections_needed.
  apply (for_each_preserves
           (fun sn : list (string * list (Z * Z)) =>
              forall c, c ∈ dict_keys sn -> c ∈ dict_keys (course_demand paths set_order cfg))).
  - intros sn0 [c yd] sn1 Hin Hsn0.
    assert (c ∈ dict_keys (course_demand paths set_order cfg)) as Hc.
    { apply list_elem_of_fmap. by exists (c, yd). }
    apply (for_each_preserves
             (fun sn : list (string * list (Z * Z)) =>
                forall c, c ∈ dict_keys sn ->
                          c ∈ dict_keys (course_demand paths set_order cfg))); [|done].
    intros sn2 yn sn3 _ Hsn2 Hstep. unfold set_sections in Hstep.
    apply rbind_Ok in Hstep as (n & _ & Hret). injection Hret as <-.
    intros k Hk. rewrite dict_keys_set in Hk.
    destruct (decide (c ∈ dict_keys sn2)); [by apply Hsn2|].
    apply elem_of_app in Hk as [Hk|Hk]; [by apply Hsn2|].
    by apply list_elem_of_singleton in Hk as ->.
  - intros c Hc. by apply elem_of_nil in Hc.
Qed.

Lemma course_demand_listed cfg c :
  c ∈ dict_keys (course_demand paths set_order cfg) ->
  exists path yp,
    yp ∈ year_plans (paths path) /\ c ∈ semester1_courses yp ++ semester2_courses yp.
Proof.
  intros Hc. destruct (course_demand_wf2 paths set_order cfg) as [_ Hall].
  destruct (dict_get (course_demand paths set_order cfg) c) as [inner|] eqn:Hget.
  2:{ by apply dict_get_None in Hget. }
  pose proof (dict_get_Some_elem _ _ _ Hget) as Hin.
  rewrite Forall_forall in Hall. destruct (Hall _ Hin) as [_ Hne]. cbn [snd] in Hne.
  destruct inner as [|[y n] inner]; [done|].
  pose proof (lookup2_course_demand paths set_order set_order_NoDup set_order_elem cfg c y)
    as Hl.
  unfold lookup2 in Hl. rewrite Hget in Hl. cbn [dict_get] in Hl.
  rewrite decide_True in Hl by done.
  destruct (decide (in_plans paths (students_per_path cfg) c y)) as [Hplans|]; [|done].
  unfold in_plans in Hplans. apply Exists_exists in Hplans as (pn & _ & Hyps).
  apply Exists_exists in Hyps as (yp & Hyp & [_ Hlists]).
  by exists pn.1, yp.
Qed.

(** X19.  [_calculate_credits] is the sum, over the year plans, of the
    credits of the distinct codes of the year: a code listed in both
    semesters of a year counts once, a code that the catalog lacks counts
    nothing, and the order in which a set is enumerated does not matter. *)
Theorem X19_calculate_credits (plan : GraduationPathPlan) :
  _calculate_credits catalog set_order plan =
    sum ((fun yp => sum (credits_of catalog <$> year_codes yp)) <$> year_plans plan).
Proof. unfold _calculate_credits. rewrite foldl_year_credits. lia. Qed.

(** X20.  [get_all_required_courses] is the set of the codes that some year
    plan of some path lists in one of its semesters, and every code of
    [calculate_sections_needed] is in it, whatever the enrolment. *)
Theorem X20_required_courses :
  (forall c,
     c ∈ get_all_required_courses paths set_order <->
     exists path yp,
       yp ∈ year_plans (paths path) /\
       c ∈ semester1_courses yp ++ semester2_courses yp) /\
  (forall cfg sn c,
     calculate_sections_needed paths set_order cfg = Ok sn ->
     c ∈ dict_keys sn -> c ∈ get_all_required_courses paths set_order).
Proof.
  assert (forall c,
            c ∈ get_all_required_courses paths set_order <->
            exists path yp,
              yp ∈ year_plans (paths path) /\
              c ∈ semester1_courses yp ++ semester2_courses yp) as Hmem.
  { intros c. unfold get_all_required_courses. rewrite elem_of_path_fold. split.
    - intros [Hc|(plan & yp & Hp & Hyp & Hc)]; [by apply elem_of_empty in Hc|].
      apply list_elem_of_fmap in Hp as (path & -> & _). by exists path, yp.
    - intros (path & yp & Hyp & Hc). right. exists (paths path), yp.
      split; [|done]. apply list_elem_of_fmap. exists path. split; [done|].
      destruct path; rewrite !elem_of_cons; auto. }
  split; [exact Hmem|].
  intros cfg sn c Hsn Hc. apply Hmem.
  apply (course_demand_listed cfg). by eapply calculate_sections_needed_keys.
Qed.
End Credits.

Lemma X19_calculate_credits_witness :
  _calculate_credits COURSE_CATALOG first_seen create_minimum_path =
    sum ((fun yp => sum (credits_of COURSE_CATALOG <$> year_codes yp))
           <$> year_plans create_minimum_path).
Proof.
  apply (X19_calculate_credits COURSE_CATALOG first_seen
           first_seen_NoDup first_seen_elem create_minimum_path).
Defined.

Lemma X20_required_courses_witness :
  (forall c,
     c ∈ get_all_required_courses get_all_paths first_seen <->
     exists path yp,
       yp ∈ year_plans (get_all_paths path) /\
       c ∈ semester1_courses yp ++ semester2_courses yp) /\
  (forall cfg sn c,
     calculate_sections_needed get_all_paths first_seen cfg = Ok sn ->
     c ∈ dict_keys sn -> c ∈ get_all_required_courses get_all_paths first_seen).
Proof.
  apply (X20_required_courses get_all_paths first_seen first_seen_NoDup first_seen_elem).
Defined.
(** ** The unit goes to the first slot that fits *)

Lemma find_room_first st sem p rooms room :
  find_room (classroom_available st) sem p rooms = Ok (Some room) ->
  first_free_room st sem p rooms room.
Proof.
  induction rooms as [|r rooms IH]; simpl; [done|].
  destruct (classroom_available st !! (sem, p, cls_id r)) as [[]|] eqn:Hr; [| |done].
  - intros [= <-]. exists [], rooms. split; [done|]. split; [|done].
    intros r' Hr'. by apply elem_of_nil in Hr'.
  - intros Hrun. destruct (IH Hrun) as (before & after & -> & Hbefore & Hfree).
    exists (r :: before), after. split; [done|]. split; [|done].
    intros r' Hr'. apply elem_of_cons in Hr' as [->|Hr']; auto.
Qed.

Lemma find_teacher_first st sem p ts teacher :
  find_teacher (teacher_available st) (teacher_sections st) sem p ts = Ok (Some teacher) ->
  first_eligible_teacher st sem p ts teacher.
Proof.
  induction ts as [|t ts IH]; simpl; [done|].
  destruct (teacher_available st !! (sem, p, tch_id t)) as [b|] eqn:Ht; [|done].
  destruct (b && bool_decide (default 0 (teacher_sections st !! tch_id t)
                              < max_periods_per_day t * 2)) eqn:Hc.
  - apply andb_true_iff in Hc as [-> Hlt]. apply bool_decide_eq_true_1 in Hlt.
    intros [= <-]. exists [], ts. split; [done|]. split; [|done].
    intros t' Ht'. by apply elem_of_nil in Ht'.
  - intros Hrun. destruct (IH Hrun) as (before & after & -> & Hbefore & Hel).
    exists (t :: before), after. split; [done|]. split; [|done].
    intros t' Ht'. apply elem_of_cons in Ht' as [->|Ht']; [|by apply Hbefore].
    intros [Ha Hl]. rewrite Ht in Ha. injection Ha as ->.
    rewrite bool_decide_eq_true_2 in Hc by done. done.
Qed.

Lemma seqZ_split m n before p after :
  seqZ m n = before ++ p :: after ->
  m <= p /\ forall q, q ∈ before <-> m <= q < p.
Proof.
  revert m n. induction before as [|x before IH]; intros m n Heq.
  - destruct (decide (0 < n)) as [Hn|Hn].
    + rewrite seqZ_cons in Heq by done. injection Heq as <- _.
      split; [lia|]. intros q. split; [by intros H%elem_of_nil | lia].
    + rewrite seqZ_nil in Heq by lia. done.
  - destruct (decide (0 < n)) as [Hn|Hn].
    + rewrite seqZ_cons in Heq by done. cbn in Heq. injection Heq as <- Heq.
      apply IH in Heq as [Hle Hmem]. split; [lia|].
      intros q. rewrite elem_of_cons, Hmem. lia.
    + rewrite seqZ_nil in Heq by lia. done.
Qed.

Section FirstFit.
Variables (course : Course) (c : string).
Variables (rooms : list Classroom) (teachers : list Teacher).

Lemma try_period_hit sem st p a :
  try_period course c rooms teachers sem (false, st) p = Ok a -> a.1 = true ->
  exists room teacher,
    first_free_room st sem p rooms room /\
    first_eligible_teacher st sem p teachers teacher /\
    (a.2 = place c sem p room teacher st \/
     (semesters course = 2 /\ sem = 1 /\
      a.2 = place_mirror c p room teacher (place c 1 p room teacher st))).
Proof.
  unfold try_period. cbn [fst snd]. intros Hrun Htrue.
  apply rbind_Ok in Hrun as (o & Hfr & Hrun). destruct o as [room|].
  2:{ injection Hrun as <-. done. }
  apply rbind_Ok in Hrun as (o & Hft & Hrun). destruct o as [teacher|].
  2:{ injection Hrun as <-. done. }
  apply rbind_Ok in Hrun as (st1 & Hm & Hrun). injection Hrun as <-. cbn [snd].
  exists room, teacher. split; [by apply find_room_first|].
  split; [by apply find_teacher_first|].
  apply mirror_cases in Hm as [->|(Hs & -> & _ & _ & ->)]; [by left | by right].
Qed.

Lemma periods_loop_hit sem st ps a :
  for_each (try_period course c rooms teachers sem) ps (false, st) = Ok a ->
  a.1 = true ->
  exists before p after,
    ps = before ++ p :: after /\
    (forall q, q ∈ before -> ¬ fits rooms teachers st sem q) /\
    try_period course c rooms teachers sem (false, st) p = Ok a.
Proof.
  induction ps as [|p ps IH]; [by intros [= <-]|].
  cbn [for_each]. intros Hrun Htrue. apply rbind_Ok in Hrun as (a1 & Hp & Hrest).
  destruct (try_period_flag _ _ _ _ _ _ _ _ Hp) as [[-> Hno]|Ha1].
  - destruct (IH Hrest Htrue) as (before & q & after & -> & Hbefore & Hq).
    exists (p :: before), q, after. split; [done|]. split; [|done].
    intros q' Hq'. apply elem_of_cons in Hq' as [->|Hq']; auto.
  - destruct a1 as [b st1]. cbn in Ha1. subst b.
    rewrite periods_loop_set in Hrest. injection Hrest as <-.
    exists [], p, ps. split; [done|]. split; [|done].
    intros q Hq. by apply elem_of_nil in Hq.
Qed.

Lemma semesters_loop_hit ppd st sems r :
  for_each (fun acc sem => for_each (try_period course c rooms teachers sem) (seqZ 1 ppd) acc)
           sems (false, st) = Ok r ->
  r.1 = true ->
  exists earlier sem later before p after,
    sems = earlier ++ sem :: later /\
    seqZ 1 ppd = before ++ p :: after /\
    (forall sem' q, sem' ∈ earlier -> q ∈ seqZ 1 ppd -> ¬ fits rooms teachers st sem' q) /\
    (forall q, q ∈ before -> ¬ fits rooms teachers st sem q) /\
    try_period course c rooms teachers sem (false, st) p = Ok r.
Proof.
  induction sems as [|sem sems IH]; [by intros [= <-]|].
  cbn [for_each]. intros Hrun Htrue. apply rbind_Ok in Hrun as (a1 & Hp & Hrest).
  destruct (periods_loop_flag _ _ _ _ _ _ _ _ Hp) as [[-> Hno]|Ha1].
  - destruct (IH Hrest Htrue)
      as (earlier & sem0 & later & before & p & after & -> & Hps & Hearlier & Hbefore & Hhit).
    exists (sem :: earlier), sem0, later, before, p, after.
    split_and!; try done.
    intros sem' q Hsem' Hq. apply elem_of_cons in Hsem' as [->|Hsem']; auto.
  - destruct a1 as [b st1]. cbn in Ha1. subst b.
    rewrite semesters_loop_set in Hrest. injection Hrest as <-.
    destruct (periods_loop_hit _ _ _ _ Hp) as (before & p & after & Hps & Hbefore & Hhit);
      [done|].
    exists [], sem, sems, before, p, after. split_and!; try done.
    intros sem' q Hsem'. by apply elem_of_nil in Hsem'.
Qed.
End FirstFit.

Lemma semesters_split course earlier sem later :
  semesters_to_schedule course = earlier ++ sem :: later ->
  forall sem', sem' ∈ earlier <-> sem' ∈ semesters_to_schedule course /\ sem' < sem.
Proof.
  unfold semesters_to_schedule. destruct (decide (semesters course = 2)); intros Heq sem'.
  - destruct earlier as [|x [|y earlier]]; cbn in Heq.
    + injection Heq as <- _. rewrite !elem_of_cons.
      split; [by intros H%elem_of_nil|]. intros [[->|[->|H%elem_of_nil]] Hlt]; lia.
    + injection Heq as <- <- _. rewrite !elem_of_cons.
      split; [intros [->|H%elem_of_nil]; [split; [by left | lia] | done]|].
      intros [[->|[->|H%elem_of_nil]] Hlt]; [by left | lia | done].
    + injection Heq as _ _ Heq. by destruct earlier.
  - destruct earlier as [|x earlier]; cbn in Heq.
    + injection Heq as <- _. rewrite !elem_of_cons.
      split; [by intros H%elem_of_nil|]. intros [[->|H%elem_of_nil] Hlt]; [lia | done].
    + injection Heq as _ Heq. by destruct earlier.
Qed.

(** X21.  When a section unit is placed, it goes to the first slot that
    fits: no earlier semester of the course and no earlier period of the same
    semester has both a free compatible classroom and an eligible compatible
    teacher; and the section gets the first free classroom and the first
    eligible teacher of the pools, in pool order.  It is followed by its
    semester-2 twin at most. *)
Theorem X21_first_fit (ppd : Z) (course : Course) (c : string)
    (rooms : list Classroom) (teachers : list Teacher) (st st' : SchedState)
    (Hrun : schedule_unit ppd course c rooms teachers st = Ok st')
    (Hplaced : st' ≠ warn course st) :
  exists sem p room teacher,
    sem ∈ semesters_to_schedule course /\ p ∈ seqZ 1 ppd /\
    (forall sem' p',
       sem' ∈ semesters_to_schedule course -> p' ∈ seqZ 1 ppd ->
       sem' < sem \/ (sem' = sem /\ p' < p) ->
       ¬ fits rooms teachers st sem' p') /\
    first_free_room st sem p rooms room /\
    first_eligible_teacher st sem p teachers teacher /\
    let s1 := mkSection c (section_counter st + 1) p sem (cls_id room) (tch_id teacher) in
    (scheduled_sections st' = scheduled_sections st ++ [s1] \/
     scheduled_sections st' = scheduled_sections st ++ [s1; twin_of s1]).
Proof.
  unfold schedule_unit in Hrun. apply rbind_Ok in Hrun as (r & Hloop & Hret).
  destruct r as [[] st1]; cbn [fst snd] in Hret; injection Hret as <-.
  2:{ apply semesters_loop_flag in Hloop as [[[= <-] _]|Htrue]; [|done].
      by destruct Hplaced. }
  apply semesters_loop_hit in Hloop
    as (earlier & sem & later & before & p & after & Hsems & Hps & Hearlier & Hbefore & Hhit);
    [|done].
  apply try_period_hit in Hhit as (room & teacher & Hroom & Hteacher & Hst); [|done].
  cbn [snd] in Hst.
  pose proof (semesters_split _ _ _ _ Hsems) as Hsplit.
  pose proof (seqZ_split _ _ _ _ _ Hps) as [_ Hpsplit].
  exists sem, p, room, teacher. split_and!; try done.
  - rewrite Hsems. apply elem_of_app. right. apply elem_of_cons. by left.
  - rewrite Hps. apply elem_of_app. right. apply elem_of_cons. by left.
  - intros sem' p' Hsem' Hp' [Hlt|[-> Hlt]].
    + apply Hearlier; [|done]. by apply Hsplit.
    + apply Hbefore. apply Hpsplit. apply elem_of_seqZ in Hp'. lia.
  - cbv zeta. destruct Hst as [->|(_ & -> & ->)]; [by left|]. right.
    cbn. by rewrite <- app_assoc.
Qed.

Lemma X21_first_fit_witness :
  exists st',
    schedule_unit 2 (mkCourse "ENG9" "English 9" ENGLISH REGULAR 10 2 GENERAL) "ENG9"
      [classroom_of 25 GENERAL 1; classroom_of 25 GENERAL 2]
      [regular_teacher_of 2 ENGLISH 0 1]
      (initial_state 2 [classroom_of 25 GENERAL 1; classroom_of 25 GENERAL 2]
                     [regular_teacher_of 2 ENGLISH 0 1]) = Ok st' /\
    exists sem p room teacher,
      sem ∈ semesters_to_schedule (mkCourse "ENG9" "English 9" ENGLISH REGULAR 10 2 GENERAL) /\
      p ∈ seqZ 1 2 /\
      (forall sem' p',
         sem' ∈ semesters_to_schedule
                  (mkCourse "ENG9" "English 9" ENGLISH REGULAR 10 2 GENERAL) ->
         p' ∈ seqZ 1 2 ->
         sem' < sem \/ (sem' = sem /\ p' < p) ->
         ¬ fits [classroom_of 25 GENERAL 1; classroom_of 25 GENERAL 2]
             [regular_teacher_of 2 ENGLISH 0 1]
             (initial_state 2 [classroom_of 25 GENERAL 1; classroom_of 25 GENERAL 2]
                            [regular_teacher_of 2 ENGLISH 0 1]) sem' p') /\
      first_free_room
        (initial_state 2 [classroom_of 25 GENERAL 1; classroom_of 25 GENERAL 2]
                       [regular_teacher_of 2 ENGLISH 0 1])
        sem p [classroom_of 25 GENERAL 1; classroom_of 25 GENERAL 2] room /\
      first_eligible_teacher
        (initial_state 2 [classroom_of 25 GENERAL 1; classroom_of 25 GENERAL 2]
                       [regular_teacher_of 2 ENGLISH 0 1])
        sem p [regular_teacher_of 2 ENGLISH 0 1] teacher /\
      let s1 := mkSection "ENG9" (0 + 1) p sem (cls_id room) (tch_id teacher) in
      (scheduled_sections st' = [] ++ [s1] \/
       scheduled_sections st' = [] ++ [s1; twin_of s1]).
Proof.
  eexists. split; [vm_compute; reflexivity|].
  eapply (X21_first_fit 2 (mkCourse "ENG9" "English 9" ENGLISH REGULAR 10 2 GENERAL) "ENG9"
            [classroom_of 25 GENERAL 1; classroom_of 25 GENERAL 2]
            [regular_teacher_of 2 ENGLISH 0 1]
            (initial_state 2 [classroom_of 25 GENERAL 1; classroom_of 25 GENERAL 2]
                           [regular_teacher_of 2 ENGLISH 0 1])).
  - vm_compute. reflexivity.
  - intros Heq. apply (f_equal section_counter) in Heq. vm_compute in Heq. discriminate.
Defined.
(** ** capacity_analysis.py: the sections an enrolment level needs *)

Lemma for_each_bind {A B S} (g : S -> B -> result S) (h : A -> list B) (xs : list A) :
  forall s, for_each (fun s x => for_each g (h x) s) xs s = for_each g (xs ≫= h) s.
Proof.
  induction xs as [|x xs IH]; intros s; [done|].
  cbn [for_each]. rewrite bind_cons, for_each_app.
  destruct (for_each g (h x) s) as [s1|e]; cbn [rbind]; [apply IH | done].
Qed.

Lemma foldl_flag {A} (bad : A -> Prop) `{forall x, Decision (bad x)} (l : list A) :
  forall b, foldl (fun flag x => if decide (bad x) then false else flag) b l = true <->
            b = true /\ Forall (fun x => ¬ bad x) l.
Proof.
  induction l as [|x l IH]; intros b; cbn [foldl].
  - split; [by intros -> | by intros [-> _]].
  - rewrite IH, Forall_cons. destruct (decide (bad x)); naive_solver.
Qed.

Section CapacityFacts.
Variable catalog : list (string * Course).
Variable paths : GraduationPath -> GraduationPathPlan.

Lemma count_codes_get n rt codes :
  forall rs,
    exists rs',
      for_each (count_code catalog n) codes rs = Ok rs' /\
      (NoDup (dict_keys rs) -> NoDup (dict_keys rs')) /\
      dict_get rs' rt =
        if decide (filter (fun c => room_type_required <$> dict_get catalog c = Some rt)
                          codes = [])
        then dict_get rs rt
        else Some (default 0 (dict_get rs rt) +
                   ceiling n MAX_CLASS_SIZE *
                   Z.of_nat (length (filter (fun c => room_type_required <$>
                                                        dict_get catalog c = Some rt)
                                            codes))).
Proof.
  induction codes as [|c codes IH]; intros rs.
  - exists rs. split; [done|]. split; [done|]. by rewrite decide_True.
  - cbn [for_each]. unfold count_code at 1. rewrite filter_cons.
    destruct (dict_get catalog c) as [course|] eqn:Hc; cbn [fmap option_fmap option_map].
    + rewrite ceil_div_Ok by done. cbn [rbind]. cbv zeta.
      destruct (IH (dict_set rs (room_type_required course)
                      (default 0 (dict_get rs (room_type_required course)) +
                       ceiling n MAX_CLASS_SIZE))) as (rs' & -> & Hnd & Hget).
      exists rs'. split; [done|]. split.
      { intros Hrs. apply Hnd. by apply dict_set_NoDup. }
      rewrite Hget. destruct (decide (Some (room_type_required course) = Some rt)) as [Heq|Hne].
      * injection Heq as ->. rewrite dict_get_set_eq.
        rewrite (decide_False (P := _ :: _ = [])) by done.
        destruct (decide (filter _ codes = [])) as [->|_]; cbn [default length];
          f_equal; unfold id; lia.
      * rewrite dict_get_set_ne by congruence. done.
    + cbn [rbind]. destruct (IH rs) as (rs' & -> & Hnd & Hget).
      exists rs'. split; [done|]. split; [done|].
      rewrite Hget. by rewrite (decide_False (P := None = Some rt)) by done.
Qed.

Lemma sections_needed_for_enrollment_flat n :
  sections_needed_for_enrollment catalog paths n =
    for_each (count_code catalog n) (semester1_listings paths) [].
Proof.
  unfold sections_needed_for_enrollment, semester1_listings.
  rewrite (for_each_bind
             (fun rs year_plan => for_each (count_code catalog n)
                                           (semester1_courses year_plan) rs)
             year_plans).
  apply (for_each_bind (count_code catalog n) semester1_courses).
Qed.

Lemma sections_needed_for_enrollment_spec n :
  exists rs,
    sections_needed_for_enrollment catalog paths n = Ok rs /\
    NoDup (dict_keys rs) /\
    forall rt,
      dict_get rs rt =
        if decide (room_listings catalog paths rt = 0) then None
        else Some (ceiling n MAX_CLASS_SIZE * room_listings catalog paths rt).
Proof.
  rewrite sections_needed_for_enrollment_flat.
  assert (forall rt, exists rs,
            for_each (count_code catalog n) (semester1_listings paths) [] = Ok rs /\
            NoDup (dict_keys rs) /\
            dict_get rs rt =
              if decide (room_listings catalog paths rt = 0) then None
              else Some (ceiling n MAX_CLASS_SIZE * room_listings catalog paths rt)) as Hrt.
  { intros rt. destruct (count_codes_get n rt (semester1_listings paths) [])
      as (rs & Hrun & Hnd & Hget).
    exists rs. split; [done|]. split; [apply Hnd, NoDup_nil_2|].
    rewrite Hget. unfold room_listings.
    destruct (filter _ (semester1_listings paths)) as [|x f].
    - rewrite decide_True by done. by rewrite decide_True by done.
    - rewrite decide_False by done. rewrite decide_False by (cbn; lia).
      cbn [dict_get default]. f_equal; unfold id; lia. }
  destruct (Hrt GENERAL) as (rs & Hrun & Hnd & _). exists rs.
  split; [done|]. split; [done|]. intros rt.
  destruct (Hrt rt) as (rs' & Hrun' & _ & Hget). congruence.
Qed.

(** X22.  For an enrolment level of magnitude below 2^53,
    [sections_needed_for_enrollment] counts ceil(level / 25) sections for
    every semester-1 listing of a catalog course, path by path and year by
    year: a room type has the product of that ceiling and the number of such
    listings that require it, and no entry without one. *)
Theorem X22_sections_for_enrollment (n : Z) (Hrange : double_exact n) :
  exists rs,
    sections_needed_for_enrollment catalog paths n = Ok rs /\
    forall rt,
      dict_get rs rt =
        if decide (room_listings catalog paths rt = 0) then None
        else Some (ceiling n MAX_CLASS_SIZE * room_listings catalog paths rt).
Proof.
  destruct (sections_needed_for_enrollment_spec n) as (rs & Hrun & _ & Hget).
  by exists rs.
Qed.

(** X23.  Feasibility goes down with the enrolment: when the rooms of
    [ACTUAL_ROOMS] suffice for an enrolment level (the flag [feasible] of
    [calculate_max_enrollment]), they suffice for every smaller level.  So
    the last feasible level of its increasing list is the greatest one. *)
Theorem X23_feasible_monotone (n m : Z)
    (Hn : double_exact n) (Hm : double_exact m) (Hle : n <= m)
    (Hfeasible : feasible catalog paths m = Ok true) :
  feasible catalog paths n = Ok true.
Proof.
  unfold feasible in *.
  destruct (sections_needed_for_enrollment_spec n) as (rsn & -> & Hndn & Hgetn).
  destruct (sections_needed_for_enrollment_spec m) as (rsm & Hrunm & Hndm & Hgetm).
  rewrite Hrunm in Hfeasible. cbn [rbind] in *. injection Hfeasible as Hflag. f_equal.
  assert (forall l b,
            foldl (fun flag '(rt, sections_needed) =>
                     let capacity := default 0 (dict_get total_capacity rt) in
                     if decide (sections_needed > capacity) then false else flag) b l =
            foldl (fun flag (x : RoomType * Z) =>
                     if decide (x.2 > default 0 (dict_get total_capacity x.1))
                     then false else flag) b l) as Hfold.
  { induction l as [|[rt v] l IH]; intros b; [done|]. cbn [foldl]. by rewrite IH. }
  rewrite Hfold in Hflag. rewrite Hfold.
  apply foldl_flag in Hflag as [_ Hall]. apply foldl_flag. split; [done|].
  rewrite Forall_forall in Hall. apply Forall_forall. intros [rt v] Hin. cbn [fst snd].
  apply (dict_get_elem _ _ _ Hndn) in Hin. rewrite Hgetn in Hin.
  destruct (decide (room_listings catalog paths rt = 0)) as [|Hcount]; [done|].
  injection Hin as <-.
  assert ((rt, ceiling m MAX_CLASS_SIZE * room_listings catalog paths rt) ∈ rsm) as Hinm.
  { apply dict_get_Some_elem. rewrite Hgetm. by rewrite decide_False. }
  specialize (Hall _ Hinm). cbn [fst snd] in Hall.
  assert (ceiling n MAX_CLASS_SIZE <= ceiling m MAX_CLASS_SIZE) as Hceil.
  { unfold ceiling, MAX_CLASS_SIZE.
    pose proof (Z.div_le_mono (- m) (- n) 25). lia. }
  assert (0 <= room_listings catalog paths rt) as Hpos by (unfold room_listings; lia).
  nia.
Qed.
End CapacityFacts.

Lemma X22_sections_for_enrollment_witness :
  exists rs,
    sections_needed_for_enrollment COURSE_CATALOG get_all_paths 30 = Ok rs /\
    forall rt,
      dict_get rs rt =
        if decide (room_listings COURSE_CATALOG get_all_paths rt = 0) then None
        else Some (ceiling 30 MAX_CLASS_SIZE * room_listings COURSE_CATALOG get_all_paths rt).
Proof.
  apply (X22_sections_for_enrollment COURSE_CATALOG get_all_paths 30).
  apply (bool_decide_unpack _). vm_compute. exact I.
Defined.

Lemma X23_feasible_monotone_witness :
  feasible COURSE_CATALOG get_all_paths 10 = Ok true.
Proof.
  apply (X23_feasible_monotone COURSE_CATALOG get_all_paths 10 25).
  - apply (bool_decide_unpack _). vm_compute. exact I.
  - apply (bool_decide_unpack _). vm_compute. exact I.
  - lia.
  - vm_compute. reflexivity.
Defined.
(** ** [calculate_requirements] *)

Lemma sum_values_dict_set {K} `{EqDecision K} (d : list (K * Z)) k v :
  sum (dict_values (dict_set d k v)) = sum (dict_values d) - default 0 (dict_get d k) + v.
Proof.
  unfold dict_values.
  pose proof (sum_dict_set (fun v : Z => v) d k v) as Hs.
  assert (forall l : list (K * Z), (fun e : K * Z => e.2) <$> l = l.*2) as Hfmap by done.
  rewrite !Hfmap in Hs. rewrite Hs. by destruct (dict_get d k).
Qed.

Lemma grand_total_add yrs y rt n :
  grand_total (add_room_sections yrs y rt n) = grand_total yrs + n.
Proof.
  unfold grand_total, add_room_sections. cbv zeta.
  rewrite (sum_dict_set (fun inner : list (RoomType * Z) => sum (dict_values inner))).
  rewrite sum_values_dict_set.
  destruct (dict_get yrs y) as [inner|]; cbn [from_option default]; unfold id.
  - lia.
  - change (sum (dict_values [])) with 0. cbn [dict_get default]. unfold id. lia.
Qed.

(** A loop that writes one entry per key of a dictionary with distinct keys
    maps the values. *)
Lemma foldl_dict_map {K V W} `{EqDecision K} (g : V -> W) (d : list (K * V)) :
  NoDup (dict_keys d) ->
  forall acc, NoDup (dict_keys acc ++ dict_keys d) ->
    foldl (fun acc '(k, v) => dict_set acc k (g v)) acc d =
      acc ++ ((fun e : K * V => (e.1, g e.2)) <$> d).
Proof.
  intros _. induction d as [|[k v] d IH]; intros acc Hnd.
  - cbn. by rewrite app_nil_r.
  - cbn [foldl]. unfold dict_keys in Hnd. rewrite fmap_cons in Hnd. cbn [fst] in Hnd.
    apply NoDup_app in Hnd as (Hacc & Hdisj & Hd). apply NoDup_cons in Hd as [Hk Hd].
    rewrite dict_set_fresh.
    2:{ intros Hin. apply (Hdisj k Hin). apply elem_of_cons. by left. }
    rewrite IH.
    + rewrite fmap_cons. cbn [fst snd]. by rewrite <- app_assoc.
    + rewrite dict_keys_app. cbn. rewrite <- app_assoc. cbn.
      apply NoDup_app. split_and!; [done| |by apply NoDup_cons].
      intros x Hx Hx'. by apply (Hdisj x).
Qed.

Section RequirementsFacts.
Variable catalog : list (string * Course).
Variable paths : GraduationPath -> GraduationPathPlan.
Variable set_order : list string -> list string.

Lemma year_room_sections_NoDup sn : NoDup (dict_keys (year_room_sections catalog sn)).
Proof.
  unfold year_room_sections. apply foldl_dict_NoDup; [|apply NoDup_nil_2].
  intros d [c ys] Hd. destruct (dict_get catalog c) as [course|]; [|done].
  apply foldl_dict_NoDup; [|done].
  intros d' [y n] Hd'. by apply dict_set_NoDup.
Qed.

Lemma grand_total_course course ys :
  forall yrs,
    grand_total
      (foldl (fun yrs '(y, num_sections) =>
                let rt := room_type_required course in
                add_room_sections yrs y rt num_sections) yrs ys) =
      grand_total yrs + sum (dict_values ys).
Proof.
  induction ys as [|[y n] ys IH]; intros yrs.
  - cbn [foldl]. change (sum (dict_values [])) with 0. lia.
  - cbn [foldl]. rewrite IH. cbv zeta. rewrite grand_total_add.
    unfold dict_values. rewrite fmap_cons, sum_cons. cbn [snd]. lia.
Qed.

Lemma grand_total_sections sn :
  grand_total (year_room_sections catalog sn) = sum (catalog_sections catalog <$> sn).
Proof.
  unfold year_room_sections.
  assert (forall yrs,
            grand_total
              (foldl (fun yrs '(c, year_sections) =>
                        match dict_get catalog c with
                        | None => yrs
                        | Some course =>
                            foldl (fun yrs '(y, num_sections) =>
                                     let rt := room_type_required course in
                                     add_room_sections yrs y rt num_sections)
                                  yrs year_sections
                        end) yrs sn) =
              grand_total yrs + sum (catalog_sections catalog <$> sn)) as Hfold.
  { induction sn as [|[c ys] sn IH]; intros yrs.
    - cbn [foldl]. rewrite fmap_nil. change (sum []) with 0. lia.
    - cbn [foldl]. rewrite IH, fmap_cons, sum_cons.
      unfold catalog_sections at 2. cbn [fst snd].
      destruct (dict_get catalog c) as [course|]; [|lia].
      rewrite grand_total_course. lia. }
  rewrite Hfold. unfold grand_total. rewrite fmap_nil. change (sum []) with 0. lia.
Qed.

Lemma calculate_sections_needed_NoDup cfg sn :
  calculate_sections_needed paths set_order cfg = Ok sn -> NoDup (dict_keys sn).
Proof.
  unfold calculate_sections_needed. intros Hrun. revert Hrun.
  apply (for_each_preserves (fun sn : list (string * list (Z * Z)) => NoDup (dict_keys sn)));
    [|apply NoDup_nil_2].
  intros sn0 [c yd] sn1 _ Hsn0.
  apply (for_each_preserves (fun sn : list (string * list (Z * Z)) => NoDup (dict_keys sn)));
    [|done].
  intros sn2 yn sn3 _ Hsn2 Hstep. unfold set_sections in Hstep.
  apply rbind_Ok in Hstep as (n & _ & Hret). injection Hret as <-.
  by apply dict_set_NoDup.
Qed.

(** X24.  What [calculate_requirements] returns: the minimum classrooms and
    teachers of the two calculations; for every code of [sections_needed],
    in the catalog or not, its sections of all years; and per-year totals
    that together count the sections of the codes that the catalog has, and
    of no other code. *)
Theorem X24_requirements (cfg : Config) (req : ResourceRequirements)
    (Hrun : calculate_requirements catalog paths set_order cfg = Ok req) :
  exists sn,
    calculate_sections_needed paths set_order cfg = Ok sn /\
    calculate_min_classrooms catalog paths set_order cfg = Ok (min_classrooms req) /\
    calculate_min_teachers catalog paths set_order cfg = Ok (min_teachers req) /\
    (forall c,
       dict_get (course_sections req) c =
         (fun ys : list (Z * Z) => sum (dict_values ys)) <$> dict_get sn c) /\
    sum (dict_values (total_sections_per_period req)) =
      sum (catalog_sections catalog <$> sn).
Proof.
  unfold calculate_requirements in Hrun.
  apply rbind_Ok in Hrun as (sn & Hsn & Hrun). cbv zeta in Hrun.
  apply rbind_Ok in Hrun as (yrs & Hyrs & Hrun).
  apply rbind_Ok in Hrun as (mc & Hmc & Hrun).
  apply rbind_Ok in Hrun as (mt & Hmt & Hrun). injection Hrun as <-.
  cbn [min_classrooms min_teachers course_sections total_sections_per_period].
  unfold calculate_concurrent_sections in Hyrs. rewrite Hsn in Hyrs. cbn [rbind] in Hyrs.
  injection Hyrs as <-.
  pose proof (calculate_sections_needed_NoDup cfg sn Hsn) as Hnd.
  exists sn. split_and!; try done.
  - intros c.
    rewrite (foldl_dict_map (fun ys : list (Z * Z) => sum (dict_values ys)) sn Hnd [])
      by (by rewrite app_nil_l).
    rewrite app_nil_l.
    apply (dict_get_fmap_value (fun ys : list (Z * Z) => sum (dict_values ys))).
  - rewrite (foldl_dict_map (fun rs : list (RoomType * Z) => sum (dict_values rs))
               (year_room_sections catalog sn) (year_room_sections_NoDup sn) [])
      by (rewrite app_nil_l; apply year_room_sections_NoDup).
    rewrite app_nil_l. unfold dict_values at 1. rewrite <- list_fmap_compose.
    rewrite <- grand_total_sections. done.
Qed.
End RequirementsFacts.

Lemma X24_requirements_witness :
  exists req,
    calculate_requirements COURSE_CATALOG get_all_paths first_seen
      (mkConfig [(MINIMUM, 20); (PRE_MED, 20); (ENGINEERING, 20)] 25 6) = Ok req /\
    exists sn,
      calculate_sections_needed get_all_paths first_seen
        (mkConfig [(MINIMUM, 20); (PRE_MED, 20); (ENGINEERING, 20)] 25 6) = Ok sn /\
      calculate_min_classrooms COURSE_CATALOG get_all_paths first_seen
        (mkConfig [(MINIMUM, 20); (PRE_MED, 20); (ENGINEERING, 20)] 25 6)
        = Ok (min_classrooms req) /\
      calculate_min_teachers COURSE_CATALOG get_all_paths first_seen
        (mkConfig [(MINIMUM, 20); (PRE_MED, 20); (ENGINEERING, 20)] 25 6)
        = Ok (min_teachers req) /\
      (forall c,
         dict_get (course_sections req) c =
           (fun ys : list (Z * Z) => sum (dict_values ys)) <$> dict_get sn c) /\
      sum (dict_values (total_sections_per_period req)) =
        sum (catalog_sections COURSE_CATALOG <$> sn).
Proof.
  eexists. split; [vm_compute; reflexivity|].
  eapply (X24_requirements COURSE_CATALOG get_all_paths first_seen
            (mkConfig [(MINIMUM, 20); (PRE_MED, 20); (ENGINEERING, 20)] 25 6)).
  vm_compute. reflexivity.
Defined.
